(** * asyncobj: the Helper lifecycle state machine (helper.go)

    A shallow embedding of [Helper], the state machine that manages
    asynchronous activation and shutdown of an object, and the properties
    of its transitions.

    The Go methods are embedded as computations in a small monad over the
    [Helper] struct.  Every method body that runs between [h.Lock.Lock()]
    and [h.Lock.Unlock()] is one atomic step; the two pieces of code that
    span several critical sections ([DoOnceActivate] and the goroutine
    started by [asyncDoStartedShutdown]) are embedded as goroutines with a
    program counter, and a system is a [Helper] together with a pool of
    goroutines, run under an arbitrary schedule. *)

From stdpp Require Import base numbers list strings.
From Stdlib Require Import ZArith Lia.

Local Open Scope string_scope.
Local Open Scope Z_scope.
Local Open Scope list_scope.

(** ** Data model *)

(** Go's [error] interface: [nil] or an error carrying its message. *)
Definition error : Type := option string.
Definition nilError : error := None.
Definition errors_New (msg : string) : error := Some msg.

(** [type State int] and its [iota] constants. *)
Definition State : Type := Z.
Definition StateUnactivated : State := 0.
Definition StateActivating : State := 1.
Definition StateActivated : State := 2.
Definition StateShuttingDown : State := 3.
Definition StateLocalShutdown : State := 4.
Definition StateShutDown : State := 5.

(** Go's [int] on a 64-bit platform: arithmetic wraps around. *)
Definition intBits : Z := 64.
Definition wrapInt (z : Z) : Z :=
  (z + 2 ^ (intBits - 1)) mod 2 ^ intBits - 2 ^ (intBits - 1).

(** [type OnceActivateCallback func() error] and
    [type OnceShutdownHandler func(completionError error) error].
    A Go func value may be nil, hence these appear under [option]. *)
Definition OnceActivateCallback : Type := unit -> error.
Definition OnceShutdownHandler : Type := error -> error.

(** The managed object [obj interface{}]: what matters to the helper is
    which of the two optional interfaces its dynamic type implements.
    [None] means that the type assertion [obj.(I)] panics. *)
Record ManagedObj : Type := {
  HandleOnceActivate : option OnceActivateCallback;
  HandleOnceShutdown : option OnceShutdownHandler
}.

(** The logger comes from package github.com/sammck-go/logger, which is
    not part of this repository.  A logger is represented by the messages
    it has received on [Panic], its fatal reporter, and by whether its
    [Panic] returns to the caller (a logger that only records) or panics. *)
Record Logger : Type := {
  panicReturns : bool;
  fatalEvents : list string
}.

(** [llogger.NilLogger], the logger attached when none is given.  It is
    taken to be one whose [Panic] returns; the invariants below are proved
    for both kinds of logger, so nothing depends on this choice. *)
Definition NilLogger : Logger :=
  {| panicReturns := true; fatalEvents := [] |}.

(** A [chan struct{}] that is only ever closed: open or closed. *)
Inductive Chan : Type := ChanOpen | ChanClosed.

Definition isClosed (c : Chan) : bool :=
  match c with ChanClosed => true | ChanOpen => false end.

(** [type Helper struct].  [Lock] records whether the mutex is held;
    [wg] is the counter of the [sync.WaitGroup]. *)
Record Helper : Type := {
  lg : Logger;
  obj : ManagedObj;
  Lock : bool;
  state : State;
  shutdownHandler : option OnceShutdownHandler;
  shutdownDeferCount : Z;
  isActivated : bool;
  isScheduledShutdown : bool;
  shutdownErr : error;
  activatingDoneChan : Chan;
  shutdownStartedChan : Chan;
  localShutdownDoneChan : Chan;
  shutdownDoneChan : Chan;
  wg : Z
}.

Definition set_lg (x : Logger) (h : Helper) : Helper :=
  {| lg := x; obj := obj h; Lock := Lock h; state := state h;
     shutdownHandler := shutdownHandler h;
     shutdownDeferCount := shutdownDeferCount h;
     isActivated := isActivated h;
     isScheduledShutdown := isScheduledShutdown h;
     shutdownErr := shutdownErr h;
     activatingDoneChan := activatingDoneChan h;
     shutdownStartedChan := shutdownStartedChan h;
     localShutdownDoneChan := localShutdownDoneChan h;
     shutdownDoneChan := shutdownDoneChan h; wg := wg h |}.

Definition set_Lock (x : bool) (h : Helper) : Helper :=
  {| lg := lg h; obj := obj h; Lock := x; state := state h;
     shutdownHandler := shutdownHandler h;
     shutdownDeferCount := shutdownDeferCount h;
     isActivated := isActivated h;
     isScheduledShutdown := isScheduledShutdown h;
     shutdownErr := shutdownErr h;
     activatingDoneChan := activatingDoneChan h;
     shutdownStartedChan := shutdownStartedChan h;
     localShutdownDoneChan := localShutdownDoneChan h;
     shutdownDoneChan := shutdownDoneChan h; wg := wg h |}.

Definition set_state (x : State) (h : Helper) : Helper :=
  {| lg := lg h; obj := obj h; Lock := Lock h; state := x;
     shutdownHandler := shutdownHandler h;
     shutdownDeferCount := shutdownDeferCount h;
     isActivated := isActivated h;
     isScheduledShutdown := isScheduledShutdown h;
     shutdownErr := shutdownErr h;
     activatingDoneChan := activatingDoneChan h;
     shutdownStartedChan := shutdownStartedChan h;
     localShutdownDoneChan := localShutdownDoneChan h;
     shutdownDoneChan := shutdownDoneChan h; wg := wg h |}.

Definition set_shutdownHandler (x : option OnceShutdownHandler)
    (h : Helper) : Helper :=
  {| lg := lg h; obj := obj h; Lock := Lock h; state := state h;
     shutdownHandler := x;
     shutdownDeferCount := shutdownDeferCount h;
     isActivated := isActivated h;
     isScheduledShutdown := isScheduledShutdown h;
     shutdownErr := shutdownErr h;
     activatingDoneChan := activatingDoneChan h;
     shutdownStartedChan := shutdownStartedChan h;
     localShutdownDoneChan := localShutdownDoneChan h;
     shutdownDoneChan := shutdownDoneChan h; wg := wg h |}.

Definition set_shutdownDeferCount (x : Z) (h : Helper) : Helper :=
  {| lg := lg h; obj := obj h; Lock := Lock h; state := state h;
     shutdownHandler := shutdownHandler h;
     shutdownDeferCount := x;
     isActivated := isActivated h;
     isScheduledShutdown := isScheduledShutdown h;
     shutdownErr := shutdownErr h;
     activatingDoneChan := activatingDoneChan h;
     shutdownStartedChan := shutdownStartedChan h;
     localShutdownDoneChan := localShutdownDoneChan h;
     shutdownDoneChan := shutdownDoneChan h; wg := wg h |}.

Definition set_isActivated (x : bool) (h : Helper) : Helper :=
  {| lg := lg h; obj := obj h; Lock := Lock h; state := state h;
     shutdownHandler := shutdownHandler h;
     shutdownDeferCount := shutdownDeferCount h;
     isActivated := x;
     isScheduledShutdown := isScheduledShutdown h;
     shutdownErr := shutdownErr h;
     activatingDoneChan := activatingDoneChan h;
     shutdownStartedChan := shutdownStartedChan h;
     localShutdownDoneChan := localShutdownDoneChan h;
     shutdownDoneChan := shutdownDoneChan h; wg := wg h |}.

Definition set_isScheduledShutdown (x : bool) (h : Helper) : Helper :=
  {| lg := lg h; obj := obj h; Lock := Lock h; state := state h;
     shutdownHandler := shutdownHandler h;
     shutdownDeferCount := shutdownDeferCount h;
     isActivated := isActivated h;
     isScheduledShutdown := x;
     shutdownErr := shutdownErr h;
     activatingDoneChan := activatingDoneChan h;
     shutdownStartedChan := shutdownStartedChan h;
     localShutdownDoneChan := localShutdownDoneChan h;
     shutdownDoneChan := shutdownDoneChan h; wg := wg h |}.

Definition set_shutdownErr (x : error) (h : Helper) : Helper :=
  {| lg := lg h; obj := obj h; Lock := Lock h; state := state h;
     shutdownHandler := shutdownHandler h;
     shutdownDeferCount := shutdownDeferCount h;
     isActivated := isActivated h;
     isScheduledShutdown := isScheduledShutdown h;
     shutdownErr := x;
     activatingDoneChan := activatingDoneChan h;
     shutdownStartedChan := shutdownStartedChan h;
     localShutdownDoneChan := localShutdownDoneChan h;
     shutdownDoneChan := shutdownDoneChan h; wg := wg h |}.

Definition set_activatingDoneChan (x : Chan) (h : Helper) : Helper :=
  {| lg := lg h; obj := obj h; Lock := Lock h; state := state h;
     shutdownHandler := shutdownHandler h;
     shutdownDeferCount := shutdownDeferCount h;
     isActivated := isActivated h;
     isScheduledShutdown := isScheduledShutdown h;
     shutdownErr := shutdownErr h;
     activatingDoneChan := x;
     shutdownStartedChan := shutdownStartedChan h;
     localShutdownDoneChan := localShutdownDoneChan h;
     shutdownDoneChan := shutdownDoneChan h; wg := wg h |}.

Definition set_shutdownStartedChan (x : Chan) (h : Helper) : Helper :=
  {| lg := lg h; obj := obj h; Lock := Lock h; state := state h;
     shutdownHandler := shutdownHandler h;
     shutdownDeferCount := shutdownDeferCount h;
     isActivated := isActivated h;
     isScheduledShutdown := isScheduledShutdown h;
     shutdownErr := shutdownErr h;
     activatingDoneChan := activatingDoneChan h;
     shutdownStartedChan := x;
     localShutdownDoneChan := localShutdownDoneChan h;
     shutdownDoneChan := shutdownDoneChan h; wg := wg h |}.

Definition set_localShutdownDoneChan (x : Chan) (h : Helper) : Helper :=
  {| lg := lg h; obj := obj h; Lock := Lock h; state := state h;
     shutdownHandler := shutdownHandler h;
     shutdownDeferCount := shutdownDeferCount h;
     isActivated := isActivated h;
     isScheduledShutdown := isScheduledShutdown h;
     shutdownErr := shutdownErr h;
     activatingDoneChan := activatingDoneChan h;
     shutdownStartedChan := shutdownStartedChan h;
     localShutdownDoneChan := x;
     shutdownDoneChan := shutdownDoneChan h; wg := wg h |}.

Definition set_shutdownDoneChan (x : Chan) (h : Helper) : Helper :=
  {| lg := lg h; obj := obj h; Lock := Lock h; state := state h;
     shutdownHandler := shutdownHandler h;
     shutdownDeferCount := shutdownDeferCount h;
     isActivated := isActivated h;
     isScheduledShutdown := isScheduledShutdown h;
     shutdownErr := shutdownErr h;
     activatingDoneChan := activatingDoneChan h;
     shutdownStartedChan := shutdownStartedChan h;
     localShutdownDoneChan := localShutdownDoneChan h;
     shutdownDoneChan := x; wg := wg h |}.

Definition set_wg (x : Z) (h : Helper) : Helper :=
  {| lg := lg h; obj := obj h; Lock := Lock h; state := state h;
     shutdownHandler := shutdownHandler h;
     shutdownDeferCount := shutdownDeferCount h;
     isActivated := isActivated h;
     isScheduledShutdown := isScheduledShutdown h;
     shutdownErr := shutdownErr h;
     activatingDoneChan := activatingDoneChan h;
     shutdownStartedChan := shutdownStartedChan h;
     localShutdownDoneChan := localShutdownDoneChan h;
     shutdownDoneChan := shutdownDoneChan h; wg := x |}.

(** ** Goroutines

    [DoOnceActivate] releases and re-acquires the mutex, calls the
    activation hook and may wait on channels; the goroutine started by
    [asyncDoStartedShutdown] likewise.  Each is a goroutine with a program
    counter naming the next statement to run; the counters are placed at
    the points where the Go code can be interleaved with other goroutines. *)

Inductive ActivatePC : Type :=
| ActEntry               (* line 524: first h.Lock.Lock() *)
| ActAwaitActivating     (* line 534: <-h.activatingDoneChan *)
| ActRelock              (* line 535: h.Lock.Lock() *)
| ActShutdownStarted     (* line 547: after the unlock of line 546 *)
| ActCallHook            (* line 562: run the activation hook *)
| ActAfterHook           (* line 568: if err == nil { SetIsActivated } *)
| ActCheckErr            (* line 572: if err != nil { StartShutdown } *)
| ActUndefer             (* line 578: h.UndeferShutdown() *)
| ActWaitOnFail          (* line 581: optional h.WaitShutdown() *)
| ActReturned            (* the call has returned [err] *)
| ActPanicked.           (* the call ended in a Go panic *)

Inductive ShutdownPC : Type :=
| SdCallHandler          (* lines 857-862: run the shutdown hook *)
| SdLocalShutdown        (* lines 864-868 *)
| SdWaitGroup            (* line 869: h.wg.Wait() *)
| SdShutDown             (* lines 870-874 *)
| SdExited
| SdPanicked.

(** The goroutine of a registered child (lines 952, 974, 1008) and of
    [ShutdownOnContext] (line 728). *)
Inductive ChildKind : Type := ChildChan | AsyncChild | SyncCloseChild.

Inductive Goroutine : Type :=
| GActivate (pc : ActivatePC)
    (onceActivateCallback : option OnceActivateCallback)
    (waitOnFail : bool) (err : error)
| GShutdown (pc : ShutdownPC) (shutdownErr : error)
| GChild (kind : ChildKind)
| GContext (ctxErr : error)
| GDone.

(** ** The monad of method bodies

    A method body transforms the helper and may start goroutines.  It ends
    by returning, by a Go panic (a failed type assertion, closing a closed
    channel, a panicking logger), or it cannot start because a mutex or a
    channel it needs is not available. *)

Inductive Outcome (A : Type) : Type :=
| Ok (a : A) (h : Helper) (started : list Goroutine)
| Panicked (msg : string) (h : Helper) (started : list Goroutine)
| Blocked.
Arguments Ok {A} a h started.
Arguments Panicked {A} msg h started.
Arguments Blocked {A}.

Definition M (A : Type) : Type := Helper -> Outcome A.

Definition ret {A} (a : A) : M A := fun h => Ok a h [].

Definition bind {A B} (m : M A) (k : A -> M B) : M B := fun h =>
  match m h with
  | Ok a h1 g1 =>
      match k a h1 with
      | Ok b h2 g2 => Ok b h2 (g1 ++ g2)
      | Panicked msg h2 g2 => Panicked msg h2 (g1 ++ g2)
      | Blocked => Blocked
      end
  | Panicked msg h1 g1 => Panicked msg h1 g1
  | Blocked => Blocked
  end.

Notation "x <- m ;; k" := (bind m (fun x => k))
  (at level 100, m at next level, right associativity).
Notation "m ;;; k" := (bind m (fun _ => k))
  (at level 100, right associativity).

Definition get {A} (f : Helper -> A) : M A := fun h => Ok (f h) h [].
Definition modify (f : Helper -> Helper) : M unit := fun h => Ok tt (f h) [].
Definition gopanic {A} (msg : string) : M A := fun h => Panicked msg h [].
Definition go (g : Goroutine) : M unit := fun h => Ok tt h [g].
Definition block {A} : M A := fun _ => Blocked.

(** [h.Lock.Lock()] and [h.Lock.Unlock()]. *)
Definition Lock_Lock : M unit := fun h =>
  if Lock h then Blocked else Ok tt (set_Lock true h) [].
Definition Lock_Unlock : M unit := modify (set_Lock false).

(** [defer d] followed by [body]: [d] runs when [body] returns and also
    when it panics. *)
Definition defer {A} (d : M unit) (body : M A) : M A := fun h =>
  match body h with
  | Ok a h1 g1 =>
      match d h1 with
      | Ok _ h2 g2 => Ok a h2 (g1 ++ g2)
      | Panicked msg h2 g2 => Panicked msg h2 (g1 ++ g2)
      | Blocked => Blocked
      end
  | Panicked msg h1 g1 =>
      match d h1 with
      | Ok _ h2 g2 => Panicked msg h2 (g1 ++ g2)
      | Panicked msg' h2 g2 => Panicked msg' h2 (g1 ++ g2)
      | Blocked => Blocked
      end
  | Blocked => Blocked
  end.

(** [close(c)]: closing a closed channel panics. *)
Definition close (c : Helper -> Chan) (set_c : Chan -> Helper -> Helper)
    : M unit :=
  ch <- get c ;;
  match ch with
  | ChanOpen => modify (set_c ChanClosed)
  | ChanClosed => gopanic "close of closed channel"
  end.

(** [<-c] on a channel that is only ever closed. *)
Definition recv (c : Helper -> Chan) : M unit :=
  ch <- get c ;;
  match ch with
  | ChanClosed => ret tt
  | ChanOpen => block
  end.

(** [h.lg.Panic(msg)]. *)
Definition lg_Panic (msg : string) : M unit :=
  l <- get lg ;;
  modify (set_lg {| panicReturns := panicReturns l;
                    fatalEvents := fatalEvents l ++ [msg] |}) ;;;
  if panicReturns l then ret tt else gopanic msg.

(** [h.wg.Add(delta)], [h.wg.Done()] and [h.wg.Wait()]. *)
Definition wg_Add (delta : Z) : M unit :=
  n <- get wg ;;
  if n + delta <? 0 then gopanic "sync: negative WaitGroup counter"
  else modify (set_wg (n + delta)).
Definition wg_Done : M unit := wg_Add (-1).
Definition wg_Wait : M unit :=
  n <- get wg ;;
  if n =? 0 then ret tt else block.

(** ** Construction *)

Inductive Construction : Type :=
| Constructed (h : Helper)
| ConstructionPanic (msg : string).

(** [NewHelperWithShutdownHandler] (line 367).  The only capability that
    is looked at is [HandleOnceShutdowner], and only when no shutdown
    handler is given. *)
Definition NewHelperWithShutdownHandler (obj : ManagedObj)
    (logger : option Logger) (shutdownHandler : option OnceShutdownHandler)
    : Construction :=
  match shutdownHandler, HandleOnceShutdown obj with
  | None, None =>
      ConstructionPanic "interface conversion: not a HandleOnceShutdowner"
  | _, _ =>
      let logger := match logger with
                    | None => NilLogger
                    | Some l => l
                    end in
      Constructed
        {| lg := logger; obj := obj; Lock := false;
           state := StateUnactivated;
           shutdownHandler := shutdownHandler;
           shutdownDeferCount := 0;
           isActivated := false;
           isScheduledShutdown := false;
           shutdownErr := nilError;
           activatingDoneChan := ChanOpen;
           shutdownStartedChan := ChanOpen;
           localShutdownDoneChan := ChanOpen;
           shutdownDoneChan := ChanOpen;
           wg := 0 |}
  end.

(** [NewHelper] (line 393).  Its parameter has the static type
    [HandleOnceShutdowner]; the value may still be the nil interface. *)
Definition NewHelper (logger : option Logger) (obj : ManagedObj)
    : Construction :=
  NewHelperWithShutdownHandler obj logger None.

(** ** Methods that run in one piece *)

Definition Lg : M Logger := get lg.

Definition SetLg (l : Logger) : M unit := modify (set_lg l).

(** [SetOnceShutdownHandler] (line 415). *)
Definition SetOnceShutdownHandler (callback : option OnceShutdownHandler)
    : M error :=
  Lock_Lock ;;;
  defer Lock_Unlock (
    st <- get state ;;
    if StateActivated <=? st
    then ret (errors_New "Cannot SetOnceShutdownHandler after activation")
    else (modify (set_shutdownHandler callback) ;;; ret nilError)).

(** [GetAsyncObjState] (line 426). *)
Definition GetAsyncObjState : M State :=
  Lock_Lock ;;; defer Lock_Unlock (get state).

(** [DeferShutdown] (line 436). *)
Definition DeferShutdown : M error :=
  Lock_Lock ;;;
  defer Lock_Unlock (
    st <- get state ;;
    if StateShuttingDown <=? st
    then ret (errors_New "Shutdown already started; cannot defer")
    else (n <- get shutdownDeferCount ;;
          modify (set_shutdownDeferCount (wrapInt (n + 1))) ;;;
          ret nilError)).

(** [IsActivated] (line 448) reads the flag without the mutex. *)
Definition IsActivated : M bool := get isActivated.

(** [SetIsActivated] (line 462). *)
Definition SetIsActivated : M error :=
  Lock_Lock ;;;
  defer Lock_Unlock (
    a <- get isActivated ;;
    if negb a
    then (st <- get state ;;
          if StateShuttingDown <=? st
          then ret (errors_New "Cannot activate; shutdown already initiated")
          else (modify (set_isActivated true) ;;;
                modify (set_state StateActivated) ;;;
                close activatingDoneChan set_activatingDoneChan ;;;
                ret nilError))
    else ret nilError).

(** [lockedEnterShuttingDownState] (line 590); the mutex is held. *)
Definition lockedEnterShuttingDownState : M unit :=
  oldState <- get state ;;
  modify (set_state StateShuttingDown) ;;;
  (if oldState <? StateActivated
   then close activatingDoneChan set_activatingDoneChan
   else ret tt) ;;;
  close shutdownStartedChan set_shutdownStartedChan.

(** [asyncDoStartedShutdown] (line 855) starts the goroutine whose body
    is given by [resume] below. *)
Definition asyncDoStartedShutdown : M unit :=
  go (GShutdown SdCallHandler nilError).

(** [UndeferShutdown] (line 601).  On the misuse path the method returns
    after [h.lg.Panic] without releasing the mutex. *)
Definition UndeferShutdown : M unit :=
  Lock_Lock ;;;
  n <- get shutdownDeferCount ;;
  if n <? 1
  then lg_Panic "UndeferShutdown before DeferShutdown"
  else (modify (set_shutdownDeferCount (wrapInt (n - 1))) ;;;
        n' <- get shutdownDeferCount ;;
        sched <- get isScheduledShutdown ;;
        st <- get state ;;
        let doShutdownNow :=
          (n' =? 0) && sched && (st <? StateShuttingDown) in
        (if doShutdownNow then lockedEnterShuttingDownState else ret tt) ;;;
        Lock_Unlock ;;;
        (if doShutdownNow then asyncDoStartedShutdown else ret tt)).

(** [StartShutdown] (line 903). *)
Definition StartShutdown (completionErr : error) : M bool :=
  Lock_Lock ;;;
  sched <- get isScheduledShutdown ;;
  let isFirst := negb sched in
  doShutdownNow <-
    (if isFirst
     then (st <- get state ;;
           (if StateShuttingDown <=? st
            then lg_Panic "shutdown started before scheduled"
            else ret tt) ;;;
           modify (set_shutdownErr completionErr) ;;;
           modify (set_isScheduledShutdown true) ;;;
           n <- get shutdownDeferCount ;;
           let doShutdownNow := n =? 0 in
           (if doShutdownNow then lockedEnterShuttingDownState
            else ret tt) ;;;
           ret doShutdownNow)
     else ret false) ;;
  Lock_Unlock ;;;
  (if doShutdownNow then asyncDoStartedShutdown else ret tt) ;;;
  ret isFirst.

Definition IsScheduledShutdown : M bool :=
  Lock_Lock ;;; defer Lock_Unlock (get isScheduledShutdown).

Definition IsStartedShutdown : M bool :=
  Lock_Lock ;;;
  defer Lock_Unlock (st <- get state ;; ret (StateShuttingDown <=? st)).

Definition IsDoneLocalShutdown : M bool :=
  Lock_Lock ;;;
  defer Lock_Unlock (st <- get state ;; ret (StateLocalShutdown <=? st)).

Definition IsDoneShutdown : M bool :=
  Lock_Lock ;;;
  defer Lock_Unlock (st <- get state ;; ret (StateShutDown <=? st)).

(** [ShutdownWGAdd] (line 776).  The first component of the result says
    whether the returned pointer is [&h.wg] ([Some]) or nil ([None]). *)
Definition ShutdownWGAdd (delta : Z) : M (option unit * error) :=
  if delta <=? 0
  then ret (None, errors_New "ShutdownWGAdd: delta must be > 0")
  else (Lock_Lock ;;;
        defer Lock_Unlock (
          st <- get state ;;
          if StateShutDown <=? st
          then ret (None,
                    errors_New "Cannot add to ShutdownWG after StateShutdown")
          else (wg_Add delta ;;; ret (Some tt, nilError)))).

(** [WaitLocalShutdown] (line 816) and [WaitShutdown] (line 826). *)
Definition WaitLocalShutdown : M error :=
  recv localShutdownDoneChan ;;; get shutdownErr.

Definition WaitShutdown : M error :=
  recv shutdownDoneChan ;;; get shutdownErr.

(** The three registrations of a dependent child (lines 943, 965, 999):
    the part that runs in the caller. *)
Definition addChild (kind : ChildKind) (msg : string) : M error :=
  Lock_Lock ;;;
  st <- get state ;;
  if StateShutDown <=? st
  then (Lock_Unlock ;;; ret (errors_New msg))
  else (wg_Add 1 ;;; Lock_Unlock ;;; go (GChild kind) ;;; ret nilError).

Definition AddShutdownChildChan : M error :=
  addChild ChildChan
    "Cannot add shutdown child chan; StateShutdown already entered".

Definition AddAsyncShutdownChild : M error :=
  addChild AsyncChild
    "Cannot add async shutdown child; StateShutdown already entered".

Definition AddSyncCloseChild : M error :=
  addChild SyncCloseChild
    "Cannot add shutdown child chan; StateShutdown already entered".

(** [ShutdownOnContext] (line 727); [ctxErr] is what [ctx.Err()] returns
    once the context is done. *)
Definition ShutdownOnContext (ctxErr : error) : M unit :=
  go (GContext ctxErr).

(** ** [DoOnceActivate] and the shutdown goroutine, statement by statement *)

Definition cannotActivate : error :=
  errors_New "Shutdown of object already started; cannot SetIsActivated".

(** Lines 538-560 of [DoOnceActivate], run with the mutex held. *)
Definition activateLocked (cb : option OnceActivateCallback)
    (waitOnFail : bool) (err : error) : M Goroutine :=
  a <- get isActivated ;;
  if a : bool
  then (Lock_Unlock ;;; ret (GActivate ActReturned cb waitOnFail nilError))
  else (st <- get state ;;
        if StateShuttingDown <=? st
        then (Lock_Unlock ;;;
              ret (GActivate ActShutdownStarted cb waitOnFail err))
        else (n <- get shutdownDeferCount ;;
              modify (set_shutdownDeferCount (wrapInt (n + 1))) ;;;
              modify (set_state StateActivating) ;;;
              Lock_Unlock ;;;
              ret (GActivate ActCallHook cb waitOnFail err))).

(** The next statement of a [DoOnceActivate] call. *)
Definition resumeActivate (pc : ActivatePC)
    (cb : option OnceActivateCallback) (waitOnFail : bool) (err : error)
    : M Goroutine :=
  match pc with
  | ActEntry =>
      Lock_Lock ;;;
      a <- get isActivated ;;
      if a : bool
      then (Lock_Unlock ;;;
            ret (GActivate ActReturned cb waitOnFail nilError))
      else (st <- get state ;;
            if st =? StateActivating
            then (Lock_Unlock ;;;
                  ret (GActivate ActAwaitActivating cb waitOnFail err))
            else activateLocked cb waitOnFail err)
  | ActAwaitActivating =>
      recv activatingDoneChan ;;;
      ret (GActivate ActRelock cb waitOnFail err)
  | ActRelock =>
      Lock_Lock ;;; activateLocked cb waitOnFail err
  | ActShutdownStarted =>
      err1 <- (if waitOnFail then WaitShutdown else ret err) ;;
      let err2 := match err1 with
                  | None => cannotActivate
                  | Some _ => err1
                  end in
      ret (GActivate ActReturned cb waitOnFail err2)
  | ActCallHook =>
      err1 <- match cb with
              | Some f => ret (f tt)
              | None =>
                  o <- get obj ;;
                  match HandleOnceActivate o with
                  | Some f => ret (f tt)
                  | None =>
                      gopanic "interface conversion: not a HandleOnceActivator"
                  end
              end ;;
      ret (GActivate ActAfterHook cb waitOnFail err1)
  | ActAfterHook =>
      match err with
      | None =>
          err1 <- SetIsActivated ;;
          ret (GActivate ActCheckErr cb waitOnFail err1)
      | Some _ => ret (GActivate ActCheckErr cb waitOnFail err)
      end
  | ActCheckErr =>
      match err with
      | Some _ =>
          StartShutdown err ;;; ret (GActivate ActUndefer cb waitOnFail err)
      | None => ret (GActivate ActUndefer cb waitOnFail err)
      end
  | ActUndefer =>
      UndeferShutdown ;;; ret (GActivate ActWaitOnFail cb waitOnFail err)
  | ActWaitOnFail =>
      match err, waitOnFail with
      | Some _, true =>
          WaitShutdown ;;; ret (GActivate ActReturned cb waitOnFail err)
      | _, _ => ret (GActivate ActReturned cb waitOnFail err)
      end
  | ActReturned | ActPanicked => block
  end.

(** The call [h.DoOnceActivate(onceActivateCallback, waitOnFail)] about
    to run its first statement ([var err error] is nil). *)
Definition DoOnceActivate (onceActivateCallback : option OnceActivateCallback)
    (waitOnFail : bool) : Goroutine :=
  GActivate ActEntry onceActivateCallback waitOnFail nilError.

(** The next statement of the goroutine of [asyncDoStartedShutdown]
    (lines 856-875); [shutdownErr] is its local variable. *)
Definition resumeShutdown (pc : ShutdownPC) (shutdownErr1 : error)
    : M Goroutine :=
  match pc with
  | SdCallHandler =>
      sh <- get shutdownHandler ;;
      cur <- get shutdownErr ;;
      r <- match sh with
           | None =>
               o <- get obj ;;
               match HandleOnceShutdown o with
               | Some f => ret (f cur)
               | None =>
                   gopanic "interface conversion: not a HandleOnceShutdowner"
               end
           | Some f => ret (f cur)
           end ;;
      ret (GShutdown SdLocalShutdown r)
  | SdLocalShutdown =>
      Lock_Lock ;;;
      modify (set_shutdownErr shutdownErr1) ;;;
      modify (set_state StateLocalShutdown) ;;;
      close localShutdownDoneChan set_localShutdownDoneChan ;;;
      Lock_Unlock ;;;
      ret (GShutdown SdWaitGroup shutdownErr1)
  | SdWaitGroup =>
      wg_Wait ;;; ret (GShutdown SdShutDown shutdownErr1)
  | SdShutDown =>
      Lock_Lock ;;;
      modify (set_state StateShutDown) ;;;
      close shutdownDoneChan set_shutdownDoneChan ;;;
      Lock_Unlock ;;;
      ret (GShutdown SdExited shutdownErr1)
  | SdExited | SdPanicked => block
  end.

(** A goroutine continues either because the helper lets it ([resume]) or
    because of an event outside the helper ([resumeExternal]): the done
    channel of a child is closed, a child's own shutdown completes, the
    context is cancelled. *)
Definition resume (g : Goroutine) : M Goroutine :=
  match g with
  | GActivate pc cb w err => resumeActivate pc cb w err
  | GShutdown pc e => resumeShutdown pc e
  | GChild ChildChan => block
  | GChild AsyncChild | GChild SyncCloseChild =>
      recv localShutdownDoneChan ;;; wg_Done ;;; ret GDone
  | GContext _ => recv shutdownStartedChan ;;; ret GDone
  | GDone => block
  end.

Definition resumeExternal (g : Goroutine) : M Goroutine :=
  match g with
  | GChild ChildChan | GChild AsyncChild => wg_Done ;;; ret GDone
  | GContext ctxErr => StartShutdown ctxErr ;;; ret GDone
  | _ => block
  end.

(** What is left of a goroutine that panicked. *)
Definition crashed (g : Goroutine) : Goroutine :=
  match g with
  | GActivate _ cb w err => GActivate ActPanicked cb w err
  | GShutdown _ e => GShutdown SdPanicked e
  | _ => GDone
  end.

(** ** Systems and schedules *)

Record System : Type := {
  helper : Helper;
  pool : list Goroutine
}.

(** The calls a client can make at any time.  The remaining public
    methods ([Shutdown], [Close], [LocalShutdown], the [UndeferAnd...]
    family) are sequences of these with waits in between. *)
Inductive Call : Type :=
| CallSetLg (l : Logger)
| CallSetOnceShutdownHandler (callback : option OnceShutdownHandler)
| CallGetAsyncObjState
| CallDeferShutdown
| CallSetIsActivated
| CallUndeferShutdown
| CallStartShutdown (completionErr : error)
| CallShutdownWGAdd (delta : Z)
| CallWgDone
| CallAddShutdownChildChan
| CallAddAsyncShutdownChild
| CallAddSyncCloseChild
| CallShutdownOnContext (ctxErr : error).

Definition invoke (c : Call) : M unit :=
  match c with
  | CallSetLg l => SetLg l
  | CallSetOnceShutdownHandler cb => SetOnceShutdownHandler cb ;;; ret tt
  | CallGetAsyncObjState => GetAsyncObjState ;;; ret tt
  | CallDeferShutdown => DeferShutdown ;;; ret tt
  | CallSetIsActivated => SetIsActivated ;;; ret tt
  | CallUndeferShutdown => UndeferShutdown
  | CallStartShutdown e => StartShutdown e ;;; ret tt
  | CallShutdownWGAdd delta => ShutdownWGAdd delta ;;; ret tt
  | CallWgDone => wg_Done
  | CallAddShutdownChildChan => AddShutdownChildChan ;;; ret tt
  | CallAddAsyncShutdownChild => AddAsyncShutdownChild ;;; ret tt
  | CallAddSyncCloseChild => AddSyncCloseChild ;;; ret tt
  | CallShutdownOnContext e => ShutdownOnContext e
  end.

Inductive Action : Type :=
| Invoke (c : Call)
| Activate (onceActivateCallback : option OnceActivateCallback)
    (waitOnFail : bool)
| Run (i : nat)
| External (i : nat).

(** One goroutine of the pool takes a step.  A goroutine that panics is
    replaced by [crashed g] and the other goroutines may go on.  For a
    panic that nothing recovers (the goroutine of
    [asyncDoStartedShutdown], line 856, has no recover) the Go process
    ends there, so the runs of this model include every run of the
    program and, besides, continuations that no process has: a property
    proved for all runs holds for the program, while nothing about the
    program follows from what a continuation past such a panic does. *)
Definition stepGoroutine (code : Goroutine -> M Goroutine) (i : nat)
    (s : System) : option System :=
  match pool s !! i with
  | None => None
  | Some g =>
      match code g (helper s) with
      | Ok g' h' started =>
          Some {| helper := h'; pool := (<[i := g']> (pool s)) ++ started |}
      | Panicked _ h' started =>
          Some {| helper := h';
                  pool := (<[i := crashed g]> (pool s)) ++ started |}
      | Blocked => None
      end
  end.

(** [exec a s] is the system after action [a], or [None] when [a] cannot
    happen in [s] (the mutex is held, a channel is still open). *)
Definition exec (a : Action) (s : System) : option System :=
  match a with
  | Invoke c =>
      match invoke c (helper s) with
      | Ok _ h' started | Panicked _ h' started =>
          Some {| helper := h'; pool := pool s ++ started |}
      | Blocked => None
      end
  | Activate cb w =>
      Some {| helper := helper s; pool := pool s ++ [DoOnceActivate cb w] |}
  | Run i => stepGoroutine resume i s
  | External i => stepGoroutine resumeExternal i s
  end.

Fixpoint run (acts : list Action) (s : System) : option System :=
  match acts with
  | [] => Some s
  | a :: rest =>
      match exec a s with
      | Some s' => run rest s'
      | None => None
      end
  end.

Definition step (s s' : System) : Prop := exists a, exec a s = Some s'.

Definition boot (h : Helper) : System := {| helper := h; pool := [] |}.

(** The systems that arise from a constructed helper. *)
Definition reachable (s : System) : Prop :=
  exists obj logger shutdownHandler h0 acts,
    NewHelperWithShutdownHandler obj logger shutdownHandler = Constructed h0
    /\ run acts (boot h0) = Some s.

#[global] Arguments wrapInt : simpl never.

(** ** Transitions of the state field *)

(** The transitions the specification lists. *)
Definition specTransition (a b : State) : bool :=
  ((a =? 0) && (b =? 1)) || ((a =? 0) && (b =? 3)) ||
  ((a =? 1) && (b =? 2)) || ((a =? 1) && (b =? 3)) ||
  ((a =? 2) && (b =? 3)) || ((a =? 3) && (b =? 4)) ||
  ((a =? 4) && (b =? 5)).

(** The transitions the code performs: [SetIsActivated] called on an
    unactivated helper goes from 0 to 2 directly. *)
Definition codeTransition (a b : State) : bool :=
  specTransition a b || ((a =? 0) && (b =? 2)).

(** ** Invariants *)

Definition HInv (h : Helper) : Prop :=
  0 <= state h <= 5 /\
  (3 <= state h -> isScheduledShutdown h = true) /\
  (isActivated h = true -> 2 <= state h) /\
  (state h = 2 -> isActivated h = true) /\
  (activatingDoneChan h = ChanClosed <-> 2 <= state h) /\
  (shutdownStartedChan h = ChanClosed <-> 3 <= state h) /\
  (localShutdownDoneChan h = ChanClosed <-> 4 <= state h) /\
  (shutdownDoneChan h = ChanClosed <-> 5 <= state h) /\
  (0 < shutdownDeferCount h -> state h < 3).

Definition driverPC (g : Goroutine) : option ShutdownPC :=
  match g with
  | GShutdown pc _ => Some pc
  | _ => None
  end.

Definition drivers (l : list Goroutine) : list ShutdownPC := omap driverPC l.

Definition phaseOk (pc : ShutdownPC) (st : State) : Prop :=
  match pc with
  | SdCallHandler | SdLocalShutdown | SdPanicked => st = 3
  | SdWaitGroup | SdShutDown => st = 4
  | SdExited => st = 5
  end.

(** What a step of code other than the shutdown goroutine does. *)
Definition HStep (h h' : Helper) (started : list Goroutine) : Prop :=
  HInv h' /\
  (state h' = state h \/
   (state h < 3 /\
    (state h' = 3 \/ state h' = 2 \/ (state h = 0 /\ state h' = 1)))) /\
  drivers started =
    (if (state h <? 3) && (3 <=? state h') then [SdCallHandler] else []) /\
  (shutdownDeferCount h' = shutdownDeferCount h \/
   (state h < 3 /\
    shutdownDeferCount h' = wrapInt (shutdownDeferCount h + 1)) \/
   (1 <= shutdownDeferCount h /\
    shutdownDeferCount h' = wrapInt (shutdownDeferCount h - 1))).

Definition HStepOutcome {A} (h : Helper) (o : Outcome A) : Prop :=
  match o with
  | Ok _ h' started | Panicked _ h' started => HStep h h' started
  | Blocked => True
  end.

Definition HStepGoroutine (h : Helper) (o : Outcome Goroutine) : Prop :=
  match o with
  | Ok g' h' started => driverPC g' = None /\ HStep h h' started
  | Panicked _ h' started => HStep h h' started
  | Blocked => True
  end.

(** What a step of the shutdown goroutine does. *)
Definition DStep (h h' : Helper) (pc pc' : ShutdownPC)
    (started : list Goroutine) : Prop :=
  HInv h' /\ phaseOk pc' (state h') /\ started = [] /\
  shutdownDeferCount h' = shutdownDeferCount h /\
  (state h' = state h \/
   (state h = 3 /\ state h' = 4) \/ (state h = 4 /\ state h' = 5)).

Definition SInv (s : System) : Prop :=
  HInv (helper s) /\
  match drivers (pool s) with
  | [] => state (helper s) < 3
  | [pc] => phaseOk pc (state (helper s))
  | _ => False
  end.

(** What one action does to the state and the deferral count. *)
Definition SStep (s s' : System) : Prop :=
  (state (helper s') = state (helper s) \/
   (state (helper s) < 3 /\
    (state (helper s') = 3 \/ state (helper s') = 2 \/
     (state (helper s) = 0 /\ state (helper s') = 1))) \/
   (state (helper s) = 3 /\ state (helper s') = 4) \/
   (state (helper s) = 4 /\ state (helper s') = 5)) /\
  (shutdownDeferCount (helper s') = shutdownDeferCount (helper s) \/
   (state (helper s) < 3 /\
    shutdownDeferCount (helper s') =
      wrapInt (shutdownDeferCount (helper s) + 1)) \/
   (1 <= shutdownDeferCount (helper s) /\
    shutdownDeferCount (helper s') =
      wrapInt (shutdownDeferCount (helper s) - 1))).

(** The hook that lines 858-862 select: the explicit handler if there is
    one, else the [HandleOnceShutdown] method of the managed object. *)
Definition shutdownHook (h : Helper) : option OnceShutdownHandler :=
  match shutdownHandler h with
  | Some f => Some f
  | None => HandleOnceShutdown (obj h)
  end.

(** ** Concrete helpers used in the examples *)

(** An object with neither capability, managed through an explicit
    shutdown handler that returns the advisory error it is given. *)
Definition plainObj : ManagedObj :=
  {| HandleOnceActivate := None; HandleOnceShutdown := None |}.

Definition echoHandler : OnceShutdownHandler := fun e => e.

Definition freshHelper : Helper :=
  {| lg := NilLogger; obj := plainObj; Lock := false;
     state := StateUnactivated; shutdownHandler := Some echoHandler;
     shutdownDeferCount := 0; isActivated := false;
     isScheduledShutdown := false; shutdownErr := nilError;
     activatingDoneChan := ChanOpen; shutdownStartedChan := ChanOpen;
     localShutdownDoneChan := ChanOpen; shutdownDoneChan := ChanOpen;
     wg := 0 |}.

Definition okCallback : OnceActivateCallback := fun _ => nilError.

(** A schedule that shuts [freshHelper] down completely with the advisory
    error "boom": [StartShutdown], then the four steps of the shutdown
    goroutine. *)
Definition shutDownSchedule : list Action :=
  [Invoke (CallStartShutdown (errors_New "boom"));
   Run 0%nat; Run 0%nat; Run 0%nat; Run 0%nat].

(** The system right after [StartShutdown] on the fresh helper. *)
Definition startedSystem : System :=
  {| helper :=
       set_shutdownStartedChan ChanClosed
         (set_activatingDoneChan ChanClosed
            (set_state StateShuttingDown
               (set_isScheduledShutdown true
                  (set_shutdownErr (errors_New "boom") freshHelper))));
     pool := [GShutdown SdCallHandler nilError] |}.

(** [Finishes o h' st]: the method body ended, by returning or by a
    panic, with helper [h'] and started goroutines [st]. *)
Definition Finishes {A} (o : Outcome A) (h' : Helper)
    (st : list Goroutine) : Prop :=
  (exists a, o = Ok a h' st) \/ (exists msg, o = Panicked msg h' st).

(** [Continues o g g' h' st]: a goroutine [g] whose next statement had
    outcome [o] is now [g']. *)
Definition Continues (o : Outcome Goroutine) (g g' : Goroutine)
    (h' : Helper) (st : list Goroutine) : Prop :=
  o = Ok g' h' st \/ (exists msg, o = Panicked msg h' st /\ g' = crashed g).

(** The four ways in which an action changes a system with [SInv]. *)
Inductive Transition (s s' : System) : Prop :=
| T_invoke c h' st :
    Finishes (invoke c (helper s)) h' st ->
    s' = {| helper := h'; pool := pool s ++ st |} ->
    Transition s s'
| T_activate cb w :
    s' = {| helper := helper s; pool := pool s ++ [DoOnceActivate cb w] |} ->
    Transition s s'
| T_goroutine (code : Goroutine -> M Goroutine) i g g' h' st :
    code = resume \/ code = resumeExternal ->
    pool s !! i = Some g ->
    driverPC g = None -> driverPC g' = None ->
    Continues (code g (helper s)) g g' h' st ->
    s' = {| helper := h'; pool := <[i := g']> (pool s) ++ st |} ->
    Transition s s'
| T_driver i pc e g' h' :
    pool s !! i = Some (GShutdown pc e) ->
    phaseOk pc (state (helper s)) ->
    Continues (resumeShutdown pc e (helper s)) (GShutdown pc e) g' h' [] ->
    s' = {| helper := h'; pool := <[i := g']> (pool s) |} ->
    Transition s s'.

(** What code other than the shutdown goroutine never changes. *)
Definition HFrame (h h' : Helper) : Prop :=
  obj h' = obj h /\
  (isActivated h = true -> isActivated h' = true) /\
  (isActivated h = false -> 3 <= state h -> isActivated h' = false) /\
  (isScheduledShutdown h = true -> isScheduledShutdown h' = true) /\
  (2 <= state h -> shutdownHandler h' = shutdownHandler h) /\
  (3 <= state h -> shutdownErr h' = shutdownErr h) /\
  (5 <= state h -> wg h' <= wg h).

Definition HFrameOutcome {A} (h : Helper) (o : Outcome A) : Prop :=
  match o with
  | Ok _ h' _ | Panicked _ h' _ => HFrame h h'
  | Blocked => True
  end.

(** What the shutdown goroutine never changes; the terminal error is
    only written by lines 864-868, with its local [shutdownErr]. *)
Definition DFrame (pc : ShutdownPC) (e : error) (h h' : Helper) : Prop :=
  obj h' = obj h /\
  isActivated h' = isActivated h /\
  isScheduledShutdown h' = isScheduledShutdown h /\
  shutdownHandler h' = shutdownHandler h /\
  wg h' = wg h /\
  (shutdownErr h' = shutdownErr h \/
   (pc = SdLocalShutdown /\ state h = 3 /\ state h' = 4 /\
    shutdownErr h' = e)).

(** What no action of a system changes. *)
Definition SFrame (s s' : System) : Prop :=
  obj (helper s') = obj (helper s) /\
  (isActivated (helper s) = true -> isActivated (helper s') = true) /\
  (isActivated (helper s) = false -> 3 <= state (helper s) ->
   isActivated (helper s') = false) /\
  (isScheduledShutdown (helper s) = true ->
   isScheduledShutdown (helper s') = true) /\
  (2 <= state (helper s) ->
   shutdownHandler (helper s') = shutdownHandler (helper s)) /\
  (4 <= state (helper s) -> shutdownErr (helper s') = shutdownErr (helper s)) /\
  (5 <= state (helper s) -> wg (helper s') <= wg (helper s)).

(** A goroutine running on its own: [runSolo n g h] runs up to [n]
    statements of [g], with no other goroutine in between, until it
    blocks, panics or has nothing left to run.  It gives the goroutine
    and the helper at that point and the goroutines started on the way. *)
Fixpoint runSolo (n : nat) (g : Goroutine) (h : Helper)
    : Goroutine * Helper * list Goroutine :=
  match n with
  | O => (g, h, [])
  | S n' =>
      match resume g h with
      | Ok g' h' st =>
          let '(g2, h2, st2) := runSolo n' g' h' in (g2, h2, st ++ st2)
      | Panicked _ h' st => (crashed g, h', st)
      | Blocked => (g, h, [])
      end
  end.

(** The hook that lines 562-566 select: the callback passed to
    [DoOnceActivate] if it is not nil, else the [HandleOnceActivate]
    method of the managed object. *)
Definition activateHook (cb : option OnceActivateCallback) (h : Helper)
    : option OnceActivateCallback :=
  match cb with
  | Some f => Some f
  | None => HandleOnceActivate (obj h)
  end.

(** The goroutines that method bodies start: the shutdown goroutine at
    its first statement, a child goroutine, a context monitor. *)
Definition freshG (g : Goroutine) : Prop :=
  match g with
  | GShutdown SdCallHandler _ | GChild _ | GContext _ => True
  | _ => False
  end.

Definition StartedFresh {A} (o : Outcome A) : Prop :=
  match o with
  | Ok _ _ st | Panicked _ _ st => Forall freshG st
  | Blocked => True
  end.

(** [isAtHook g]: [g] is a [DoOnceActivate] call about to run the
    activation hook (line 562). *)
Definition isAtHook (g : Goroutine) : bool :=
  match g with
  | GActivate ActCallHook _ _ _ => true
  | _ => false
  end.

Definition atHook (p : list Goroutine) (i : nat) : Prop :=
  exists g, p !! i = Some g /\ isAtHook g = true.

(** Where a [DoOnceActivate] call can be, given the state: it is past
    the wait of line 534 only from state activated on, and at the hook
    only from state activating on. *)
Definition activateOk (h : Helper) (g : Goroutine) : Prop :=
  match g with
  | GActivate ActRelock _ _ _ => 2 <= state h
  | GActivate ActCallHook _ _ _ => 1 <= state h
  | _ => True
  end.

Definition AInv (s : System) : Prop :=
  Forall (activateOk (helper s)) (pool s).

(** What the shutdown goroutine holds in its local [shutdownErr] once
    the hook has returned (it stands at line 864): the hook's result on
    the terminal error of the helper. *)
Definition hookResultOk (h : Helper) (g : Goroutine) : Prop :=
  match g with
  | GShutdown SdLocalShutdown r =>
      exists f, shutdownHook h = Some f /\ r = f (shutdownErr h)
  | _ => True
  end.

Definition RInv (s : System) : Prop :=
  Forall (hookResultOk (helper s)) (pool s).

(** [Settled e0 f s]: shutdown has started with advisory error [e0] and
    hook [f], or has got past the hook with terminal error [f e0]. *)
Definition Settled (e0 : error) (f : OnceShutdownHandler) (s : System)
    : Prop :=
  (state (helper s) = 3 /\ shutdownErr (helper s) = e0 /\
   shutdownHook (helper s) = Some f) \/
  (4 <= state (helper s) /\ shutdownErr (helper s) = f e0).

(** Methods made of several calls.  A script is a sequence of method
    bodies, each run in one piece, where the next one may depend on what
    the previous one returned; other goroutines can run in between. *)
Inductive Script (A : Type) : Type :=
| Return (a : A)
| Step (B : Type) (m : M B) (k : B -> Script A).
Arguments Return {A} a.
Arguments Step {A B} m k.

Definition call {A} (m : M A) : Script A := Step m Return.

Fixpoint andThen {A B} (p : Script A) (q : A -> Script B) : Script B :=
  match p with
  | Return a => q a
  | Step m k => Step m (fun b => andThen (k b) q)
  end.

(** The next body of a script, run on a helper. *)
Definition stepScript {A} (p : Script A) (h : Helper) : Outcome (Script A) :=
  match p with
  | Return _ => Blocked
  | Step m k =>
      match m h with
      | Ok b h' st => Ok (k b) h' st
      | Panicked msg h' st => Panicked msg h' st
      | Blocked => Blocked
      end
  end.

(** How far a script gets when it runs on its own. *)
Inductive Ran (A : Type) : Type :=
| Returned (a : A) (h : Helper) (started : list Goroutine)
| Waiting (p : Script A) (h : Helper) (started : list Goroutine)
| Crashed (msg : string) (h : Helper) (started : list Goroutine).
Arguments Returned {A} a h started.
Arguments Waiting {A} p h started.
Arguments Crashed {A} msg h started.

Definition alsoStarted {A} (st : list Goroutine) (r : Ran A) : Ran A :=
  match r with
  | Returned a h st' => Returned a h (st ++ st')
  | Waiting p h st' => Waiting p h (st ++ st')
  | Crashed msg h st' => Crashed msg h (st ++ st')
  end.

(** [runScript n p h]: up to [n] bodies of [p] with nothing in between. *)
Fixpoint runScript {A} (n : nat) (p : Script A) (h : Helper) : Ran A :=
  match p with
  | Return a => Returned a h []
  | Step m k =>
      match n with
      | O => Waiting p h []
      | S n' =>
          match m h with
          | Ok b h' st => alsoStarted st (runScript n' (k b) h')
          | Panicked msg h' st => Crashed msg h' st
          | Blocked => Waiting p h []
          end
      end
  end.

(** [UndeferAndStartShutdown] (line 623). *)
Definition UndeferAndStartShutdown (completionErr : error) : Script bool :=
  Step (StartShutdown completionErr) (fun result =>
  Step UndeferShutdown (fun _ =>
  Return result)).

(** [UndeferAndLocalShutdown] (line 634). *)
Definition UndeferAndLocalShutdown (completionErr : error) : Script error :=
  andThen (UndeferAndStartShutdown completionErr) (fun _ =>
  call WaitLocalShutdown).

(** [UndeferAndShutdown] (line 644). *)
Definition UndeferAndShutdown (completionErr : error) : Script error :=
  andThen (UndeferAndStartShutdown completionErr) (fun _ =>
  call WaitShutdown).

(** [UndeferAndLocalShutdownIfNotActivated] (line 658). *)
Definition UndeferAndLocalShutdownIfNotActivated (completionErr : error)
    (waitOnFail : bool) : Script error :=
  Step IsActivated (fun succeeded =>
  andThen (if negb succeeded
           then Step (StartShutdown completionErr) (fun _ => Return tt)
           else Return tt) (fun _ =>
  Step UndeferShutdown (fun _ =>
  let err := nilError in
  if negb succeeded
  then if waitOnFail
       then Step WaitLocalShutdown (fun err => Return err)
       else Return completionErr
  else Return err))).

(** [UndeferAndShutdownIfNotActivated] (line 683). *)
Definition UndeferAndShutdownIfNotActivated (completionErr : error)
    (waitOnFail : bool) : Script error :=
  Step IsActivated (fun succeeded =>
  andThen (if negb succeeded
           then Step (StartShutdown completionErr) (fun _ => Return tt)
           else Return tt) (fun _ =>
  Step UndeferShutdown (fun _ =>
  let err := nilError in
  if negb succeeded
  then if waitOnFail
       then Step WaitShutdown (fun err => Return err)
       else Return completionErr
  else Return err))).

(** [UndeferAndWaitLocalShutdown] (line 707) and [UndeferAndWaitShutdown]
    (line 718); the argument is not used. *)
Definition UndeferAndWaitLocalShutdown (completionErr : error)
    : Script error :=
  Step UndeferShutdown (fun _ => call WaitLocalShutdown).

Definition UndeferAndWaitShutdown (completionErr : error) : Script error :=
  Step UndeferShutdown (fun _ => call WaitShutdown).

(** [LocalShutdown] (line 836), [Shutdown] (line 846), [Close]
    (line 933). *)
Definition LocalShutdown (completionError : error) : Script error :=
  Step (StartShutdown completionError) (fun _ => call WaitLocalShutdown).

Definition Shutdown (completionError : error) : Script error :=
  Step (StartShutdown completionError) (fun _ => call WaitShutdown).

Definition Close : Script error := Shutdown nilError.

(** The actions other than a call of [SetOnceShutdownHandler]. *)
Definition keepsHandler (a : Action) : Prop :=
  match a with
  | Invoke (CallSetOnceShutdownHandler _) => False
  | _ => True
  end.

Definition KeepsHook {A} (h : Helper) (o : Outcome A) : Prop :=
  match o with
  | Ok _ h' _ | Panicked _ h' _ =>
      obj h' = obj h /\ shutdownHandler h' = shutdownHandler h
  | Blocked => True
  end.

(** A helper without a resolvable shutdown hook: the shutdown goroutine,
    if there is one, stands at its first statement or has panicked
    there. *)
Definition noHookOk (g : Goroutine) : Prop :=
  match g with
  | GShutdown pc _ => pc = SdCallHandler \/ pc = SdPanicked
  | _ => True
  end.

Definition NoHook (s : System) : Prop :=
  shutdownHook (helper s) = None /\ Forall noHookOk (pool s).

(** * Proofs *)

(** ** Tactics *)

Ltac destruct_helper h :=
  destruct h as [h_lg h_obj h_Lock h_state h_handler h_count h_activated
                 h_scheduled h_err h_adc h_ssc h_lsc h_sdc h_wg].

Ltac unfold_M :=
  unfold invoke, SetLg, SetOnceShutdownHandler, GetAsyncObjState,
    DeferShutdown, SetIsActivated, UndeferShutdown, StartShutdown,
    ShutdownWGAdd, AddShutdownChildChan, AddAsyncShutdownChild,
    AddSyncCloseChild, addChild, ShutdownOnContext,
    lockedEnterShuttingDownState, asyncDoStartedShutdown, WaitShutdown,
    WaitLocalShutdown, wg_Done, wg_Add, wg_Wait, lg_Panic, recv, close,
    defer, Lock_Lock, Lock_Unlock, bind, ret, get, modify, gopanic, go,
    block in *.

Ltac zify_bool :=
  repeat match goal with
  | H : (_ <=? _) = true |- _ => apply Z.leb_le in H
  | H : (_ <=? _) = false |- _ => apply Z.leb_gt in H
  | H : (_ <? _) = true |- _ => apply Z.ltb_lt in H
  | H : (_ <? _) = false |- _ => apply Z.ltb_ge in H
  | H : (_ =? _) = true |- _ => apply Z.eqb_eq in H
  | H : (_ =? _) = false |- _ => apply Z.eqb_neq in H
  | H : negb _ = true |- _ => apply negb_true_iff in H
  | H : negb _ = false |- _ => apply negb_false_iff in H
  | H : _ && _ = true |- _ => apply andb_true_iff in H; destruct H
  end.

Ltac forward_hyps :=
  repeat match goal with
  | H : ?P -> _ |- _ =>
      let X := fresh in
      assert (X : P) by (first [lia | congruence]);
      specialize (H X)
  end.

Ltac finish :=
  intuition (first [lia | congruence | (forward_hyps; first [lia | congruence])]).

Ltac split_ifs :=
  repeat match goal with
  | |- context [if ?b then _ else _] => destruct b eqn:?; simpl
  | |- context [match ?x with ChanOpen => _ | ChanClosed => _ end] =>
      destruct x eqn:?; simpl
  | |- context [match ?x with Some _ => _ | None => _ end] =>
      destruct x eqn:?; simpl
  end.

Ltac unfold_states :=
  unfold StateUnactivated, StateActivating, StateActivated,
    StateShuttingDown, StateLocalShutdown, StateShutDown in *.

Ltac crush_M :=
  unfold_M; simpl in *; split_ifs; unfold_states; simpl in *;
  zify_bool; subst; try (finish; fail).

Lemma invoke_HStep c h : HInv h -> HStepOutcome h (invoke c h).
Proof.
  intros Hh. destruct h. unfold HStepOutcome, HStep, HInv in *.
  unfold_states. destruct c; crush_M.
Qed.

Lemma resumeActivate_HStep pc cb w err h :
  HInv h -> HStepGoroutine h (resumeActivate pc cb w err h).
Proof.
  intros Hh. destruct h. unfold HStepGoroutine, HStep, HInv in *.
  unfold_states.
  destruct pc; unfold resumeActivate, activateLocked.
  all: crush_M.
Qed.

Lemma resume_other_HStep g h :
  driverPC g = None -> HInv h -> HStepGoroutine h (resume g h).
Proof.
  intros Hg Hh. destruct g as [pc cb w err| |kind|ctxErr|]; try discriminate.
  - apply resumeActivate_HStep, Hh.
  - destruct h. unfold HStepGoroutine, HStep, HInv in *. unfold_states.
    destruct kind; unfold resume; crush_M.
  - destruct h. unfold HStepGoroutine, HStep, HInv in *. unfold_states.
    unfold resume; crush_M.
  - exact I.
Qed.

Lemma resumeExternal_HStep g h :
  HInv h -> HStepGoroutine h (resumeExternal g h).
Proof.
  intros Hh. destruct h. unfold HStepGoroutine, HStep, HInv in *.
  unfold_states.
  destruct g as [pc cb w err|pc e|kind|ctxErr|]; try exact I.
  - destruct kind; unfold resumeExternal; crush_M.
  - unfold resumeExternal; crush_M.
Qed.

Lemma resumeShutdown_DStep pc e h :
  HInv h -> phaseOk pc (state h) ->
  match resumeShutdown pc e h with
  | Ok g' h' started =>
      exists pc' e', g' = GShutdown pc' e' /\ DStep h h' pc pc' started
  | Panicked _ h' started => DStep h h' pc SdPanicked started
  | Blocked => True
  end.
Proof.
  intros Hh Hp. destruct h. unfold DStep, HInv, phaseOk in *.
  unfold_states.
  destruct pc; unfold resumeShutdown; simpl in *.
  all: unfold_M; simpl in *; split_ifs; unfold_states; simpl in *;
    zify_bool; subst; try (finish; fail).
  all: try (eexists _, _; split; [reflexivity|]; simpl; finish).
Qed.

(** ** Invariants of systems *)

Lemma drivers_app l l' : drivers (l ++ l') = drivers l ++ drivers l'.
Proof. apply omap_app. Qed.

Lemma drivers_insert l i g g' :
  l !! i = Some g ->
  drivers l = drivers (take i l) ++ drivers [g] ++ drivers (drop (S i) l) /\
  drivers (<[i := g']> l) =
    drivers (take i l) ++ drivers [g'] ++ drivers (drop (S i) l).
Proof.
  intros Hi. split.
  - rewrite <- !drivers_app. f_equal. symmetry. apply take_drop_middle, Hi.
  - rewrite <- !drivers_app. f_equal. apply insert_take_drop.
    eapply lookup_lt_Some, Hi.
Qed.

Lemma phaseOk_ge pc st : phaseOk pc st -> 3 <= st.
Proof. destruct pc; simpl; lia. Qed.

Lemma SInv_HStep s h' started pl :
  SInv s -> HStep (helper s) h' started -> drivers pl = drivers (pool s) ->
  SInv {| helper := h'; pool := pl ++ started |} /\
  SStep s {| helper := h'; pool := pl ++ started |}.
Proof.
  intros [Hh Hd] (Hh' & Hst & Hsp & Hc) Hpl. unfold SInv, SStep. simpl.
  rewrite drivers_app, Hpl, Hsp.
  split; [split; [exact Hh'|]|split; [|exact Hc]].
  - destruct (drivers (pool s)) as [|pc [|]] eqn:E; try contradiction.
    + destruct (state (helper s) <? 3) eqn:E1, (3 <=? state h') eqn:E2;
        simpl; zify_bool; try lia.
    + apply phaseOk_ge in Hd as Hge.
      destruct (state (helper s) <? 3) eqn:E1; zify_bool; [lia|]. simpl.
      destruct Hst as [->|]; [exact Hd|lia].
  - tauto.
Qed.

Lemma exec_SInv a s s' :
  SInv s -> exec a s = Some s' -> SInv s' /\ SStep s s'.
Proof.
  intros HS He. destruct a as [c|cb w|i|i]; simpl in He.
  - pose proof (invoke_HStep c (helper s) (proj1 HS)) as H.
    destruct (invoke c (helper s)); simplify_eq; simpl in H;
      eapply SInv_HStep; eauto.
  - simplify_eq. pose proof HS as [Hh Hd]. unfold SInv, SStep; simpl.
    rewrite drivers_app, app_nil_r.
    split; [split; [exact Hh|exact Hd]|split; left; reflexivity].
  - unfold stepGoroutine in He. destruct (pool s !! i) as [g|] eqn:Hi; [|done].
    destruct (driverPC g) as [pc|] eqn:Hg.
    + destruct g as [| pc0 e0 | | |]; try discriminate.
      simpl in Hg. simplify_eq. simpl in He.
      destruct HS as [Hh Hd].
      assert (Hone : drivers (take i (pool s)) = [] /\
                     drivers (drop (S i) (pool s)) = [] /\
                     phaseOk pc (state (helper s))).
      { destruct (drivers_insert (pool s) i _ GDone Hi) as [E1 _].
        rewrite E1 in Hd. simpl in Hd.
        destruct (drivers (take i (pool s))) as [|p1 [|p2 l1]];
          destruct (drivers (drop (S i) (pool s))); simpl in Hd;
          try contradiction; auto. }
      destruct Hone as (T1 & T2 & Hp).
      pose proof (resumeShutdown_DStep pc e0 (helper s) Hh Hp) as H.
      destruct (resumeShutdown pc e0 (helper s));
        simplify_eq; simpl in H.
      * destruct H as (pc' & e' & -> & Hh' & Hp' & -> & Hc & Hst).
        destruct (drivers_insert (pool s) i _ (GShutdown pc' e') Hi)
          as [_ E2].
        unfold SInv, SStep; simpl.
        rewrite app_nil_r, E2, T1, T2. simpl.
        split; [split; [exact Hh'|exact Hp']|]. split; [tauto|auto].
      * destruct H as (Hh' & Hp' & -> & Hc & Hst).
        destruct (drivers_insert (pool s) i _
                    (GShutdown SdPanicked e0) Hi) as [_ E2].
        unfold SInv, SStep; simpl.
        rewrite app_nil_r, E2, T1, T2. simpl.
        split; [split; [exact Hh'|exact Hp']|]. split; [tauto|auto].
    + pose proof (resume_other_HStep g (helper s) Hg (proj1 HS)) as H.
      destruct (resume g (helper s)); simplify_eq; simpl in H.
      * destruct H as [Hg' H]. eapply SInv_HStep; eauto.
        destruct (drivers_insert (pool s) i g a Hi) as [E1 E2].
        rewrite E1, E2. simpl. rewrite Hg, Hg'. done.
      * eapply SInv_HStep; eauto.
        destruct (drivers_insert (pool s) i g (crashed g) Hi) as [E1 E2].
        rewrite E1, E2. simpl. rewrite Hg.
        destruct g; simpl in *; done.
  - unfold stepGoroutine in He. destruct (pool s !! i) as [g|] eqn:Hi; [|done].
    destruct (driverPC g) as [pc|] eqn:Hg.
    { destruct g; discriminate. }
    pose proof (resumeExternal_HStep g (helper s) (proj1 HS)) as H.
    destruct (resumeExternal g (helper s)); simplify_eq; simpl in H.
    + destruct H as [Hg' H]. eapply SInv_HStep; eauto.
      destruct (drivers_insert (pool s) i g a Hi) as [E1 E2].
      rewrite E1, E2. simpl. rewrite Hg, Hg'. done.
    + eapply SInv_HStep; eauto.
      destruct (drivers_insert (pool s) i g (crashed g) Hi) as [E1 E2].
      rewrite E1, E2. simpl. rewrite Hg.
      destruct g; simpl in *; done.
Qed.

Lemma constructed_SInv o l sh h0 :
  NewHelperWithShutdownHandler o l sh = Constructed h0 -> SInv (boot h0).
Proof.
  unfold NewHelperWithShutdownHandler. intros H.
  assert (exists l', h0 =
    {| lg := l'; obj := o; Lock := false; state := StateUnactivated;
       shutdownHandler := sh; shutdownDeferCount := 0; isActivated := false;
       isScheduledShutdown := false; shutdownErr := nilError;
       activatingDoneChan := ChanOpen; shutdownStartedChan := ChanOpen;
       localShutdownDoneChan := ChanOpen; shutdownDoneChan := ChanOpen;
       wg := 0 |}) as [l' ->].
  { destruct sh, (HandleOnceShutdown o); simplify_eq; eauto. }
  unfold SInv, HInv, boot, StateUnactivated; simpl.
  intuition (first [lia | congruence]).
Qed.

Lemma run_SInv acts : forall s s',
  SInv s -> run acts s = Some s' -> SInv s'.
Proof.
  induction acts as [|a acts IH]; simpl; intros s s' HS Hr.
  - by simplify_eq.
  - destruct (exec a s) as [s1|] eqn:E; [|done].
    eapply IH; [|exact Hr]. eapply exec_SInv; eauto.
Qed.

Lemma reachable_SInv s : reachable s -> SInv s.
Proof.
  intros (o & l & sh & h0 & acts & Hc & Hr).
  eapply run_SInv; [|exact Hr]. eapply constructed_SInv, Hc.
Qed.

Lemma run_app acts1 acts2 s s1 s2 :
  run acts1 s = Some s1 -> run acts2 s1 = Some s2 ->
  run (acts1 ++ acts2) s = Some s2.
Proof.
  revert s. induction acts1 as [|a acts1 IH]; simpl; intros s H1 H2.
  - by simplify_eq.
  - destruct (exec a s); [|done]. eauto.
Qed.

Lemma reachable_run acts s s' :
  reachable s -> run acts s = Some s' -> reachable s'.
Proof.
  intros (o & l & sh & h0 & acts0 & Hc & Hr) H.
  exists o, l, sh, h0, (acts0 ++ acts). split; [done|].
  eapply run_app; eauto.
Qed.

Lemma reachable_step s s' : reachable s -> step s s' -> reachable s'.
Proof.
  intros Hs [a Ha]. apply (reachable_run [a] s); [done|].
  simpl. by rewrite Ha.
Qed.

(** ** Activation, construction and misuse *)

Lemma fresh_constructed :
  NewHelperWithShutdownHandler plainObj None (Some echoHandler)
  = Constructed freshHelper.
Proof. reflexivity. Qed.

Lemma reachable_from_fresh acts s :
  run acts (boot freshHelper) = Some s -> reachable s.
Proof.
  intros H. exists plainObj, None, (Some echoHandler), freshHelper, acts.
  split; [reflexivity|exact H].
Qed.

(** C1, as the code has it.  A [DoOnceActivate] call that finds the helper
    not activated and in a state at or above shutting-down leaves the
    helper unchanged.  With [waitOnFail] false it returns the "cannot
    activate" error.  With [waitOnFail] true it waits for shutdown-done and
    returns the terminal error when that is not nil, and the "cannot
    activate" error only when the terminal error is nil. *)
Theorem DoOnceActivate_after_shutdown_started :
  forall cb (w : bool) h,
    isActivated h = false -> 3 <= state h -> Lock h = false ->
    resume (DoOnceActivate cb w) h
      = Ok (GActivate ActShutdownStarted cb w nilError) h [] /\
    forall h1,
      resume (GActivate ActShutdownStarted cb w nilError) h1 =
        if w
        then match shutdownDoneChan h1 with
             | ChanOpen => Blocked
             | ChanClosed =>
                 Ok (GActivate ActReturned cb w
                       match shutdownErr h1 with
                       | None => cannotActivate
                       | Some e => Some e
                       end) h1 []
             end
        else Ok (GActivate ActReturned cb w cannotActivate) h1 [].
Proof.
  intros cb w h Ha Hs Hl. split.
  - destruct_helper h; simpl in *; subst.
    unfold DoOnceActivate, resume, resumeActivate, activateLocked.
    unfold_M; unfold_states; cbn.
    destruct (Z.eqb_spec h_state 1); [lia|]. cbn.
    destruct (Z.leb_spec 3 h_state); [reflexivity|lia].
  - intros h1. destruct w; simpl; unfold_M; simpl; [|reflexivity].
    destruct (shutdownDoneChan h1); simpl; [reflexivity|].
    destruct (shutdownErr h1); reflexivity.
Qed.

Lemma DoOnceActivate_after_shutdown_started_witness :
  resume (DoOnceActivate (Some okCallback) false)
         (set_isScheduledShutdown true (set_state 3 freshHelper))
    = Ok (GActivate ActShutdownStarted (Some okCallback) false nilError)
         (set_isScheduledShutdown true (set_state 3 freshHelper)) [] /\
  forall h1,
    resume (GActivate ActShutdownStarted (Some okCallback) false nilError) h1
    = Ok (GActivate ActReturned (Some okCallback) false cannotActivate) h1 [].
Proof.
  apply (DoOnceActivate_after_shutdown_started (Some okCallback) false
           (set_isScheduledShutdown true (set_state 3 freshHelper)));
    [reflexivity | simpl; lia | reflexivity].
Defined.

(** C1 as stated fails: after a shutdown with advisory error "boom" has
    completed, the helper is not activated and its state is shut-down, yet
    [DoOnceActivate] with [waitOnFail] true returns "boom", the terminal
    error, not the "cannot activate" error. *)
Lemma DoOnceActivate_returns_terminal_error :
  exists s s',
    run shutDownSchedule (boot freshHelper) = Some s /\
    isActivated (helper s) = false /\
    3 <= state (helper s) /\
    run [Activate (Some okCallback) true; Run 1%nat; Run 1%nat] s = Some s' /\
    pool s' !! 1%nat =
      Some (GActivate ActReturned (Some okCallback) true (errors_New "boom")) /\
    errors_New "boom" <> cannotActivate /\
    shutdownErr (helper s') = errors_New "boom".
Proof.
  eexists _, _. split; [vm_compute; reflexivity|].
  split; [reflexivity|]. split; [simpl; lia|].
  split; [vm_compute; reflexivity|].
  split; [reflexivity|]. split; [discriminate|reflexivity].
Qed.

(** C3, as the code has it.  Construction looks only at the shutdown
    side: it succeeds exactly when a shutdown handler is given or the
    object has the shutdown capability, whatever the object offers for
    activation.  A missing activate capability is found by
    [DoOnceActivate] itself: called with a nil hook on the new helper it
    first moves the helper to activating with one deferral, and then
    panics on the type assertion of line 565. *)
Theorem activate_capability_checked_in_DoOnceActivate :
  forall o logger sh,
    ((exists h0, NewHelperWithShutdownHandler o logger sh = Constructed h0)
     <-> (sh <> None \/ HandleOnceShutdown o <> None)) /\
    forall h0 w,
      NewHelperWithShutdownHandler o logger sh = Constructed h0 ->
      HandleOnceActivate o = None ->
      let h1 := set_state StateActivating (set_shutdownDeferCount 1 h0) in
      resume (DoOnceActivate None w) h0
        = Ok (GActivate ActCallHook None w nilError) h1 [] /\
      resume (GActivate ActCallHook None w nilError) h1
        = Panicked "interface conversion: not a HandleOnceActivator" h1 [].
Proof.
  intros o logger sh. split.
  - unfold NewHelperWithShutdownHandler.
    destruct sh, (HandleOnceShutdown o); split; intros H;
      try (eexists; reflexivity); try (left; discriminate);
      try (right; discriminate).
    + destruct H; discriminate.
    + destruct H; congruence.
  - intros h0 w Hc Ho. unfold NewHelperWithShutdownHandler in Hc.
    assert (obj h0 = o /\ Lock h0 = false /\ isActivated h0 = false /\
            state h0 = 0 /\ shutdownDeferCount h0 = 0) as (E1 & E2 & E3 & E4 & E5).
    { destruct sh, (HandleOnceShutdown o); simplify_eq; auto. }
    destruct_helper h0; simpl in *; subst. split.
    + reflexivity.
    + unfold resumeActivate; unfold_M; cbn. rewrite Ho. reflexivity.
Qed.

Lemma activate_capability_checked_in_DoOnceActivate_witness :
  let h1 := set_state StateActivating (set_shutdownDeferCount 1 freshHelper) in
  resume (DoOnceActivate None false) freshHelper
    = Ok (GActivate ActCallHook None false nilError) h1 [] /\
  resume (GActivate ActCallHook None false nilError) h1
    = Panicked "interface conversion: not a HandleOnceActivator" h1 [].
Proof.
  apply (proj2 (activate_capability_checked_in_DoOnceActivate
                  plainObj None (Some echoHandler)) freshHelper false);
    reflexivity.
Defined.

(** C3 as stated fails: a helper for an object without the activate
    capability is constructed without complaint, and the call
    [DoOnceActivate(nil, false)] is what panics, after it has already
    moved the helper to activating. *)
Lemma missing_activator_accepted_by_constructor :
  HandleOnceActivate plainObj = None /\
  NewHelperWithShutdownHandler plainObj None (Some echoHandler)
    = Constructed freshHelper /\
  exists s,
    run [Activate None false; Run 0%nat; Run 0%nat] (boot freshHelper)
      = Some s /\
    pool s = [GActivate ActPanicked None false nilError] /\
    state (helper s) = StateActivating.
Proof.
  split; [reflexivity|]. split; [reflexivity|].
  eexists. split; [vm_compute; reflexivity|]. split; reflexivity.
Qed.

(** C4, as the code has it.  [UndeferShutdown] with a deferral count
    below one (in particular zero) reports to the logger's fatal
    reporter: the logger receives the message, whether its [Panic] then
    returns or panics, and the deferral count, the state and the
    shutdown flag are as before.  [ShutdownWGAdd] with a delta of zero
    or less returns a nil wait group and an error, and touches neither
    the logger nor the helper. *)
Theorem misuse_reporting :
  forall h delta,
    (Lock h = false -> shutdownDeferCount h < 1 ->
     exists h',
       (UndeferShutdown h = Ok tt h' [] \/
        UndeferShutdown h =
          Panicked "UndeferShutdown before DeferShutdown" h' []) /\
       (UndeferShutdown h = Ok tt h' [] <-> panicReturns (lg h) = true) /\
       fatalEvents (lg h') =
         fatalEvents (lg h) ++ ["UndeferShutdown before DeferShutdown"] /\
       shutdownDeferCount h' = shutdownDeferCount h /\
       state h' = state h /\
       isScheduledShutdown h' = isScheduledShutdown h /\
       shutdownErr h' = shutdownErr h) /\
    (delta <= 0 ->
     ShutdownWGAdd delta h =
       Ok (None, errors_New "ShutdownWGAdd: delta must be > 0") h []).
Proof.
  intros h delta. split.
  - intros Hl Hc.
    exists (set_lg {| panicReturns := panicReturns (lg h);
                      fatalEvents := fatalEvents (lg h) ++
                                     ["UndeferShutdown before DeferShutdown"] |}
                   (set_Lock true h)).
    destruct_helper h; simpl in *; subst.
    unfold UndeferShutdown; unfold_M; cbn.
    destruct (Z.ltb_spec h_count 1); [|lia]. cbn.
    destruct (panicReturns h_lg); cbn.
    + split; [left; reflexivity|]. split; [tauto|]. repeat split.
    + split; [right; reflexivity|]. split; [|repeat split].
      split; intros; discriminate.
  - intros Hd. unfold ShutdownWGAdd.
    destruct (Z.leb_spec delta 0); [reflexivity|lia].
Qed.

Lemma misuse_reporting_witness :
  (exists h',
     (UndeferShutdown freshHelper = Ok tt h' [] \/
      UndeferShutdown freshHelper =
        Panicked "UndeferShutdown before DeferShutdown" h' []) /\
     (UndeferShutdown freshHelper = Ok tt h' [] <->
      panicReturns (lg freshHelper) = true) /\
     fatalEvents (lg h') =
       fatalEvents (lg freshHelper) ++
       ["UndeferShutdown before DeferShutdown"] /\
     shutdownDeferCount h' = shutdownDeferCount freshHelper /\
     state h' = state freshHelper /\
     isScheduledShutdown h' = isScheduledShutdown freshHelper /\
     shutdownErr h' = shutdownErr freshHelper) /\
  ShutdownWGAdd 0 freshHelper =
    Ok (None, errors_New "ShutdownWGAdd: delta must be > 0") freshHelper [].
Proof.
  split.
  - apply (proj1 (misuse_reporting freshHelper 0)); [reflexivity|simpl; lia].
  - apply (proj2 (misuse_reporting freshHelper 0)); lia.
Defined.

(** C4 as stated fails for [ShutdownWGAdd]: with delta 0 (or -1) it
    returns an error, and the logger has received no fatal event. *)
Lemma ShutdownWGAdd_returns_error_without_fatal :
  ShutdownWGAdd 0 freshHelper =
    Ok (None, errors_New "ShutdownWGAdd: delta must be > 0") freshHelper []
  /\
  ShutdownWGAdd (-1) freshHelper =
    Ok (None, errors_New "ShutdownWGAdd: delta must be > 0") freshHelper []
  /\
  fatalEvents (lg freshHelper) = [].
Proof. split; [reflexivity|]. split; reflexivity. Qed.

(** C7, as the code has it.  The guard of [SetOnceShutdownHandler] is
    [state >= StateActivated]: in state activated or higher the call
    returns an error and leaves the helper unchanged; in state unactivated
    and also in state activating it installs the new hook and returns
    nil. *)
Theorem SetOnceShutdownHandler_guard :
  forall cb h,
    Lock h = false ->
    (StateActivated <= state h ->
     SetOnceShutdownHandler cb h =
       Ok (errors_New "Cannot SetOnceShutdownHandler after activation") h [])
    /\
    (state h < StateActivated ->
     SetOnceShutdownHandler cb h = Ok nilError (set_shutdownHandler cb h) []).
Proof.
  intros cb h Hl. destruct_helper h; simpl in *; subst. unfold_states.
  split; intros Hs; unfold SetOnceShutdownHandler; unfold_M; unfold_states;
    cbn; destruct (Z.leb_spec 2 h_state); try lia; reflexivity.
Qed.

Lemma SetOnceShutdownHandler_guard_witness :
  (StateActivated <= state freshHelper ->
   SetOnceShutdownHandler None freshHelper =
     Ok (errors_New "Cannot SetOnceShutdownHandler after activation")
        freshHelper []) /\
  (state freshHelper < StateActivated ->
   SetOnceShutdownHandler None freshHelper =
     Ok nilError (set_shutdownHandler None freshHelper) []).
Proof.
  apply (SetOnceShutdownHandler_guard None freshHelper). reflexivity.
Defined.

(** C7 as stated fails in state activating: once [DoOnceActivate] has
    moved the helper to activating, [SetOnceShutdownHandler] still returns
    nil and replaces the installed hook. *)
Lemma SetOnceShutdownHandler_succeeds_while_activating :
  exists s h',
    run [Activate (Some okCallback) false; Run 0%nat] (boot freshHelper)
      = Some s /\
    state (helper s) = StateActivating /\
    shutdownHandler (helper s) = Some echoHandler /\
    SetOnceShutdownHandler None (helper s) = Ok nilError h' [] /\
    shutdownHandler h' = None.
Proof.
  eexists _, _. split; [vm_compute; reflexivity|].
  split; [reflexivity|]. split; [reflexivity|].
  split; [vm_compute; reflexivity|reflexivity].
Qed.

Lemma HInv_range h : HInv h -> 0 <= state h <= 5.
Proof. intros H. apply H. Qed.

(** C2, as the code has it.  Every action of a reachable system leaves
    the state alone or performs one of the seven transitions of the
    specification or the transition 0 -> 2, which [SetIsActivated] makes
    when it is called on an unactivated helper. *)
Theorem state_transitions_of_the_code :
  forall s s',
    reachable s -> step s s' ->
    state (helper s') = state (helper s) \/
    codeTransition (state (helper s)) (state (helper s')) = true.
Proof.
  intros s s' Hr [a Ha].
  destruct (exec_SInv a s s' (reachable_SInv s Hr) Ha) as [_ [Hst _]].
  pose proof (HInv_range _ (proj1 (reachable_SInv s Hr))) as Hrange.
  destruct Hst as [E|Hst]; [left; exact E|].
  assert (Hcases : state (helper s) = 0 \/ state (helper s) = 1 \/
                   state (helper s) = 2 \/ state (helper s) = 3 \/
                   state (helper s) = 4 \/ state (helper s) = 5) by lia.
  destruct Hst as [(Hlt & [E | [E | [E0 E]]]) | [[E0 E] | [E0 E]]];
    rewrite E;
    destruct Hcases as [C | [C | [C | [C | [C | C]]]]];
    rewrite C in *; try lia;
    first [left; reflexivity | right; reflexivity].
Qed.

(** C2 as stated fails: [SetIsActivated] on a new helper moves the state
    from unactivated (0) to activated (2), which is none of the seven
    listed transitions. *)
Lemma SetIsActivated_goes_from_0_to_2 :
  exists s s',
    reachable s /\ step s s' /\
    state (helper s) = 0 /\ state (helper s') = 2 /\
    specTransition (state (helper s)) (state (helper s')) = false.
Proof.
  exists (boot freshHelper).
  eexists. split; [apply (reachable_from_fresh []); reflexivity|].
  split; [exists (Invoke CallSetIsActivated); vm_compute; reflexivity|].
  split; [reflexivity|]. split; reflexivity.
Qed.

Lemma state_transitions_of_the_code_witness :
  state (helper {| helper := set_shutdownDeferCount 1 freshHelper; pool := [] |})
    = state (helper (boot freshHelper)) \/
  codeTransition (state (helper (boot freshHelper)))
    (state (helper {| helper := set_shutdownDeferCount 1 freshHelper; pool := [] |}))
    = true.
Proof.
  apply (state_transitions_of_the_code (boot freshHelper)
           {| helper := set_shutdownDeferCount 1 freshHelper; pool := [] |}).
  - exists plainObj, None, (Some echoHandler), freshHelper, [].
    split; reflexivity.
  - exists (Invoke CallDeferShutdown). vm_compute. reflexivity.
Defined.

Lemma GetAsyncObjState_reads_state h v h1 g1 :
  GetAsyncObjState h = Ok v h1 g1 -> v = state h.
Proof.
  destruct_helper h. unfold GetAsyncObjState; unfold_M; cbn.
  destruct h_Lock; cbn; intros H; by simplify_eq.
Qed.

Lemma run_state_le acts : forall s s',
  SInv s -> run acts s = Some s' ->
  state (helper s) <= state (helper s').
Proof.
  induction acts as [|a acts IH]; simpl; intros s s' HS Hr.
  - simplify_eq. lia.
  - destruct (exec a s) as [s1|] eqn:E; [|done].
    destruct (exec_SInv a s s1 HS E) as [HS1 [Hst _]].
    specialize (IH s1 s' HS1 Hr). lia.
Qed.

(** C8.  Along every run of a reachable system the state only grows,
    and so do the values that [GetAsyncObjState] returns: an observation
    made later is never lower than one made earlier. *)
Theorem state_non_decreasing :
  forall s acts s',
    reachable s -> run acts s = Some s' ->
    state (helper s) <= state (helper s') /\
    forall v v' h1 h2 g1 g2,
      GetAsyncObjState (helper s) = Ok v h1 g1 ->
      GetAsyncObjState (helper s') = Ok v' h2 g2 ->
      v <= v'.
Proof.
  intros s acts s' Hr Hrun.
  pose proof (run_state_le acts s s' (reachable_SInv s Hr) Hrun) as Hle.
  split; [exact Hle|].
  intros v v' h1 h2 g1 g2 H1 H2.
  apply GetAsyncObjState_reads_state in H1, H2. lia.
Qed.

Lemma state_non_decreasing_witness :
  exists s',
    run (Activate (Some okCallback) false :: repeat (Run 0%nat) 6)
        (boot freshHelper) = Some s' /\
    state (helper (boot freshHelper)) <= state (helper s') /\
    forall v v' h1 h2 g1 g2,
      GetAsyncObjState (helper (boot freshHelper)) = Ok v h1 g1 ->
      GetAsyncObjState (helper s') = Ok v' h2 g2 ->
      v <= v'.
Proof.
  eexists. split; [vm_compute; reflexivity|].
  apply (state_non_decreasing (boot freshHelper)
           (Activate (Some okCallback) false :: repeat (Run 0%nat) 6)).
  - exists plainObj, None, (Some echoHandler), freshHelper, [].
    split; reflexivity.
  - vm_compute. reflexivity.
Defined.

(** ** The deferral count *)

Lemma wrapInt_small z : - 2 ^ 63 <= z < 2 ^ 63 -> wrapInt z = z.
Proof.
  intros H. unfold wrapInt, intBits.
  change (2 ^ (64 - 1)) with (2 ^ 63). change (2 ^ 64) with (2 * 2 ^ 63).
  rewrite Z.mod_small; lia.
Qed.

Lemma exec_count_bound a s s' k :
  SInv s -> exec a s = Some s' ->
  0 <= shutdownDeferCount (helper s) <= k -> k + 1 < 2 ^ 63 ->
  0 <= shutdownDeferCount (helper s') <= k + 1.
Proof.
  intros HS He Hk Hb.
  destruct (exec_SInv a s s' HS He) as [_ [_ Hc]].
  destruct Hc as [E | [[_ E] | [H1 E]]]; rewrite E.
  - lia.
  - rewrite wrapInt_small; lia.
  - rewrite wrapInt_small; lia.
Qed.

Lemma run_count_bound acts : forall s s' k,
  SInv s -> run acts s = Some s' ->
  0 <= shutdownDeferCount (helper s) <= k ->
  k + Z.of_nat (length acts) < 2 ^ 63 ->
  0 <= shutdownDeferCount (helper s') <= k + Z.of_nat (length acts).
Proof.
  induction acts as [|a acts IH]; simpl length; intros s s' k HS Hr Hk Hb.
  - simpl in Hr. simplify_eq. lia.
  - simpl in Hr. destruct (exec a s) as [s1|] eqn:E; [|done].
    assert (Hk1 : 0 <= shutdownDeferCount (helper s1) <= k + 1)
      by (eapply exec_count_bound; eauto; lia).
    destruct (exec_SInv a s s1 HS E) as [HS1 _].
    specialize (IH s1 s' (k + 1) HS1 Hr Hk1). lia.
Qed.

(** C9.  In a system reached from a new helper by a schedule of fewer
    than 2^63 actions (so that the Go [int] holding the count cannot have
    wrapped around), the deferral count is non-negative, and a positive
    count implies a state below shutting-down.  Once the state is at least
    shutting-down no action changes the count, and [DeferShutdown] returns
    an error and leaves the helper as it was. *)
Theorem deferral_count_invariant :
  forall o logger sh h0 acts s,
    NewHelperWithShutdownHandler o logger sh = Constructed h0 ->
    run acts (boot h0) = Some s ->
    Z.of_nat (length acts) < 2 ^ 63 ->
    0 <= shutdownDeferCount (helper s) /\
    (0 < shutdownDeferCount (helper s) ->
     state (helper s) < StateShuttingDown) /\
    (StateShuttingDown <= state (helper s) ->
     (forall a s', exec a s = Some s' ->
        shutdownDeferCount (helper s') = shutdownDeferCount (helper s)) /\
     (Lock (helper s) = false ->
      DeferShutdown (helper s) =
        Ok (errors_New "Shutdown already started; cannot defer")
           (helper s) [])).
Proof.
  intros o logger sh h0 acts s Hc Hr Hlen.
  pose proof (constructed_SInv o logger sh h0 Hc) as HS0.
  pose proof (run_SInv acts _ _ HS0 Hr) as HS.
  assert (H0 : shutdownDeferCount (helper (boot h0)) = 0).
  { unfold NewHelperWithShutdownHandler in Hc.
    destruct sh, (HandleOnceShutdown o); by simplify_eq. }
  pose proof (run_count_bound acts _ _ 0 HS0 Hr) as Hb.
  rewrite H0 in Hb. specialize (Hb ltac:(lia) ltac:(lia)).
  pose proof (proj1 HS) as Hh.
  assert (Hpos : 0 < shutdownDeferCount (helper s) -> state (helper s) < 3)
    by apply Hh.
  unfold_states. split; [lia|]. split; [exact Hpos|].
  intros Hge. split.
  - intros a s' He. destruct (exec_SInv a s s' HS He) as [_ [_ Hcnt]].
    destruct Hcnt as [E | [[Hlt _] | [H1 _]]]; [exact E | lia | lia].
  - intros Hl. destruct (helper s) as
      [h_lg h_obj h_Lock h_state h_handler h_count h_activated
       h_scheduled h_err h_adc h_ssc h_lsc h_sdc h_wg].
    simpl in *; subst. unfold DeferShutdown; unfold_M; unfold_states; cbn.
    destruct (Z.leb_spec 3 h_state); [reflexivity|lia].
Qed.

Lemma deferral_count_invariant_witness :
  exists s,
    run shutDownSchedule (boot freshHelper) = Some s /\
    0 <= shutdownDeferCount (helper s) /\
    (0 < shutdownDeferCount (helper s) ->
     state (helper s) < StateShuttingDown) /\
    (StateShuttingDown <= state (helper s) ->
     (forall a s', exec a s = Some s' ->
        shutdownDeferCount (helper s') = shutdownDeferCount (helper s)) /\
     (Lock (helper s) = false ->
      DeferShutdown (helper s) =
        Ok (errors_New "Shutdown already started; cannot defer")
           (helper s) [])).
Proof.
  eexists. split; [vm_compute; reflexivity|].
  apply (deferral_count_invariant plainObj None (Some echoHandler)
           freshHelper shutDownSchedule).
  - reflexivity.
  - vm_compute. reflexivity.
  - vm_compute. reflexivity.
Defined.

(** C10.  In a reachable system whose mutex is free, [SetIsActivated]
    returns.  It returns an error exactly when the helper is not activated
    and its state is at least shutting-down, and then changes nothing.  On
    an activated helper it returns nil and changes nothing, whatever the
    state.  On a helper that is not activated and below shutting-down it
    returns nil, sets the activated flag, sets the state to activated and
    closes the activation-done channel. *)
Theorem SetIsActivated_spec :
  forall s,
    reachable s -> Lock (helper s) = false ->
    let h := helper s in
    exists err h',
      SetIsActivated h = Ok err h' [] /\
      (err <> nilError <->
       isActivated h = false /\ StateShuttingDown <= state h) /\
      (isActivated h = true -> err = nilError /\ h' = h) /\
      (isActivated h = false -> StateShuttingDown <= state h -> h' = h) /\
      (isActivated h = false -> state h < StateShuttingDown ->
       err = nilError /\
       h' = set_activatingDoneChan ChanClosed
              (set_state StateActivated (set_isActivated true h))).
Proof.
  intros s Hr Hl h. subst h.
  pose proof (proj1 (reachable_SInv s Hr)) as Hh.
  unfold HInv in Hh. destruct (helper s) as
    [h_lg h_obj h_Lock h_state h_handler h_count h_activated
     h_scheduled h_err h_adc h_ssc h_lsc h_sdc h_wg].
  simpl in *; subst. unfold SetIsActivated; unfold_M; unfold_states; cbn.
  destruct h_activated; cbn.
  - eexists _, _. split; [reflexivity|].
    repeat split; try done; intros; try tauto; destruct H; congruence.
  - destruct (Z.leb_spec 3 h_state); cbn.
    + eexists _, _. split; [reflexivity|].
      repeat split; try done; intros; try lia.
    + assert (h_adc = ChanOpen) as ->.
      { destruct h_adc; [done|].
        assert (2 <= h_state) by (apply Hh; reflexivity).
        assert (h_state = 2) as E by lia.
        destruct Hh as (_ & _ & _ & H2 & _). specialize (H2 E). done. }
      cbn. eexists _, _. split; [reflexivity|].
      repeat split; try done; intros; try lia.
Qed.

Lemma SetIsActivated_spec_witness :
  exists err h',
    SetIsActivated freshHelper = Ok err h' [] /\
    (err <> nilError <->
     isActivated freshHelper = false /\
     StateShuttingDown <= state freshHelper) /\
    (isActivated freshHelper = true -> err = nilError /\ h' = freshHelper) /\
    (isActivated freshHelper = false ->
     StateShuttingDown <= state freshHelper -> h' = freshHelper) /\
    (isActivated freshHelper = false ->
     state freshHelper < StateShuttingDown ->
     err = nilError /\
     h' = set_activatingDoneChan ChanClosed
            (set_state StateActivated (set_isActivated true freshHelper))).
Proof.
  apply (SetIsActivated_spec (boot freshHelper)).
  - exists plainObj, None, (Some echoHandler), freshHelper, [].
    split; reflexivity.
  - reflexivity.
Defined.

(** C6.  In a reachable system whose mutex is free, the first
    [StartShutdown] (the one that finds the scheduled flag unset) returns
    true, sets the flag, stores its argument as the terminal error, and
    enters shutting-down, starting the shutdown goroutine, exactly when
    the deferral count is zero; otherwise it leaves the state alone.  A
    [StartShutdown] that finds the flag set returns false and changes
    nothing; in particular the second of two calls in a row leaves the
    terminal error of the first. *)
Theorem StartShutdown_first_and_later :
  forall s e1 e2,
    reachable s -> Lock (helper s) = false ->
    let h := helper s in
    (isScheduledShutdown h = false ->
     exists h1 started,
       StartShutdown e1 h = Ok true h1 started /\
       isScheduledShutdown h1 = true /\
       shutdownErr h1 = e1 /\
       (state h1 = StateShuttingDown <-> shutdownDeferCount h = 0) /\
       (shutdownDeferCount h <> 0 -> state h1 = state h) /\
       started = (if shutdownDeferCount h =? 0
                  then [GShutdown SdCallHandler nilError] else []) /\
       shutdownDeferCount h1 = shutdownDeferCount h /\
       StartShutdown e2 h1 = Ok false h1 []) /\
    (isScheduledShutdown h = true -> StartShutdown e2 h = Ok false h []).
Proof.
  intros s e1 e2 Hr Hl h. subst h.
  pose proof (proj1 (reachable_SInv s Hr)) as Hh.
  unfold HInv in Hh. destruct (helper s) as
    [h_lg h_obj h_Lock h_state h_handler h_count h_activated
     h_scheduled h_err h_adc h_ssc h_lsc h_sdc h_wg].
  simpl in *; subst. split; intros ->.
  - assert (Hlt : h_state < 3).
    { destruct (Z.lt_ge_cases h_state 3) as [|Hge]; [done|].
      destruct Hh as (_ & H1 & _). specialize (H1 Hge). done. }
    assert (h_ssc = ChanOpen) as ->.
    { destruct h_ssc; [done|].
      assert (3 <= h_state) by (apply Hh; reflexivity). lia. }
    unfold StartShutdown, lockedEnterShuttingDownState; unfold_M;
      unfold_states; cbn.
    destruct (Z.leb_spec 3 h_state); [lia|]. cbn.
    destruct (Z.eqb_spec h_count 0) as [->|Hne]; cbn.
    + destruct (Z.ltb_spec h_state 2); cbn.
      * assert (h_adc = ChanOpen) as ->.
        { destruct h_adc; [done|].
          assert (2 <= h_state) by (apply Hh; reflexivity). lia. }
        cbn. eexists _, _. split; [reflexivity|]. cbn.
        repeat split; try done; intros; lia.
      * eexists _, _. split; [reflexivity|]. cbn.
        repeat split; try done; intros; lia.
    + eexists _, _. split; [reflexivity|]. cbn.
      repeat split; try done; intros; lia.
  - unfold StartShutdown; unfold_M; cbn. reflexivity.
Qed.

Lemma StartShutdown_first_and_later_witness :
  (isScheduledShutdown freshHelper = false ->
   exists h1 started,
     StartShutdown (errors_New "e1") freshHelper = Ok true h1 started /\
     isScheduledShutdown h1 = true /\
     shutdownErr h1 = errors_New "e1" /\
     (state h1 = StateShuttingDown <-> shutdownDeferCount freshHelper = 0) /\
     (shutdownDeferCount freshHelper <> 0 -> state h1 = state freshHelper) /\
     started = (if shutdownDeferCount freshHelper =? 0
                then [GShutdown SdCallHandler nilError] else []) /\
     shutdownDeferCount h1 = shutdownDeferCount freshHelper /\
     StartShutdown (errors_New "e2") h1 = Ok false h1 []) /\
  (isScheduledShutdown freshHelper = true ->
   StartShutdown (errors_New "e2") freshHelper = Ok false freshHelper []).
Proof.
  apply (StartShutdown_first_and_later (boot freshHelper)
           (errors_New "e1") (errors_New "e2")).
  - exists plainObj, None, (Some echoHandler), freshHelper, [].
    split; reflexivity.
  - reflexivity.
Defined.

(** ** The shutdown goroutine *)

Lemma stepGoroutine_ok i s g g' h' :
  pool s !! i = Some g -> resume g (helper s) = Ok g' h' [] ->
  exists s1,
    exec (Run i) s = Some s1 /\ helper s1 = h' /\ pool s1 !! i = Some g'.
Proof.
  intros Hi Hg. simpl. unfold stepGoroutine. rewrite Hi, Hg, app_nil_r.
  eexists. split; [reflexivity|]. split; [reflexivity|]. simpl.
  apply list_lookup_insert_eq. eapply lookup_lt_Some, Hi.
Qed.

(** C5.  In a reachable system there is no shutdown goroutine while the
    state is below shutting-down and exactly one from then on, at the
    statement that matches the state.  Its statements do, in order: call
    the shutdown hook (the explicit handler, else the object's
    [HandleOnceShutdown]) on the current terminal error; under the mutex,
    store the hook's result as terminal error, set the state to
    local-shutdown and close local-shutdown-done; wait until the
    wait-group counter is zero; under the mutex, set the state to
    shut-down and close shutdown-done.  The two updates are made under
    the mutex: while another goroutine holds it the statement is blocked
    and the helper is not touched, and with the mutex free the statement
    takes it, makes its three (two) updates and releases it.  With the
    mutex free, a resolvable hook and a drained wait-group, four steps
    of the goroutine take the helper from shutting-down to shut-down. *)
Theorem shutdown_driver_sequence :
  forall s,
    reachable s ->
    let h := helper s in
    (state h < StateShuttingDown -> drivers (pool s) = []) /\
    (StateShuttingDown <= state h ->
     exists pc, drivers (pool s) = [pc] /\ phaseOk pc (state h)) /\
    (forall e,
       resume (GShutdown SdCallHandler e) h =
         match shutdownHook h with
         | Some f => Ok (GShutdown SdLocalShutdown (f (shutdownErr h))) h []
         | None =>
             Panicked "interface conversion: not a HandleOnceShutdowner" h []
         end) /\
    (forall r,
       Lock h = false -> state h = StateShuttingDown ->
       resume (GShutdown SdLocalShutdown r) h =
         Ok (GShutdown SdWaitGroup r)
            (set_localShutdownDoneChan ChanClosed
               (set_state StateLocalShutdown (set_shutdownErr r h))) []) /\
    (forall r,
       Lock h = true ->
       resume (GShutdown SdLocalShutdown r) h = Blocked) /\
    (forall r,
       resume (GShutdown SdWaitGroup r) h =
         if wg h =? 0 then Ok (GShutdown SdShutDown r) h [] else Blocked) /\
    (forall r,
       Lock h = false -> state h = StateLocalShutdown ->
       resume (GShutdown SdShutDown r) h =
         Ok (GShutdown SdExited r)
            (set_shutdownDoneChan ChanClosed (set_state StateShutDown h))
            []) /\
    (forall r,
       Lock h = true ->
       resume (GShutdown SdShutDown r) h = Blocked) /\
    (forall i e f,
       pool s !! i = Some (GShutdown SdCallHandler e) ->
       Lock h = false -> wg h = 0 -> shutdownHook h = Some f ->
       exists s',
         run [Run i; Run i; Run i; Run i] s = Some s' /\
         pool s' !! i = Some (GShutdown SdExited (f (shutdownErr h))) /\
         helper s' =
           set_shutdownDoneChan ChanClosed
             (set_state StateShutDown
                (set_localShutdownDoneChan ChanClosed
                   (set_state StateLocalShutdown
                      (set_shutdownErr (f (shutdownErr h)) h))))).
Proof.
  intros s Hr h. subst h.
  destruct (reachable_SInv s Hr) as [Hh Hd].
  assert (S1 : forall e,
    resume (GShutdown SdCallHandler e) (helper s) =
      match shutdownHook (helper s) with
      | Some f =>
          Ok (GShutdown SdLocalShutdown (f (shutdownErr (helper s))))
             (helper s) []
      | None =>
          Panicked "interface conversion: not a HandleOnceShutdowner"
            (helper s) []
      end).
  { intros e. unfold shutdownHook. destruct (helper s) as
      [h_lg h_obj h_Lock h_state h_handler h_count h_activated
       h_scheduled h_err h_adc h_ssc h_lsc h_sdc h_wg].
    unfold resume, resumeShutdown; unfold_M; cbn.
    destruct h_handler; cbn; [reflexivity|].
    destruct (HandleOnceShutdown h_obj); reflexivity. }
  assert (S2 : forall h r, HInv h ->
    Lock h = false -> state h = StateShuttingDown ->
    resume (GShutdown SdLocalShutdown r) h =
      Ok (GShutdown SdWaitGroup r)
         (set_localShutdownDoneChan ChanClosed
            (set_state StateLocalShutdown (set_shutdownErr r h))) []).
  { intros h r Hi Hl Hs. unfold HInv in Hi. destruct_helper h.
    simpl in *; subst.
    assert (h_lsc = ChanOpen) as ->.
    { destruct h_lsc; [done|].
      destruct Hi as (_ & _ & _ & _ & _ & _ & [H4 _] & _).
      specialize (H4 eq_refl). unfold_states; lia. }
    reflexivity. }
  assert (S3 : forall h r,
    resume (GShutdown SdWaitGroup r) h =
      if wg h =? 0 then Ok (GShutdown SdShutDown r) h [] else Blocked).
  { intros h r. destruct_helper h.
    unfold resume, resumeShutdown; unfold_M; cbn.
    destruct (h_wg =? 0); reflexivity. }
  assert (S4 : forall h r, (shutdownDoneChan h = ChanOpen) ->
    Lock h = false ->
    resume (GShutdown SdShutDown r) h =
      Ok (GShutdown SdExited r)
         (set_shutdownDoneChan ChanClosed (set_state StateShutDown h)) []).
  { intros h r Hc Hl. destruct_helper h. simpl in *; subst. reflexivity. }
  assert (Hopen : state (helper s) < 5 ->
                  shutdownDoneChan (helper s) = ChanOpen).
  { intros Hlt. destruct (shutdownDoneChan (helper s)) eqn:E; [done|].
    assert (5 <= state (helper s)) by (apply Hh; exact E). lia. }
  assert (B : forall h pc r, pc = SdLocalShutdown \/ pc = SdShutDown ->
    Lock h = true -> resume (GShutdown pc r) h = Blocked).
  { intros h pc r Hpc Hl. destruct_helper h. simpl in *; subst.
    destruct Hpc as [->| ->]; reflexivity. }
  unfold_states.
  split; [|split; [|split; [exact S1
    |split; [|split; [|split; [|split; [|split]]]]]]].
  - intros Hlt. destruct (drivers (pool s)) as [|pc [|]]; try done.
    apply phaseOk_ge in Hd. lia.
  - intros Hge. destruct (drivers (pool s)) as [|pc [|]]; try done; [lia|].
    eauto.
  - intros r. apply S2, Hh.
  - intros r Hl. apply B; [left; reflexivity|exact Hl].
  - intros r. apply S3.
  - intros r Hl Hs. apply S4; [apply Hopen; lia|exact Hl].
  - intros r Hl. apply B; [right; reflexivity|exact Hl].
  - intros i e f Hi Hl Hwg Hf.
    assert (Hs : state (helper s) = 3).
    { assert (Hone : drivers (take i (pool s)) = [] /\
                     drivers (drop (S i) (pool s)) = []).
      { destruct (drivers_insert (pool s) i _ GDone Hi) as [E1 _].
        rewrite E1 in Hd. simpl in Hd.
        destruct (drivers (take i (pool s))) as [|p1 [|p2 l1]];
          destruct (drivers (drop (S i) (pool s))); simpl in Hd;
          try contradiction; auto. }
      destruct (drivers_insert (pool s) i _ GDone Hi) as [E1 _].
      destruct Hone as [T1 T2]. rewrite E1, T1, T2 in Hd. exact Hd. }
    specialize (S1 e). rewrite Hf in S1.
    set (r := f (shutdownErr (helper s))) in *.
    destruct (stepGoroutine_ok i s _ _ _ Hi S1) as (s1 & X1 & E1 & L1).
    assert (Y2 := S2 (helper s1) r). rewrite E1 in Y2.
    specialize (Y2 Hh Hl Hs).
    rewrite <- E1 in Y2 at 1.
    destruct (stepGoroutine_ok i s1 _ _ _ L1 Y2) as (s2 & X2 & E2 & L2).
    assert (Y3 := S3 (helper s2) r).
    assert (Hwg2 : wg (helper s2) = 0) by (rewrite E2; exact Hwg).
    rewrite Hwg2 in Y3. simpl in Y3.
    destruct (stepGoroutine_ok i s2 _ _ _ L2 Y3) as (s3 & X3 & E3 & L3).
    assert (Y4 := S4 (helper s3) r).
    rewrite E3, E2 in Y4. specialize (Y4 ltac:(apply Hopen; lia) Hl).
    rewrite <- E2, <- E3 in Y4 at 1.
    destruct (stepGoroutine_ok i s3 _ _ _ L3 Y4) as (s4 & X4 & E4 & L4).
    exists s4. split; [|split; [exact L4|exact E4]].
    cbn [run]. rewrite X1, X2, X3, X4. reflexivity.
Qed.

Lemma shutdown_driver_sequence_witness :
  (exists s',
     run [Run 0%nat; Run 0%nat; Run 0%nat; Run 0%nat] startedSystem
       = Some s' /\
     pool s' !! 0%nat = Some (GShutdown SdExited (errors_New "boom")) /\
     helper s' =
       set_shutdownDoneChan ChanClosed
         (set_state StateShutDown
            (set_localShutdownDoneChan ChanClosed
               (set_state StateLocalShutdown
                  (set_shutdownErr (errors_New "boom")
                     (helper startedSystem)))))) /\
  (exists s,
     run [Invoke (CallStartShutdown (errors_New "boom"));
          Invoke CallUndeferShutdown; Run 0%nat] (boot freshHelper)
       = Some s /\
     Lock (helper s) = true /\
     pool s !! 0%nat = Some (GShutdown SdLocalShutdown (errors_New "boom")) /\
     resume (GShutdown SdLocalShutdown (errors_New "boom")) (helper s)
       = Blocked).
Proof.
  split.
  - assert (Hr : reachable startedSystem).
    { exists plainObj, None, (Some echoHandler), freshHelper,
        [Invoke (CallStartShutdown (errors_New "boom"))].
      split; reflexivity. }
    destruct (shutdown_driver_sequence startedSystem Hr)
      as (_ & _ & _ & _ & _ & _ & _ & _ & H).
    apply (H 0%nat nilError echoHandler); reflexivity.
  - destruct (run [Invoke (CallStartShutdown (errors_New "boom"));
                   Invoke CallUndeferShutdown; Run 0%nat] (boot freshHelper))
      as [s|] eqn:R; [|vm_compute in R; discriminate].
    exists s. split; [reflexivity|].
    assert (Hr : reachable s).
    { exists plainObj, None, (Some echoHandler), freshHelper,
        [Invoke (CallStartShutdown (errors_New "boom"));
         Invoke CallUndeferShutdown; Run 0%nat].
      split; [reflexivity|exact R]. }
    destruct (shutdown_driver_sequence s Hr)
      as (_ & _ & _ & _ & B & _).
    assert (Hl : Lock (helper s) = true)
      by (vm_compute in R; simplify_eq; reflexivity).
    split; [exact Hl|]. split.
    + vm_compute in R. simplify_eq. reflexivity.
    + apply B. exact Hl.
Defined.

(** ** Steps of a system, case by case *)

Lemma crashed_not_driver g : driverPC g = None -> driverPC (crashed g) = None.
Proof. destruct g; simpl; done. Qed.

Lemma exec_Transition a s s' :
  SInv s -> exec a s = Some s' -> Transition s s'.
Proof.
  intros HS He. destruct a as [c|cb w|i|i]; simpl in He.
  - destruct (invoke c (helper s)) as [u h' st|msg h' st|] eqn:E;
      simplify_eq.
    + eapply (T_invoke _ _ c); [rewrite E; left; eauto|reflexivity].
    + eapply (T_invoke _ _ c); [rewrite E; right; eauto|reflexivity].
  - simplify_eq. eapply T_activate. reflexivity.
  - unfold stepGoroutine in He. destruct (pool s !! i) as [g|] eqn:Hi; [|done].
    destruct (driverPC g) as [pc|] eqn:Hg.
    + destruct g as [| pc0 e0 | | |]; try discriminate.
      simpl in Hg. simplify_eq. simpl in He.
      destruct HS as [Hh Hd].
      assert (Hp : phaseOk pc (state (helper s))).
      { destruct (drivers_insert (pool s) i _ GDone Hi) as [E1 _].
        rewrite E1 in Hd. simpl in Hd.
        destruct (drivers (take i (pool s))) as [|p1 [|p2 l1]];
          destruct (drivers (drop (S i) (pool s))); simpl in Hd;
          try contradiction; auto. }
      pose proof (resumeShutdown_DStep pc e0 (helper s) Hh Hp) as H.
      destruct (resumeShutdown pc e0 (helper s)) as [g' h' st|msg h' st|] eqn:E;
        simplify_eq; simpl in H.
      * destruct H as (pc' & e' & -> & _ & _ & -> & _).
        eapply (T_driver _ _ i pc e0); eauto.
        -- rewrite E. left. reflexivity.
        -- by rewrite app_nil_r.
      * destruct H as (_ & _ & -> & _).
        eapply (T_driver _ _ i pc e0); eauto.
        -- rewrite E. right. eauto.
        -- by rewrite app_nil_r.
    + pose proof (resume_other_HStep g (helper s) Hg (proj1 HS)) as H.
      destruct (resume g (helper s)) as [g' h' st|msg h' st|] eqn:E;
        simplify_eq; simpl in H.
      * eapply (T_goroutine _ _ resume i g g'); eauto.
        -- apply H.
        -- rewrite E. left. reflexivity.
      * eapply (T_goroutine _ _ resume i g (crashed g)); eauto.
        -- by apply crashed_not_driver.
        -- rewrite E. right. eauto.
  - unfold stepGoroutine in He. destruct (pool s !! i) as [g|] eqn:Hi; [|done].
    destruct (driverPC g) as [pc|] eqn:Hg.
    { destruct g; discriminate. }
    pose proof (resumeExternal_HStep g (helper s) (proj1 HS)) as H.
    destruct (resumeExternal g (helper s)) as [g' h' st|msg h' st|] eqn:E;
      simplify_eq; simpl in H.
    + eapply (T_goroutine _ _ resumeExternal i g g'); eauto.
      * apply H.
      * rewrite E. left. reflexivity.
    + eapply (T_goroutine _ _ resumeExternal i g (crashed g)); eauto.
      * by apply crashed_not_driver.
      * rewrite E. right. eauto.
Qed.

(** ** What the steps leave alone *)

Lemma invoke_HFrame c h : HInv h -> HFrameOutcome h (invoke c h).
Proof.
  intros Hh. destruct_helper h. unfold HFrameOutcome, HFrame, HInv in *.
  unfold_states. destruct c; crush_M.
Qed.

Lemma resumeActivate_HFrame pc cb w err h :
  HInv h -> HFrameOutcome h (resumeActivate pc cb w err h).
Proof.
  intros Hh. destruct_helper h. unfold HFrameOutcome, HFrame, HInv in *.
  unfold_states.
  destruct pc; unfold resumeActivate, activateLocked.
  all: crush_M.
Qed.

Lemma resume_other_HFrame g h :
  driverPC g = None -> HInv h -> HFrameOutcome h (resume g h).
Proof.
  intros Hg Hh. destruct g as [pc cb w err| |kind|ctxErr|]; try discriminate.
  - apply resumeActivate_HFrame, Hh.
  - destruct_helper h. unfold HFrameOutcome, HFrame, HInv in *. unfold_states.
    destruct kind; unfold resume; crush_M.
  - destruct_helper h. unfold HFrameOutcome, HFrame, HInv in *. unfold_states.
    unfold resume; crush_M.
  - exact I.
Qed.

Lemma resumeExternal_HFrame g h :
  HInv h -> HFrameOutcome h (resumeExternal g h).
Proof.
  intros Hh. destruct_helper h. unfold HFrameOutcome, HFrame, HInv in *.
  unfold_states.
  destruct g as [pc cb w err|pc e|kind|ctxErr|]; try exact I.
  - destruct kind; unfold resumeExternal; crush_M.
  - unfold resumeExternal; crush_M.
Qed.

Lemma resumeShutdown_DFrame pc e h :
  HInv h -> phaseOk pc (state h) ->
  match resumeShutdown pc e h with
  | Ok _ h' _ | Panicked _ h' _ => DFrame pc e h h'
  | Blocked => True
  end.
Proof.
  intros Hh Hp. destruct_helper h. unfold DFrame, HInv, phaseOk in *.
  unfold_states.
  destruct pc; unfold resumeShutdown; simpl in *.
  all: unfold_M; simpl in *; split_ifs; unfold_states; simpl in *;
    zify_bool; subst; try (finish; fail).
Qed.

Lemma Finishes_HFrame {A} (o : Outcome A) h h' st :
  HFrameOutcome h o -> Finishes o h' st -> HFrame h h'.
Proof. intros H [[a ->]|[msg ->]]; exact H. Qed.

Lemma Continues_HFrame o g g' h h' st :
  HFrameOutcome h o -> Continues o g g' h' st -> HFrame h h'.
Proof. intros H [->|[msg [-> _]]]; exact H. Qed.

Lemma HFrame_SFrame s s' :
  HFrame (helper s) (helper s') -> SFrame s s'.
Proof.
  intros (H1 & H2 & H3 & H4 & H5 & H6 & H7).
  repeat split; auto. intros; apply H6; lia.
Qed.

Lemma exec_SFrame a s s' : SInv s -> exec a s = Some s' -> SFrame s s'.
Proof.
  intros HS He. pose proof (proj1 HS) as Hh.
  destruct (exec_Transition a s s' HS He)
    as [c h' st Hf ->|cb w ->|code i g g' h' st Hc Hi Hg Hg' Hk ->
        |i pc e g' h' Hi Hp Hk ->].
  - apply HFrame_SFrame. simpl.
    eapply Finishes_HFrame; [apply invoke_HFrame, Hh|exact Hf].
  - unfold SFrame; simpl. repeat split; auto; lia.
  - apply HFrame_SFrame. simpl. destruct Hc as [-> | ->].
    + eapply Continues_HFrame; [|exact Hk].
      apply resume_other_HFrame; assumption.
    + eapply Continues_HFrame; [|exact Hk].
      apply resumeExternal_HFrame; assumption.
  - pose proof (resumeShutdown_DFrame pc e (helper s) Hh Hp) as HD.
    assert (HD' : DFrame pc e (helper s) h').
    { destruct Hk as [E|[msg [E _]]]; rewrite E in HD; exact HD. }
    destruct HD' as (H1 & H2 & H3 & H4 & H5 & H6).
    unfold SFrame; simpl. rewrite H1, H2, H3, H4, H5.
    repeat split; auto; try lia.
    intros Hge. destruct H6 as [E|(_ & E & _)]; [exact E|lia].
Qed.

Lemma run_SFrame acts : forall s s',
  SInv s -> run acts s = Some s' -> SFrame s s'.
Proof.
  induction acts as [|a acts IH]; simpl; intros s s' HS Hr.
  - simplify_eq. unfold SFrame. repeat split; auto; lia.
  - destruct (exec a s) as [s1|] eqn:E; [|done].
    destruct (exec_SInv a s s1 HS E) as [HS1 [Hst _]].
    pose proof (exec_SFrame a s s1 HS E) as (A1 & A2 & A3 & A4 & A5 & A6 & A7).
    pose proof (IH s1 s' HS1 Hr) as (B1 & B2 & B3 & B4 & B5 & B6 & B7).
    assert (Hle : state (helper s) <= state (helper s1)) by lia.
    unfold SFrame. repeat split.
    + congruence.
    + auto.
    + intros. apply B3; [auto|lia].
    + auto.
    + intros. rewrite B5 by lia. auto.
    + intros. rewrite B6 by lia. auto.
    + intros. specialize (A7 ltac:(lia)). specialize (B7 ltac:(lia)). lia.
Qed.

(** ** Signals, flags and queries *)

(** In every reachable system each of the four channels is closed
    exactly when the state has reached the matching stage:
    activation-done from activated (2) on, shutdown-started from
    shutting-down (3) on, local-shutdown-done from local-shutdown (4) on,
    shutdown-done in shut-down (5). *)
Theorem channels_track_state :
  forall s,
    reachable s ->
    let h := helper s in
    (activatingDoneChan h = ChanClosed <-> StateActivated <= state h) /\
    (shutdownStartedChan h = ChanClosed <-> StateShuttingDown <= state h) /\
    (localShutdownDoneChan h = ChanClosed <-> StateLocalShutdown <= state h) /\
    (shutdownDoneChan h = ChanClosed <-> state h = StateShutDown).
Proof.
  intros s Hr h.
  destruct (proj1 (reachable_SInv s Hr))
    as (Hrange & _ & _ & _ & H2 & H3 & H4 & H5 & _).
  subst h. unfold_states. repeat split; try tauto.
  - intros E. apply H5 in E. lia.
  - intros E. apply H5. lia.
Qed.

Lemma channels_track_state_witness :
  exists s,
    run shutDownSchedule (boot freshHelper) = Some s /\
    (activatingDoneChan (helper s) = ChanClosed
       <-> StateActivated <= state (helper s)) /\
    (shutdownStartedChan (helper s) = ChanClosed
       <-> StateShuttingDown <= state (helper s)) /\
    (localShutdownDoneChan (helper s) = ChanClosed
       <-> StateLocalShutdown <= state (helper s)) /\
    (shutdownDoneChan (helper s) = ChanClosed
       <-> state (helper s) = StateShutDown).
Proof.
  eexists. split; [vm_compute; reflexivity|].
  apply channels_track_state.
  exists plainObj, None, (Some echoHandler), freshHelper, shutDownSchedule.
  split; [reflexivity|vm_compute; reflexivity].
Defined.

(** The activated flag latches.  Along every run of a reachable system,
    once [IsActivated] is true it stays true, and if shutdown has started
    (state at least shutting-down) while it is false it stays false. *)
Theorem IsActivated_latches :
  forall s acts s',
    reachable s -> run acts s = Some s' ->
    (forall h1 g1 h2 g2 b,
       IsActivated (helper s) = Ok true h1 g1 ->
       IsActivated (helper s') = Ok b h2 g2 -> b = true) /\
    (forall h1 g1 h2 g2 b,
       StateShuttingDown <= state (helper s) ->
       IsActivated (helper s) = Ok false h1 g1 ->
       IsActivated (helper s') = Ok b h2 g2 -> b = false).
Proof.
  intros s acts s' Hr Hrun.
  destruct (run_SFrame acts s s' (reachable_SInv s Hr) Hrun)
    as (_ & A2 & A3 & _).
  unfold IsActivated, get. split.
  - intros h1 g1 h2 g2 b H1 H2. simplify_eq. auto.
  - intros h1 g1 h2 g2 b Hge H1 H2. simplify_eq. auto.
Qed.

Lemma IsActivated_latches_witness :
  exists s s',
    run (Activate (Some okCallback) false :: repeat (Run 0%nat) 6)
        (boot freshHelper) = Some s /\
    run [Invoke (CallStartShutdown nilError); Run 1%nat; Run 1%nat] s
      = Some s' /\
    (forall h1 g1 h2 g2 b,
       IsActivated (helper s) = Ok true h1 g1 ->
       IsActivated (helper s') = Ok b h2 g2 -> b = true) /\
    (forall h1 g1 h2 g2 b,
       StateShuttingDown <= state (helper s) ->
       IsActivated (helper s) = Ok false h1 g1 ->
       IsActivated (helper s') = Ok b h2 g2 -> b = false).
Proof.
  eexists _, _. split; [vm_compute; reflexivity|].
  split; [vm_compute; reflexivity|].
  apply (IsActivated_latches _
           [Invoke (CallStartShutdown nilError); Run 1%nat; Run 1%nat]).
  - exists plainObj, None, (Some echoHandler), freshHelper,
      (Activate (Some okCallback) false :: repeat (Run 0%nat) 6).
    split; [reflexivity|vm_compute; reflexivity].
  - vm_compute. reflexivity.
Defined.

Lemma IsScheduledShutdown_eval h :
  Lock h = false ->
  IsScheduledShutdown h = Ok (isScheduledShutdown h) h [].
Proof.
  intros Hl. destruct_helper h. simpl in *. subst.
  unfold IsScheduledShutdown; unfold_M. cbn. reflexivity.
Qed.

Lemma state_query_eval (k : Z) h :
  Lock h = false ->
  (Lock_Lock ;;; defer Lock_Unlock (st <- get state ;; ret (k <=? st))) h
  = Ok (k <=? state h) h [].
Proof.
  intros Hl. destruct_helper h. simpl in *. subst.
  unfold_M. cbn. reflexivity.
Qed.

(** The four shutdown queries.  In a reachable system with the mutex
    free each returns without changing the helper, the answers are
    ordered (done implies local-done implies started implies scheduled),
    and along every run an answer that was true stays true. *)
Theorem shutdown_queries_monotone :
  forall s acts s',
    reachable s -> run acts s = Some s' ->
    Lock (helper s) = false -> Lock (helper s') = false ->
    exists b1 b2 b3 b4 c1 c2 c3 c4,
      IsScheduledShutdown (helper s) = Ok b1 (helper s) [] /\
      IsStartedShutdown (helper s) = Ok b2 (helper s) [] /\
      IsDoneLocalShutdown (helper s) = Ok b3 (helper s) [] /\
      IsDoneShutdown (helper s) = Ok b4 (helper s) [] /\
      IsScheduledShutdown (helper s') = Ok c1 (helper s') [] /\
      IsStartedShutdown (helper s') = Ok c2 (helper s') [] /\
      IsDoneLocalShutdown (helper s') = Ok c3 (helper s') [] /\
      IsDoneShutdown (helper s') = Ok c4 (helper s') [] /\
      (b4 = true -> b3 = true) /\ (b3 = true -> b2 = true) /\
      (b2 = true -> b1 = true) /\
      (b1 = true -> c1 = true) /\ (b2 = true -> c2 = true) /\
      (b3 = true -> c3 = true) /\ (b4 = true -> c4 = true).
Proof.
  intros s acts s' Hr Hrun Hl Hl'.
  pose proof (reachable_SInv s Hr) as HS.
  pose proof (run_state_le acts s s' HS Hrun) as Hle.
  destruct (run_SFrame acts s s' HS Hrun) as (_ & _ & _ & A4 & _).
  destruct HS as [(_ & Hsched & _) _].
  rewrite !IsScheduledShutdown_eval by assumption.
  unfold IsStartedShutdown, IsDoneLocalShutdown, IsDoneShutdown.
  rewrite !state_query_eval by assumption.
  do 8 eexists. do 8 (split; [reflexivity|]).
  unfold_states. rewrite !Z.leb_le. repeat split; auto; lia.
Qed.

Lemma shutdown_queries_monotone_witness :
  exists s s' b1 b2 b3 b4 c1 c2 c3 c4,
    run [Invoke (CallStartShutdown (errors_New "boom"))] (boot freshHelper)
      = Some s /\
    run [Run 0%nat; Run 0%nat; Run 0%nat; Run 0%nat] s = Some s' /\
    IsScheduledShutdown (helper s) = Ok b1 (helper s) [] /\
    IsStartedShutdown (helper s) = Ok b2 (helper s) [] /\
    IsDoneLocalShutdown (helper s) = Ok b3 (helper s) [] /\
    IsDoneShutdown (helper s) = Ok b4 (helper s) [] /\
    IsScheduledShutdown (helper s') = Ok c1 (helper s') [] /\
    IsStartedShutdown (helper s') = Ok c2 (helper s') [] /\
    IsDoneLocalShutdown (helper s') = Ok c3 (helper s') [] /\
    IsDoneShutdown (helper s') = Ok c4 (helper s') [] /\
    (b4 = true -> b3 = true) /\ (b3 = true -> b2 = true) /\
    (b2 = true -> b1 = true) /\
    (b1 = true -> c1 = true) /\ (b2 = true -> c2 = true) /\
    (b3 = true -> c3 = true) /\ (b4 = true -> c4 = true).
Proof.
  eexists _, _.
  assert (R1 : run [Invoke (CallStartShutdown (errors_New "boom"))]
                 (boot freshHelper) = Some startedSystem)
    by (vm_compute; reflexivity).
  destruct (shutdown_queries_monotone startedSystem
              [Run 0%nat; Run 0%nat; Run 0%nat; Run 0%nat]
              _
              ltac:(exists plainObj, None, (Some echoHandler), freshHelper,
                      [Invoke (CallStartShutdown (errors_New "boom"))];
                    split; reflexivity)
              ltac:(vm_compute; reflexivity)
              ltac:(reflexivity) ltac:(reflexivity))
    as (b1 & b2 & b3 & b4 & c1 & c2 & c3 & c4 & H).
  exists b1, b2, b3, b4, c1, c2, c3, c4.
  split; [exact R1|]. split; [vm_compute; reflexivity|]. exact H.
Defined.

(** ** The terminal error *)

Lemma WaitLocalShutdown_eval h :
  WaitLocalShutdown h =
    match localShutdownDoneChan h with
    | ChanClosed => Ok (shutdownErr h) h []
    | ChanOpen => Blocked
    end.
Proof.
  destruct_helper h. unfold WaitLocalShutdown; unfold_M; cbn.
  destruct h_lsc; reflexivity.
Qed.

Lemma WaitShutdown_eval h :
  WaitShutdown h =
    match shutdownDoneChan h with
    | ChanClosed => Ok (shutdownErr h) h []
    | ChanOpen => Blocked
    end.
Proof.
  destruct_helper h. unfold WaitShutdown; unfold_M; cbn.
  destruct h_sdc; reflexivity.
Qed.

(** Once [WaitLocalShutdown] has returned an error value in a reachable
    system, the terminal error is final: after any further run
    [WaitLocalShutdown] returns at once with the same value, and
    [WaitShutdown], whenever it returns, returns that value too. *)
Theorem terminal_error_final :
  forall s acts s' e h1 g1,
    reachable s -> run acts s = Some s' ->
    WaitLocalShutdown (helper s) = Ok e h1 g1 ->
    WaitLocalShutdown (helper s') = Ok e (helper s') [] /\
    (forall e' h2 g2, WaitShutdown (helper s') = Ok e' h2 g2 -> e' = e) /\
    (forall e' h2 g2, WaitShutdown (helper s) = Ok e' h2 g2 -> e' = e).
Proof.
  intros s acts s' e h1 g1 Hr Hrun Hw.
  pose proof (reachable_SInv s Hr) as HS.
  pose proof (run_state_le acts s s' HS Hrun) as Hle.
  pose proof (run_SInv acts s s' HS Hrun) as HS'.
  destruct (run_SFrame acts s s' HS Hrun) as (_ & _ & _ & _ & _ & A6 & _).
  destruct HS as [(_ & _ & _ & _ & _ & _ & L4 & _) _].
  destruct HS' as [(_ & _ & _ & _ & _ & _ & L4' & _) _].
  rewrite WaitLocalShutdown_eval in Hw.
  destruct (localShutdownDoneChan (helper s)) eqn:E; [done|].
  simplify_eq.
  assert (Hge : 4 <= state (helper s)) by (apply L4; reflexivity).
  specialize (A6 Hge).
  assert (E' : localShutdownDoneChan (helper s') = ChanClosed)
    by (apply L4'; lia).
  rewrite WaitLocalShutdown_eval, E', A6. split; [reflexivity|].
  split; intros e' h2 g2 H; rewrite WaitShutdown_eval in H.
  - destruct (shutdownDoneChan (helper s')); [done|]. by simplify_eq.
  - destruct (shutdownDoneChan (helper s)); [done|]. by simplify_eq.
Qed.

Lemma terminal_error_final_witness :
  exists s s',
    run [Invoke (CallStartShutdown (errors_New "boom")); Run 0%nat; Run 0%nat]
        (boot freshHelper) = Some s /\
    run [Run 0%nat; Run 0%nat; Invoke (CallStartShutdown (errors_New "late"))]
        s = Some s' /\
    WaitLocalShutdown (helper s') = Ok (errors_New "boom") (helper s') [] /\
    (forall e' h2 g2,
       WaitShutdown (helper s') = Ok e' h2 g2 -> e' = errors_New "boom") /\
    (forall e' h2 g2,
       WaitShutdown (helper s) = Ok e' h2 g2 -> e' = errors_New "boom").
Proof.
  eexists _, _. split; [vm_compute; reflexivity|].
  split; [vm_compute; reflexivity|].
  eapply (terminal_error_final _
            [Run 0%nat; Run 0%nat;
             Invoke (CallStartShutdown (errors_New "late"))]).
  - exists plainObj, None, (Some echoHandler), freshHelper,
      [Invoke (CallStartShutdown (errors_New "boom")); Run 0%nat; Run 0%nat].
    split; [reflexivity|vm_compute; reflexivity].
  - vm_compute. reflexivity.
  - vm_compute. reflexivity.
Defined.

(** ** The wait group *)

Lemma addChild_eval kind msg h :
  Lock h = false -> 0 <= wg h ->
  addChild kind msg h =
    if StateShutDown <=? state h
    then Ok (errors_New msg) h []
    else Ok nilError (set_wg (wg h + 1) h) [GChild kind].
Proof.
  intros Hl Hw. destruct_helper h. simpl in *. subst.
  unfold addChild; unfold_M; unfold_states; cbn.
  destruct (5 <=? h_state); cbn; [reflexivity|].
  destruct (Z.ltb_spec (h_wg + 1) 0); [lia|]. reflexivity.
Qed.

(** Registration with the wait group.  With the mutex free and a
    non-negative counter: [ShutdownWGAdd] with a positive delta and the
    three child registrations add to the counter (by delta, by one) while
    the state is below shut-down, the registrations starting one child
    goroutine each; in state shut-down all four return an error, leave
    the helper unchanged and start nothing. *)
Theorem wait_group_registration :
  forall h delta,
    Lock h = false -> 0 <= wg h -> 0 < delta ->
    (state h < StateShutDown ->
     ShutdownWGAdd delta h = Ok (Some tt, nilError) (set_wg (wg h + delta) h) []
     /\
     AddShutdownChildChan h =
       Ok nilError (set_wg (wg h + 1) h) [GChild ChildChan] /\
     AddAsyncShutdownChild h =
       Ok nilError (set_wg (wg h + 1) h) [GChild AsyncChild] /\
     AddSyncCloseChild h =
       Ok nilError (set_wg (wg h + 1) h) [GChild SyncCloseChild]) /\
    (StateShutDown <= state h ->
     (exists e, ShutdownWGAdd delta h = Ok (None, Some e) h []) /\
     (exists e, AddShutdownChildChan h = Ok (Some e) h []) /\
     (exists e, AddAsyncShutdownChild h = Ok (Some e) h []) /\
     (exists e, AddSyncCloseChild h = Ok (Some e) h [])).
Proof.
  intros h delta Hl Hw Hd.
  unfold AddShutdownChildChan, AddAsyncShutdownChild, AddSyncCloseChild.
  rewrite !addChild_eval by assumption.
  assert (HW : ShutdownWGAdd delta h =
    if StateShutDown <=? state h
    then Ok (None, errors_New "Cannot add to ShutdownWG after StateShutdown")
            h []
    else Ok (Some tt, nilError) (set_wg (wg h + delta) h) []).
  { destruct_helper h. simpl in *. subst.
    unfold ShutdownWGAdd; unfold_M; unfold_states; cbn.
    destruct (Z.leb_spec delta 0); [lia|]. cbn.
    destruct (5 <=? h_state); cbn; [reflexivity|].
    destruct (Z.ltb_spec (h_wg + delta) 0); [lia|]. reflexivity. }
  rewrite HW. unfold_states. split; intros Hs.
  - destruct (Z.leb_spec 5 (state h)); [lia|]. auto.
  - destruct (Z.leb_spec 5 (state h)); [|lia].
    unfold errors_New. repeat split; eexists; reflexivity.
Qed.

Lemma wait_group_registration_witness :
  ShutdownWGAdd 2 freshHelper =
    Ok (Some tt, nilError) (set_wg (wg freshHelper + 2) freshHelper) [] /\
  AddShutdownChildChan freshHelper =
    Ok nilError (set_wg (wg freshHelper + 1) freshHelper) [GChild ChildChan]
  /\
  AddAsyncShutdownChild freshHelper =
    Ok nilError (set_wg (wg freshHelper + 1) freshHelper) [GChild AsyncChild]
  /\
  AddSyncCloseChild freshHelper =
    Ok nilError (set_wg (wg freshHelper + 1) freshHelper)
       [GChild SyncCloseChild].
Proof.
  apply (proj1 (wait_group_registration freshHelper 2
                  ltac:(reflexivity) ltac:(simpl; lia) ltac:(lia))).
  simpl. unfold StateShutDown, StateUnactivated. lia.
Defined.

(** Once a reachable system is in state shut-down, no action makes the
    wait-group counter grow. *)
Theorem wait_group_closed_after_shutdown :
  forall s acts s',
    reachable s -> run acts s = Some s' ->
    state (helper s) = StateShutDown ->
    wg (helper s') <= wg (helper s).
Proof.
  intros s acts s' Hr Hrun Hs.
  destruct (run_SFrame acts s s' (reachable_SInv s Hr) Hrun)
    as (_ & _ & _ & _ & _ & _ & A7).
  apply A7. rewrite Hs. unfold_states. lia.
Qed.

Lemma wait_group_closed_after_shutdown_witness :
  exists s s',
    run shutDownSchedule (boot freshHelper) = Some s /\
    run [Invoke (CallShutdownWGAdd 3); Invoke CallAddSyncCloseChild] s
      = Some s' /\
    wg (helper s') <= wg (helper s).
Proof.
  eexists _, _. split; [vm_compute; reflexivity|].
  split; [vm_compute; reflexivity|].
  eapply (wait_group_closed_after_shutdown _
            [Invoke (CallShutdownWGAdd 3); Invoke CallAddSyncCloseChild]).
  - exists plainObj, None, (Some echoHandler), freshHelper, shutDownSchedule.
    split; [reflexivity|vm_compute; reflexivity].
  - vm_compute. reflexivity.
  - reflexivity.
Defined.

(** ** Deferrals *)

(** A deferral and its release.  With the mutex free, the state below
    shutting-down and a count that is non-negative and below the largest
    Go [int], [DeferShutdown] returns nil and adds one to the count; unless
    a scheduled shutdown is waiting on a count of zero, the matching
    [UndeferShutdown] then restores the helper exactly and starts
    nothing. *)
Theorem DeferShutdown_UndeferShutdown_round_trip :
  forall h,
    Lock h = false -> state h < StateShuttingDown ->
    0 <= shutdownDeferCount h < 2 ^ 63 - 1 ->
    DeferShutdown h =
      Ok nilError (set_shutdownDeferCount (shutdownDeferCount h + 1) h) [] /\
    (isScheduledShutdown h = false \/ 0 < shutdownDeferCount h ->
     UndeferShutdown (set_shutdownDeferCount (shutdownDeferCount h + 1) h) =
       Ok tt h []).
Proof.
  intros h Hl Hs Hc. destruct_helper h. simpl in *. subst. unfold_states.
  assert (W1 : wrapInt (h_count + 1) = h_count + 1)
    by (apply wrapInt_small; lia).
  assert (W2 : wrapInt (h_count + 1 - 1) = h_count)
    by (rewrite wrapInt_small; lia).
  split.
  - unfold DeferShutdown; unfold_M; unfold_states; cbn.
    destruct (Z.leb_spec 3 h_state); [lia|]. cbn. rewrite W1. reflexivity.
  - intros Hok. unfold UndeferShutdown; unfold_M; unfold_states; cbn.
    destruct (Z.ltb_spec (h_count + 1) 1); [lia|]. cbn. rewrite W2.
    destruct (Z.eqb_spec h_count 0) as [->|]; cbn.
    + destruct Hok as [->|]; [|lia]. cbn. reflexivity.
    + reflexivity.
Qed.

Lemma DeferShutdown_UndeferShutdown_round_trip_witness :
  DeferShutdown freshHelper =
    Ok nilError
       (set_shutdownDeferCount (shutdownDeferCount freshHelper + 1)
          freshHelper) [] /\
  (isScheduledShutdown freshHelper = false \/
   0 < shutdownDeferCount freshHelper ->
   UndeferShutdown
     (set_shutdownDeferCount (shutdownDeferCount freshHelper + 1) freshHelper)
   = Ok tt freshHelper []).
Proof.
  apply DeferShutdown_UndeferShutdown_round_trip.
  - reflexivity.
  - vm_compute. reflexivity.
  - vm_compute. split; [discriminate|reflexivity].
Defined.

(** [UndeferShutdown] with deferrals outstanding, in a reachable system
    with the mutex free.  It takes one off the count.  If that was the
    last deferral and shutdown has been scheduled, it enters
    shutting-down (closing shutdown-started, and activation-done if it
    was still open), keeps the terminal error and starts the shutdown
    goroutine; otherwise it changes nothing else and starts nothing. *)
Theorem UndeferShutdown_releases_scheduled_shutdown :
  forall s,
    reachable s ->
    let h := helper s in
    Lock h = false ->
    1 <= shutdownDeferCount h <= 2 ^ 63 ->
    exists h' st,
      UndeferShutdown h = Ok tt h' st /\
      shutdownDeferCount h' = shutdownDeferCount h - 1 /\
      shutdownErr h' = shutdownErr h /\
      if (shutdownDeferCount h =? 1) && isScheduledShutdown h
      then state h < StateShuttingDown /\
           state h' = StateShuttingDown /\
           shutdownStartedChan h' = ChanClosed /\
           activatingDoneChan h' = ChanClosed /\
           st = [GShutdown SdCallHandler nilError]
      else h' = set_shutdownDeferCount (shutdownDeferCount h - 1) h /\
           st = [].
Proof.
  intros s Hr h Hl Hc. subst h.
  pose proof (proj1 (reachable_SInv s Hr)) as Hh. unfold HInv in Hh.
  destruct (helper s) as
    [h_lg h_obj h_Lock h_state h_handler h_count h_activated
     h_scheduled h_err h_adc h_ssc h_lsc h_sdc h_wg].
  simpl in *. subst. unfold_states.
  destruct Hh as (Hrange & _ & _ & _ & Hadc & Hssc & _ & _ & Hpos).
  assert (Hlt : h_state < 3) by (apply Hpos; lia).
  assert (W : wrapInt (h_count - 1) = h_count - 1)
    by (apply wrapInt_small; lia).
  assert (h_ssc = ChanOpen) as ->.
  { destruct h_ssc; [done|]. assert (3 <= h_state) by (apply Hssc; done). lia. }
  unfold UndeferShutdown, lockedEnterShuttingDownState; unfold_M;
    unfold_states; cbn.
  destruct (Z.ltb_spec h_count 1); [lia|]. cbn. rewrite W.
  destruct (Z.eqb_spec (h_count - 1) 0) as [E|E];
    destruct (Z.eqb_spec h_count 1) as [E1|E1]; try lia; cbn.
  - destruct h_scheduled; cbn.
    + destruct (Z.ltb_spec h_state 3); [|lia]. cbn.
      destruct (Z.ltb_spec h_state 2); cbn.
      * assert (h_adc = ChanOpen) as ->.
        { destruct h_adc; [done|].
          assert (2 <= h_state) by (apply Hadc; done). lia. }
        cbn. eexists _, _. split; [reflexivity|]. cbn.
        repeat split; try done; lia.
      * assert (h_adc = ChanClosed) as -> by (apply Hadc; lia).
        eexists _, _. split; [reflexivity|]. cbn.
        repeat split; try done; lia.
    + eexists _, _. split; [reflexivity|]. cbn. repeat split; done.
  - eexists _, _. split; [reflexivity|]. cbn. repeat split; done.
Qed.

Lemma UndeferShutdown_releases_scheduled_shutdown_witness :
  exists s h' st,
    run [Invoke CallDeferShutdown;
         Invoke (CallStartShutdown (errors_New "boom"))]
        (boot freshHelper) = Some s /\
    UndeferShutdown (helper s) = Ok tt h' st /\
    shutdownDeferCount h' = shutdownDeferCount (helper s) - 1 /\
    shutdownErr h' = shutdownErr (helper s) /\
    if (shutdownDeferCount (helper s) =? 1) &&
       isScheduledShutdown (helper s)
    then state (helper s) < StateShuttingDown /\
         state h' = StateShuttingDown /\
         shutdownStartedChan h' = ChanClosed /\
         activatingDoneChan h' = ChanClosed /\
         st = [GShutdown SdCallHandler nilError]
    else h' = set_shutdownDeferCount
                (shutdownDeferCount (helper s) - 1) (helper s) /\
         st = [].
Proof.
  eexists.
  assert (R : run [Invoke CallDeferShutdown;
                   Invoke (CallStartShutdown (errors_New "boom"))]
                (boot freshHelper) =
              Some {| helper :=
                        set_isScheduledShutdown true
                          (set_shutdownErr (errors_New "boom")
                             (set_shutdownDeferCount 1 freshHelper));
                      pool := [] |}) by (vm_compute; reflexivity).
  destruct (UndeferShutdown_releases_scheduled_shutdown _
              (reachable_from_fresh _ _ R) ltac:(reflexivity)
              ltac:(vm_compute; split; discriminate))
    as (h' & st & H).
  exists h', st. split; [exact R|exact H].
Defined.

(** ** [DoOnceActivate] running on its own *)

Lemma unactivated_facts s :
  reachable s -> state (helper s) = StateUnactivated ->
  isActivated (helper s) = false /\
  isScheduledShutdown (helper s) = isScheduledShutdown (helper s) /\
  activatingDoneChan (helper s) = ChanOpen /\
  shutdownStartedChan (helper s) = ChanOpen /\
  shutdownDoneChan (helper s) = ChanOpen.
Proof.
  intros Hr Hs. destruct (proj1 (reachable_SInv s Hr))
    as (_ & _ & Ha & _ & H2 & H3 & _ & H5 & _).
  rewrite Hs in *. unfold_states.
  repeat split.
  - destruct (isActivated (helper s)); [|done]. specialize (Ha eq_refl). lia.
  - destruct (activatingDoneChan (helper s)); [done|].
    assert (2 <= 0) by (apply H2; done). lia.
  - destruct (shutdownStartedChan (helper s)); [done|].
    assert (3 <= 0) by (apply H3; done). lia.
  - destruct (shutdownDoneChan (helper s)); [done|].
    assert (5 <= 0) by (apply H5; done). lia.
Qed.

(** [DoOnceActivate] on an unactivated helper, run without interference
    in a reachable system with the mutex free, a deferral count that is
    non-negative and below the largest int, and a hook that returns nil:
    it returns nil after six statements, having set the activated flag,
    moved the state to activated and closed activation-done; the
    deferral it took is given back, and no shutdown is started even if
    one was scheduled behind other deferrals.  On any helper that is
    already activated, in whatever state, [DoOnceActivate] with the
    mutex free returns nil at its first statement and changes nothing,
    so the hook is not run again. *)
Theorem DoOnceActivate_alone_succeeds :
  forall s cb w f,
    reachable s ->
    let h := helper s in
    Lock h = false -> state h = StateUnactivated ->
    0 <= shutdownDeferCount h < 2 ^ 63 - 1 ->
    (isScheduledShutdown h = false \/ 0 < shutdownDeferCount h) ->
    activateHook cb h = Some f -> f tt = nilError ->
    let h' := set_activatingDoneChan ChanClosed
                (set_state StateActivated (set_isActivated true h)) in
    runSolo 6 (DoOnceActivate cb w) h
      = (GActivate ActReturned cb w nilError, h', []) /\
    isActivated h' = true /\ Lock h' = false /\
    forall h2 cb2 w2 n,
      isActivated h2 = true -> Lock h2 = false ->
      runSolo (S n) (DoOnceActivate cb2 w2) h2
        = (GActivate ActReturned cb2 w2 nilError, h2, []).
Proof.
  intros s cb w f Hr h Hl Hs Hc Hsched Hf Hnil h'. subst h h'.
  destruct (unactivated_facts s Hr Hs) as (Ha & _ & Hadc & _).
  split; [|split; [reflexivity|split; [exact Hl|]]].
  - destruct (helper s) as
      [h_lg h_obj h_Lock h_state h_handler h_count h_activated
       h_scheduled h_err h_adc h_ssc h_lsc h_sdc h_wg].
    simpl in *. subst. unfold_states.
    assert (W1 : wrapInt (h_count + 1) = h_count + 1)
      by (apply wrapInt_small; lia).
    assert (W2 : wrapInt (h_count + 1 - 1) = h_count)
      by (rewrite wrapInt_small; lia).
    unfold runSolo, DoOnceActivate, resume, resumeActivate, activateLocked,
      SetIsActivated, UndeferShutdown, activateHook in *.
    unfold_M; unfold_states; cbn. rewrite W1.
    destruct cb as [f0|]; cbn in Hf; cbn; [simplify_eq|rewrite Hf]; cbn;
      rewrite Hnil; cbn.
    all: destruct (Z.ltb_spec (h_count + 1) 1); [lia|]; cbn; rewrite W2.
    all: destruct (Z.eqb_spec h_count 0) as [->|]; cbn.
    all: try (destruct Hsched as [->|]; [|lia]); cbn; reflexivity.
  - clear. intros h2 cb2 w2 n Ha2 Hl2. destruct_helper h2.
    simpl in *; subst.
    unfold runSolo at 1; fold runSolo.
    unfold DoOnceActivate, resume, resumeActivate; unfold_M; cbn.
    destruct n; reflexivity.
Qed.

Lemma DoOnceActivate_alone_succeeds_witness :
  let h' := set_activatingDoneChan ChanClosed
              (set_state StateActivated (set_isActivated true freshHelper)) in
  runSolo 6 (DoOnceActivate (Some okCallback) false) freshHelper
    = (GActivate ActReturned (Some okCallback) false nilError, h', []) /\
  isActivated h' = true /\ Lock h' = false /\
  forall h2 cb2 w2 n,
    isActivated h2 = true -> Lock h2 = false ->
    runSolo (S n) (DoOnceActivate cb2 w2) h2
      = (GActivate ActReturned cb2 w2 nilError, h2, []).
Proof.
  apply (DoOnceActivate_alone_succeeds (boot freshHelper)
           (Some okCallback) false okCallback).
  - exists plainObj, None, (Some echoHandler), freshHelper, [].
    split; reflexivity.
  - reflexivity.
  - reflexivity.
  - vm_compute. split; [discriminate|reflexivity].
  - left. reflexivity.
  - reflexivity.
  - reflexivity.
Defined.

Lemma resume_ActWaitOnFail cb w e h2 :
  resume (GActivate ActWaitOnFail cb w (Some e)) h2 =
    if w then
      match shutdownDoneChan h2 with
      | ChanClosed => Ok (GActivate ActReturned cb w (Some e)) h2 []
      | ChanOpen => Blocked
      end
    else Ok (GActivate ActReturned cb w (Some e)) h2 [].
Proof.
  destruct_helper h2.
  unfold resume, resumeActivate, WaitShutdown; unfold_M; cbn.
  destruct w; [|reflexivity]. destruct h_sdc; reflexivity.
Qed.

(** [DoOnceActivate] whose hook fails with error [e], run without
    interference in a reachable system with the mutex free, on an
    unactivated helper with no deferral and no shutdown scheduled: it
    schedules shutdown with [e], enters shutting-down straight from
    activating (the activated flag stays false), and starts the shutdown
    goroutine.  With [waitOnFail] false it then returns [e]; with
    [waitOnFail] true it waits for shutdown-done and then returns [e]
    too, whatever the terminal error has become. *)
Theorem DoOnceActivate_alone_fails :
  forall s cb f e,
    reachable s ->
    let h := helper s in
    Lock h = false -> state h = StateUnactivated ->
    shutdownDeferCount h = 0 -> isScheduledShutdown h = false ->
    activateHook cb h = Some f -> f tt = Some e ->
    let h' := set_shutdownStartedChan ChanClosed
                (set_activatingDoneChan ChanClosed
                   (set_state StateShuttingDown
                      (set_isScheduledShutdown true
                         (set_shutdownErr (Some e) h)))) in
    isActivated h' = false /\
    runSolo 6 (DoOnceActivate cb false) h
      = (GActivate ActReturned cb false (Some e), h',
         [GShutdown SdCallHandler nilError]) /\
    runSolo 6 (DoOnceActivate cb true) h
      = (GActivate ActWaitOnFail cb true (Some e), h',
         [GShutdown SdCallHandler nilError]) /\
    forall h2,
      resume (GActivate ActWaitOnFail cb true (Some e)) h2 =
        match shutdownDoneChan h2 with
        | ChanClosed => Ok (GActivate ActReturned cb true (Some e)) h2 []
        | ChanOpen => Blocked
        end.
Proof.
  intros s cb f e Hr h Hl Hs Hc Hsched Hf Hfail h'. subst h h'.
  destruct (unactivated_facts s Hr Hs) as (Ha & _ & Hadc & Hssc & Hsdc).
  destruct (helper s) as
    [h_lg h_obj h_Lock h_state h_handler h_count h_activated
     h_scheduled h_err h_adc h_ssc h_lsc h_sdc h_wg].
  simpl in *. subst. unfold_states.
  split; [reflexivity|].
  assert (Hrun : forall w,
    runSolo 6 (DoOnceActivate cb w)
      {| lg := h_lg; obj := h_obj; Lock := false; state := 0;
         shutdownHandler := h_handler; shutdownDeferCount := 0;
         isActivated := false; isScheduledShutdown := false;
         shutdownErr := h_err; activatingDoneChan := ChanOpen;
         shutdownStartedChan := ChanOpen; localShutdownDoneChan := h_lsc;
         shutdownDoneChan := ChanOpen; wg := h_wg |}
    = (GActivate (if w then ActWaitOnFail else ActReturned) cb w (Some e),
       {| lg := h_lg; obj := h_obj; Lock := false; state := 3;
          shutdownHandler := h_handler; shutdownDeferCount := 0;
          isActivated := false; isScheduledShutdown := true;
          shutdownErr := Some e; activatingDoneChan := ChanClosed;
          shutdownStartedChan := ChanClosed; localShutdownDoneChan := h_lsc;
          shutdownDoneChan := ChanOpen; wg := h_wg |},
       [GShutdown SdCallHandler nilError])).
  { intros w.
    unfold runSolo, DoOnceActivate, resume, resumeActivate, activateLocked,
      StartShutdown, UndeferShutdown, lockedEnterShuttingDownState,
      asyncDoStartedShutdown, WaitShutdown, activateHook in *.
    unfold_M; unfold_states; cbn.
    destruct cb as [f0|]; cbn in Hf; cbn; [simplify_eq|rewrite Hf]; cbn;
      rewrite Hfail; cbn; destruct w; reflexivity. }
  split; [apply (Hrun false)|]. split; [apply (Hrun true)|].
  intros h2. apply (resume_ActWaitOnFail cb true e h2).
Qed.

Lemma DoOnceActivate_alone_fails_witness :
  let h' := set_shutdownStartedChan ChanClosed
              (set_activatingDoneChan ChanClosed
                 (set_state StateShuttingDown
                    (set_isScheduledShutdown true
                       (set_shutdownErr (Some "bad") freshHelper)))) in
  isActivated h' = false /\
  runSolo 6 (DoOnceActivate (Some (fun _ => Some "bad")) false) freshHelper
    = (GActivate ActReturned (Some (fun _ => Some "bad")) false (Some "bad"),
       h', [GShutdown SdCallHandler nilError]) /\
  runSolo 6 (DoOnceActivate (Some (fun _ => Some "bad")) true) freshHelper
    = (GActivate ActWaitOnFail (Some (fun _ => Some "bad")) true (Some "bad"),
       h', [GShutdown SdCallHandler nilError]) /\
  forall h2,
    resume (GActivate ActWaitOnFail (Some (fun _ => Some "bad")) true
              (Some "bad")) h2 =
      match shutdownDoneChan h2 with
      | ChanClosed =>
          Ok (GActivate ActReturned (Some (fun _ => Some "bad")) true
                (Some "bad")) h2 []
      | ChanOpen => Blocked
      end.
Proof.
  apply (DoOnceActivate_alone_fails (boot freshHelper)
           (Some (fun _ => Some "bad")) (fun _ => Some "bad") "bad").
  - exists plainObj, None, (Some echoHandler), freshHelper, [].
    split; reflexivity.
  - reflexivity.
  - reflexivity.
  - reflexivity.
  - reflexivity.
  - reflexivity.
  - reflexivity.
Defined.

(** ** The activation hook runs at most once *)

Ltac fresh_M :=
  unfold_M; simpl in *; split_ifs; simpl;
  repeat first [apply Forall_nil_2 | apply Forall_cons_2 | exact I].

Lemma invoke_fresh c h : StartedFresh (invoke c h).
Proof.
  destruct_helper h. unfold StartedFresh. destruct c; fresh_M.
Qed.

Lemma resumeActivate_fresh pc cb w err h :
  StartedFresh (resumeActivate pc cb w err h).
Proof.
  destruct_helper h. unfold StartedFresh.
  destruct pc; unfold resumeActivate, activateLocked; fresh_M.
Qed.

Lemma resume_other_fresh g h :
  driverPC g = None -> StartedFresh (resume g h).
Proof.
  intros Hg. destruct g as [pc cb w err| |kind|ctxErr|]; try discriminate.
  - apply resumeActivate_fresh.
  - destruct_helper h. unfold StartedFresh. destruct kind; unfold resume; fresh_M.
  - destruct_helper h. unfold StartedFresh. unfold resume; fresh_M.
  - exact I.
Qed.

Lemma resumeExternal_fresh g h : StartedFresh (resumeExternal g h).
Proof.
  destruct_helper h. unfold StartedFresh.
  destruct g as [pc cb w err|pc e|kind|ctxErr|]; try exact I.
  - destruct kind; unfold resumeExternal; fresh_M.
  - unfold resumeExternal; fresh_M.
Qed.

(** Where the next statement of a [DoOnceActivate] call takes it. *)
Lemma resumeActivate_next pc cb w err h :
  HInv h -> activateOk h (GActivate pc cb w err) ->
  match resumeActivate pc cb w err h with
  | Ok g' h' _ =>
      activateOk h' g' /\
      (isAtHook g' = true ->
       state h = 0 /\ state h' = 1 /\ pc <> ActCallHook)
  | _ => True
  end.
Proof.
  intros Hh Hg. destruct_helper h. unfold HInv, activateOk in *.
  unfold_states. simpl in *.
  destruct pc; unfold resumeActivate, activateLocked.
  all: unfold_M; simpl in *; split_ifs; unfold_states; simpl in *;
    zify_bool; subst; try exact I.
  all: try (repeat split; first [exact I | discriminate | lia | finish]).
Qed.

Lemma resume_other_next g h :
  driverPC g = None -> HInv h -> activateOk h g ->
  match resume g h with
  | Ok g' h' _ =>
      activateOk h' g' /\
      (isAtHook g' = true ->
       state h = 0 /\ state h' = 1 /\ isAtHook g = false)
  | _ => True
  end.
Proof.
  intros Hg Hh Ha. destruct g as [pc cb w err| |kind|ctxErr|]; try discriminate.
  - pose proof (resumeActivate_next pc cb w err h Hh Ha) as H.
    simpl. destruct (resumeActivate pc cb w err h); auto.
    destruct H as [H1 H2]. split; [exact H1|].
    intros E. destruct (H2 E) as (A & B & C). repeat split; auto.
    destruct pc; simpl; congruence.
  - destruct_helper h. destruct kind; unfold resume; unfold_M; simpl;
      split_ifs; simpl; try exact I; repeat split; first [exact I|discriminate].
  - destruct_helper h. unfold resume; unfold_M; simpl;
      split_ifs; simpl; try exact I; repeat split; first [exact I|discriminate].
  - exact I.
Qed.

Lemma resumeExternal_next g h :
  match resumeExternal g h with
  | Ok g' h' _ => g' = GDone
  | _ => True
  end.
Proof.
  destruct_helper h.
  destruct g as [pc cb w err|pc e|kind|ctxErr|]; try exact I.
  - destruct kind; unfold resumeExternal; unfold_M; simpl; split_ifs;
      simpl; try exact I; reflexivity.
  - unfold resumeExternal, StartShutdown, lockedEnterShuttingDownState,
      asyncDoStartedShutdown; unfold_M; simpl; split_ifs;
      simpl; try exact I; reflexivity.
Qed.

Lemma activateOk_mono h h' g :
  state h <= state h' -> activateOk h g -> activateOk h' g.
Proof.
  intros Hle. destruct g as [pc ? ? ?| | | |]; simpl; auto.
  destruct pc; simpl; auto; lia.
Qed.

Lemma freshG_activateOk h g : freshG g -> activateOk h g /\ isAtHook g = false.
Proof. destruct g as [pc ? ? ?|pc ?| | |]; simpl; try done. Qed.

Lemma crashed_activateOk h g : activateOk h (crashed g) /\ isAtHook (crashed g) = false.
Proof. destruct g; simpl; done. Qed.

Lemma atHook_app l st j :
  Forall (fun x => isAtHook x = false) st -> atHook (l ++ st) j -> atHook l j.
Proof.
  intros Hst (g & Hg & Ha). apply lookup_app_Some in Hg as [Hg|[_ Hg]].
  - exists g. auto.
  - eapply Forall_lookup_1 in Hst; [|exact Hg]. simpl in Hst. congruence.
Qed.

Lemma atHook_insert l i0 g' j :
  atHook (<[i0 := g']> l) j -> ~ atHook l j -> j = i0 /\ isAtHook g' = true.
Proof.
  intros (g & Hg & Ha) Hn.
  apply list_lookup_insert_Some in Hg as [(-> & -> & _)|[_ Hg]]; [auto|].
  exfalso. apply Hn. exists g. auto.
Qed.

Lemma fresh_not_atHook st :
  Forall freshG st -> Forall (fun x => isAtHook x = false) st.
Proof.
  intros H. eapply Forall_impl; [exact H|].
  intros g Hg. apply (freshG_activateOk freshHelper g Hg).
Qed.

Lemma fresh_activateOk h st : Forall freshG st -> Forall (activateOk h) st.
Proof.
  intros H. eapply Forall_impl; [exact H|].
  intros g Hg. apply (freshG_activateOk h g Hg).
Qed.

Lemma Finishes_fresh {A} (o : Outcome A) h' st :
  StartedFresh o -> Finishes o h' st -> Forall freshG st.
Proof. intros H [[a ->]|[msg ->]]; exact H. Qed.

Lemma Continues_fresh o g g' h' st :
  StartedFresh o -> Continues o g g' h' st -> Forall freshG st.
Proof. intros H [->|[msg [-> _]]]; exact H. Qed.

(** One action: the invariant on [DoOnceActivate] calls is kept, and a
    call that newly stands at the hook got there by the step from
    unactivated to activating, alone. *)
Lemma exec_AInv a s s' :
  SInv s -> AInv s -> exec a s = Some s' ->
  AInv s' /\
  forall i, atHook (pool s') i -> ~ atHook (pool s) i ->
    state (helper s) = 0 /\ state (helper s') = 1 /\
    forall j, atHook (pool s') j -> ~ atHook (pool s) j -> j = i.
Proof.
  intros HS HA He. pose proof (proj1 HS) as Hh.
  destruct (exec_SInv a s s' HS He) as [_ [Hst _]].
  assert (Hle : state (helper s) <= state (helper s')) by lia.
  assert (Hold : Forall (activateOk (helper s')) (pool s)).
  { eapply Forall_impl; [exact HA|]. intros g. by apply activateOk_mono. }
  clear Hst.
  destruct (exec_Transition a s s' HS He)
    as [c h' st Hf ->|cb w ->|code i0 g g' h' st Hc Hi Hg Hg' Hk ->
        |i0 pc e g' h' Hi Hp Hk ->]; simpl in *.
  - pose proof (Finishes_fresh _ _ _ (invoke_fresh c (helper s)) Hf) as Hfr.
    split.
    + apply Forall_app_2; [exact Hold|by apply fresh_activateOk].
    + intros i Hi Hn. exfalso. apply Hn.
      eapply atHook_app; [|exact Hi]. by apply fresh_not_atHook.
  - split.
    + apply Forall_app_2; [exact Hold|]. repeat constructor.
    + intros i Hi Hn. exfalso. apply Hn.
      eapply atHook_app; [|exact Hi]. repeat constructor.
  - assert (Hfr : Forall freshG st).
    { destruct Hc as [-> | ->].
      - eapply Continues_fresh; [|exact Hk]. by apply resume_other_fresh.
      - eapply Continues_fresh; [|exact Hk]. apply resumeExternal_fresh. }
    assert (Hgi : activateOk (helper s) g)
      by (eapply Forall_lookup_1; [exact HA|exact Hi]).
    assert (Hnew : activateOk h' g' /\
                   (isAtHook g' = true ->
                    state (helper s) = 0 /\ state h' = 1)).
    { destruct Hk as [E|(msg & E & ->)].
      - destruct Hc as [-> | ->].
        + pose proof (resume_other_next g (helper s) Hg Hh Hgi) as H.
          rewrite E in H. destruct H as [H1 H2]. split; [exact H1|].
          intros X. destruct (H2 X) as (? & ? & _). auto.
        + pose proof (resumeExternal_next g (helper s)) as H.
          rewrite E in H. subst g'. split; [exact I|discriminate].
      - destruct (crashed_activateOk h' g) as [H1 H2].
        split; [exact H1|]. congruence. }
    destruct Hnew as [Hn1 Hn2]. split.
    + apply Forall_app_2; [|by apply fresh_activateOk].
      apply Forall_insert; assumption.
    + intros i Hat Hn.
      assert (Hat' : atHook (<[i0:=g']> (pool s)) i)
        by (eapply atHook_app; [|exact Hat]; by apply fresh_not_atHook).
      destruct (atHook_insert _ _ _ _ Hat' Hn) as [-> Hg1].
      destruct (Hn2 Hg1) as [A B]. split; [exact A|]. split; [exact B|].
      intros j Hj Hnj.
      assert (Hj' : atHook (<[i0:=g']> (pool s)) j)
        by (eapply atHook_app; [|exact Hj]; by apply fresh_not_atHook).
      by destruct (atHook_insert _ _ _ _ Hj' Hnj) as [-> _].
  - assert (Hg' : activateOk h' g' /\ isAtHook g' = false).
    { destruct Hk as [E|(msg & E & ->)]; [|by apply crashed_activateOk].
      pose proof (resumeShutdown_DStep pc e (helper s) Hh Hp) as H.
      rewrite E in H. destruct H as (pc' & e' & -> & _). done. }
    destruct Hg' as [G1 G2]. split.
    + apply Forall_insert; assumption.
    + intros i Hat Hn. destruct (atHook_insert _ _ _ _ Hat Hn) as [_ X].
      congruence.
Qed.

Lemma run_AInv acts : forall s s',
  SInv s -> AInv s -> run acts s = Some s' -> AInv s'.
Proof.
  induction acts as [|a acts IH]; simpl; intros s s' HS HA Hr.
  - by simplify_eq.
  - destruct (exec a s) as [s1|] eqn:E; [|done].
    destruct (exec_SInv a s s1 HS E) as [HS1 _].
    destruct (exec_AInv a s s1 HS HA E) as [HA1 _]. eauto.
Qed.

Lemma reachable_AInv s : reachable s -> AInv s.
Proof.
  intros (o & l & sh & h0 & acts & Hc & Hr).
  eapply run_AInv; [eapply constructed_SInv, Hc| |exact Hr].
  unfold AInv, boot. simpl. constructor.
Qed.

(** The activation hook is run at most once.  In a reachable system no
    [DoOnceActivate] call stands at the hook while the state is
    unactivated; an action brings a call to the hook only by taking the
    state from unactivated to activating, and that call is then the only
    one at the hook.  As the state never returns to unactivated, no
    second call ever reaches the hook. *)
Theorem activation_hook_at_most_once :
  forall s a s',
    reachable s -> exec a s = Some s' ->
    (state (helper s) = StateUnactivated -> forall i, ~ atHook (pool s) i) /\
    (forall i, atHook (pool s') i -> ~ atHook (pool s) i ->
       state (helper s) = StateUnactivated /\
       state (helper s') = StateActivating /\
       forall j, atHook (pool s') j -> j = i).
Proof.
  intros s a s' Hr He.
  pose proof (reachable_SInv s Hr) as HS.
  pose proof (reachable_AInv s Hr) as HA.
  assert (Hnone : state (helper s) = 0 -> forall i, ~ atHook (pool s) i).
  { intros Hs i (g & Hg & Hat).
    eapply Forall_lookup_1 in HA; [|exact Hg].
    destruct g as [pc ? ? ?| | | |]; try discriminate.
    destruct pc; try discriminate. simpl in HA. lia. }
  split; [exact Hnone|].
  intros i Hi Hn.
  destruct (exec_AInv a s s' HS HA He) as [_ H].
  destruct (H i Hi Hn) as (A & B & C).
  split; [exact A|]. split; [exact B|].
  intros j Hj. apply C; [exact Hj|]. by apply Hnone.
Qed.

Lemma activation_hook_at_most_once_witness :
  exists s',
    exec (Run 0%nat)
      {| helper := freshHelper;
         pool := [DoOnceActivate (Some okCallback) false;
                  DoOnceActivate (Some okCallback) false] |} = Some s' /\
    atHook (pool s') 0%nat /\
    state (helper s') = StateActivating /\
    forall j, atHook (pool s') j -> j = 0%nat.
Proof.
  eexists. split; [vm_compute; reflexivity|].
  assert (Hr : reachable
            {| helper := freshHelper;
               pool := [DoOnceActivate (Some okCallback) false;
                        DoOnceActivate (Some okCallback) false] |}).
  { apply (reachable_from_fresh
             [Activate (Some okCallback) false;
              Activate (Some okCallback) false]). reflexivity. }
  assert (Hat : atHook
            [GActivate ActCallHook (Some okCallback) false nilError;
             DoOnceActivate (Some okCallback) false] 0%nat)
    by (eexists; split; reflexivity).
  split; [exact Hat|].
  destruct (activation_hook_at_most_once _ (Run 0%nat) _ Hr ltac:(vm_compute; reflexivity))
    as [H0 H1].
  destruct (H1 0%nat Hat (H0 ltac:(reflexivity) 0%nat)) as (_ & B & C).
  split; [exact B|exact C].
Defined.

(** ** The terminal error is the hook's result *)

Lemma drivers_nonempty l j g pc :
  l !! j = Some g -> driverPC g = Some pc -> drivers l <> [].
Proof.
  intros Hj Hg. destruct (drivers_insert l j g GDone Hj) as [E _].
  rewrite E. simpl. rewrite Hg.
  destruct (drivers (take j l)); discriminate.
Qed.

Lemma driver_alone s i pc e :
  SInv s -> pool s !! i = Some (GShutdown pc e) ->
  phaseOk pc (state (helper s)) /\
  drivers (take i (pool s)) = [] /\ drivers (drop (S i) (pool s)) = [].
Proof.
  intros [_ Hd] Hi.
  destruct (drivers_insert (pool s) i _ GDone Hi) as [E1 _].
  rewrite E1 in Hd. simpl in Hd.
  destruct (drivers (take i (pool s))) as [|p1 [|p2 l1]];
    destruct (drivers (drop (S i) (pool s))); simpl in Hd;
    try contradiction; auto.
Qed.

Lemma driver_unique s i j pc e g pc' :
  SInv s -> pool s !! i = Some (GShutdown pc e) ->
  pool s !! j = Some g -> driverPC g = Some pc' -> i = j.
Proof.
  intros HS Hi Hj Hg.
  destruct (driver_alone s i pc e HS Hi) as (_ & T1 & T2).
  destruct (Nat.lt_trichotomy j i) as [Hlt|[->|Hgt]]; [|done|].
  - exfalso. eapply (drivers_nonempty (take i (pool s)) j g pc'); eauto.
    rewrite lookup_take_lt; auto.
  - exfalso.
    eapply (drivers_nonempty (drop (S i) (pool s)) (j - S i) g pc'); eauto.
    rewrite lookup_drop. replace (S i + (j - S i))%nat with j by lia. auto.
Qed.

Lemma resumeShutdown_hookResult pc e h :
  match resumeShutdown pc e h with
  | Ok g' h' _ => hookResultOk h' g'
  | _ => True
  end.
Proof.
  destruct_helper h. destruct h_obj as [oa os].
  unfold hookResultOk, shutdownHook.
  destruct pc; unfold resumeShutdown; unfold_M; simpl; split_ifs; simpl;
    try exact I.
  all: subst; eexists; split; reflexivity.
Qed.

Lemma resumeShutdown_local pc e h :
  HInv h -> phaseOk pc (state h) -> state h = 3 ->
  match resumeShutdown pc e h with
  | Ok _ h' _ | Panicked _ h' _ =>
      obj h' = obj h /\ shutdownHandler h' = shutdownHandler h /\
      ((state h' = 3 /\ shutdownErr h' = shutdownErr h) \/
       (state h' = 4 /\ pc = SdLocalShutdown /\ shutdownErr h' = e))
  | Blocked => True
  end.
Proof.
  intros Hh Hp Hs. destruct_helper h. unfold HInv, phaseOk in *.
  unfold_states. simpl in *. subst.
  destruct pc; try lia; unfold resumeShutdown; unfold_M; simpl; split_ifs;
    simpl; try exact I; auto 10.
Qed.

Lemma hookResultOk_frame h h' g :
  obj h' = obj h -> shutdownHandler h' = shutdownHandler h ->
  shutdownErr h' = shutdownErr h ->
  hookResultOk h g -> hookResultOk h' g.
Proof.
  intros E1 E2 E3. destruct g as [|pc r| | |]; simpl; auto.
  destruct pc; auto. unfold shutdownHook. rewrite E1, E2, E3. auto.
Qed.

Lemma fresh_hookResultOk h st : Forall freshG st -> Forall (hookResultOk h) st.
Proof.
  intros H. eapply Forall_impl; [exact H|].
  intros g Hg. destruct g as [|pc r| | |]; simpl in *; auto.
  destruct pc; simpl in *; auto; contradiction.
Qed.

Lemma nondriver_hookResultOk h g : driverPC g = None -> hookResultOk h g.
Proof. destruct g; simpl; done. Qed.

Lemma old_entries_hookResultOk s h' :
  SInv s -> RInv s ->
  obj h' = obj (helper s) ->
  (2 <= state (helper s) -> shutdownHandler h' = shutdownHandler (helper s)) ->
  (3 <= state (helper s) -> shutdownErr h' = shutdownErr (helper s)) ->
  Forall (hookResultOk h') (pool s).
Proof.
  intros HS HR E1 E2 E3. apply Forall_lookup. intros j g Hj.
  pose proof (Forall_lookup_1 _ _ _ _ HR Hj) as Hg.
  destruct g as [|pc r| | |]; try exact I.
  destruct (driver_alone s j pc r HS Hj) as (Hp & _).
  apply phaseOk_ge in Hp.
  eapply hookResultOk_frame; [exact E1|apply E2; lia|apply E3; lia|exact Hg].
Qed.

Lemma exec_RInv a s s' : SInv s -> RInv s -> exec a s = Some s' -> RInv s'.
Proof.
  intros HS HR He. pose proof (proj1 HS) as Hh.
  destruct (exec_Transition a s s' HS He)
    as [c h' st Hf ->|cb w ->|code i0 g g' h' st Hc Hi Hg Hg' Hk ->
        |i0 pc e g' h' Hi Hp Hk ->]; unfold RInv; simpl.
  - pose proof (Finishes_HFrame _ _ _ _ (invoke_HFrame c _ Hh) Hf)
      as (F1 & _ & _ & _ & F5 & F6 & _).
    apply Forall_app_2.
    + by apply old_entries_hookResultOk.
    + apply fresh_hookResultOk.
      eapply Finishes_fresh; [apply invoke_fresh|exact Hf].
  - apply Forall_app_2; [exact HR|]. repeat constructor.
  - assert (HF : HFrame (helper s) h' /\ Forall freshG st).
    { destruct Hc as [-> | ->].
      - split.
        + eapply Continues_HFrame; [|exact Hk].
          apply resume_other_HFrame; assumption.
        + eapply Continues_fresh; [|exact Hk]. by apply resume_other_fresh.
      - split.
        + eapply Continues_HFrame; [|exact Hk].
          apply resumeExternal_HFrame; assumption.
        + eapply Continues_fresh; [|exact Hk]. apply resumeExternal_fresh. }
    destruct HF as [(F1 & _ & _ & _ & F5 & F6 & _) Hfr].
    apply Forall_app_2; [|by apply fresh_hookResultOk].
    apply Forall_insert; [|by apply nondriver_hookResultOk].
    by apply old_entries_hookResultOk.
  - apply Forall_lookup. intros j g Hj.
    apply list_lookup_insert_Some in Hj as [(-> & <- & _)|[Hne Hj]].
    + destruct Hk as [E|(msg & E & ->)]; [|exact I].
      pose proof (resumeShutdown_hookResult pc e (helper s)) as H.
      rewrite E in H. exact H.
    + destruct (driverPC g) as [pc'|] eqn:Hg.
      * exfalso. apply Hne. eapply driver_unique; eauto.
      * by apply nondriver_hookResultOk.
Qed.

Lemma run_RInv acts : forall s s',
  SInv s -> RInv s -> run acts s = Some s' -> RInv s'.
Proof.
  induction acts as [|a acts IH]; simpl; intros s s' HS HR Hr.
  - by simplify_eq.
  - destruct (exec a s) as [s1|] eqn:E; [|done].
    destruct (exec_SInv a s s1 HS E) as [HS1 _].
    pose proof (exec_RInv a s s1 HS HR E). eauto.
Qed.

Lemma reachable_RInv s : reachable s -> RInv s.
Proof.
  intros (o & l & sh & h0 & acts & Hc & Hr).
  eapply run_RInv; [eapply constructed_SInv, Hc| |exact Hr].
  unfold RInv, boot. simpl. constructor.
Qed.

Lemma shutdownHook_frame h h' :
  obj h' = obj h -> shutdownHandler h' = shutdownHandler h ->
  shutdownHook h' = shutdownHook h.
Proof. intros E1 E2. unfold shutdownHook. by rewrite E1, E2. Qed.

Lemma exec_Settled e0 f a s s' :
  SInv s -> RInv s -> exec a s = Some s' ->
  Settled e0 f s -> Settled e0 f s'.
Proof.
  intros HS HR He [(Hs & He0 & Hf)|[Hge He0]].
  - pose proof (proj1 HS) as Hh.
    destruct (exec_SInv a s s' HS He) as [_ [Hst _]].
    destruct (exec_Transition a s s' HS He)
      as [c h' st Hfin ->|cb w ->|code i0 g g' h' st Hc Hi Hg Hg' Hk ->
          |i0 pc e g' h' Hi Hp Hk ->]; simpl in *.
    + pose proof (Finishes_HFrame _ _ _ _ (invoke_HFrame c _ Hh) Hfin)
        as (F1 & _ & _ & _ & F5 & F6 & _).
      pose proof (invoke_HStep c _ Hh) as HSt.
      assert (state h' = 3).
      { destruct Hfin as [[u E]|[msg E]]; rewrite E in HSt;
          destruct HSt as (_ & X & _); lia. }
      left. simpl. rewrite F6 by lia.
      rewrite (shutdownHook_frame _ _ F1 (F5 ltac:(lia))). auto.
    + left. auto.
    + assert (HF : HFrame (helper s) h' /\ HStep (helper s) h' st).
      { destruct Hc as [-> | ->].
        - split.
          + eapply Continues_HFrame; [|exact Hk].
            apply resume_other_HFrame; assumption.
          + pose proof (resume_other_HStep g _ Hg Hh) as X.
            destruct Hk as [E|(msg & E & _)]; rewrite E in X; apply X.
        - split.
          + eapply Continues_HFrame; [|exact Hk].
            apply resumeExternal_HFrame; assumption.
          + pose proof (resumeExternal_HStep g _ Hh) as X.
            destruct Hk as [E|(msg & E & _)]; rewrite E in X; apply X. }
      destruct HF as [(F1 & _ & _ & _ & F5 & F6 & _) (_ & X & _)].
      left. simpl. split; [lia|]. rewrite F6 by lia.
      rewrite (shutdownHook_frame _ _ F1 (F5 ltac:(lia))). auto.
    + pose proof (resumeShutdown_local pc e (helper s) Hh Hp Hs) as HL.
      assert (HL' : obj h' = obj (helper s) /\
                    shutdownHandler h' = shutdownHandler (helper s) /\
                    ((state h' = 3 /\ shutdownErr h' = shutdownErr (helper s))
                     \/ (state h' = 4 /\ pc = SdLocalShutdown /\
                         shutdownErr h' = e))).
      { destruct Hk as [E|(msg & E & _)]; rewrite E in HL; exact HL. }
      destruct HL' as (F1 & F2 & [[X1 X2]|(X1 & Epc & X3)]).
      * left. simpl. rewrite X2, (shutdownHook_frame _ _ F1 F2). auto.
      * right. simpl. split; [lia|]. rewrite X3. subst pc.
        pose proof (Forall_lookup_1 _ _ _ _ HR Hi) as (f' & Hf' & Hr').
        rewrite Hf in Hf'. by simplify_eq.
  - destruct (exec_SInv a s s' HS He) as [_ [Hst _]].
    destruct (exec_SFrame a s s' HS He) as (_ & _ & _ & _ & _ & A6 & _).
    right. split; [lia|]. rewrite A6 by lia. exact He0.
Qed.

Lemma run_Settled e0 f acts : forall s s',
  SInv s -> RInv s -> run acts s = Some s' ->
  Settled e0 f s -> Settled e0 f s'.
Proof.
  induction acts as [|a acts IH]; simpl; intros s s' HS HR Hr HQ.
  - by simplify_eq.
  - destruct (exec a s) as [s1|] eqn:E; [|done].
    destruct (exec_SInv a s s1 HS E) as [HS1 _].
    pose proof (exec_RInv a s s1 HS HR E).
    pose proof (exec_Settled e0 f a s s1 HS HR E HQ). eauto.
Qed.

(** Under every interleaving, the terminal error is what the shutdown
    hook returns for the advisory error.  If a reachable system is in
    state shutting-down with terminal error [e0] and hook [f] (the
    explicit handler, else the object's [HandleOnceShutdown]), then in
    every system a run leads to, as soon as the state is at least
    local-shutdown the terminal error is [f e0], and that is what
    [WaitLocalShutdown] and [WaitShutdown] return. *)
Theorem terminal_error_is_hook_result :
  forall s acts s' f,
    reachable s -> state (helper s) = StateShuttingDown ->
    shutdownHook (helper s) = Some f ->
    run acts s = Some s' ->
    StateLocalShutdown <= state (helper s') ->
    shutdownErr (helper s') = f (shutdownErr (helper s)) /\
    WaitLocalShutdown (helper s')
      = Ok (f (shutdownErr (helper s))) (helper s') [] /\
    (forall e h2 g2,
       WaitShutdown (helper s') = Ok e h2 g2 ->
       e = f (shutdownErr (helper s))).
Proof.
  intros s acts s' f Hr Hs Hf Hrun Hge. unfold_states.
  pose proof (reachable_SInv s Hr) as HS.
  assert (HQ : Settled (shutdownErr (helper s)) f s) by (left; auto).
  pose proof (run_Settled _ _ acts s s' HS (reachable_RInv s Hr) Hrun HQ)
    as [(X & _)|[_ E]]; [lia|].
  destruct (run_SInv acts s s' HS Hrun)
    as [(_ & _ & _ & _ & _ & _ & L4 & _) _].
  split; [exact E|].
  rewrite WaitLocalShutdown_eval, WaitShutdown_eval.
  assert (localShutdownDoneChan (helper s') = ChanClosed) as ->
    by (apply L4; lia).
  rewrite E. split; [reflexivity|].
  intros e h2 g2 H. destruct (shutdownDoneChan (helper s')); [done|].
  by simplify_eq.
Qed.

Lemma terminal_error_is_hook_result_witness :
  exists s',
    run [Activate None true; Run 0%nat; Run 0%nat;
         Invoke (CallStartShutdown (errors_New "late")); Run 0%nat]
        startedSystem = Some s' /\
    shutdownErr (helper s') = echoHandler (shutdownErr (helper startedSystem))
    /\
    WaitLocalShutdown (helper s')
      = Ok (echoHandler (shutdownErr (helper startedSystem))) (helper s') []
    /\
    (forall e h2 g2,
       WaitShutdown (helper s') = Ok e h2 g2 ->
       e = echoHandler (shutdownErr (helper startedSystem))).
Proof.
  eexists. split; [vm_compute; reflexivity|].
  apply (terminal_error_is_hook_result startedSystem
           [Activate None true; Run 0%nat; Run 0%nat;
            Invoke (CallStartShutdown (errors_New "late")); Run 0%nat]).
  - apply (reachable_from_fresh
             [Invoke (CallStartShutdown (errors_New "boom"))]).
    reflexivity.
  - reflexivity.
  - reflexivity.
  - vm_compute. reflexivity.
  - vm_compute. discriminate.
Defined.

(** ** Methods made of several calls *)

Lemma StartShutdown_now h e :
  HInv h -> Lock h = false ->
  isScheduledShutdown h = false -> shutdownDeferCount h = 0 ->
  exists h1,
    StartShutdown e h = Ok true h1 [GShutdown SdCallHandler nilError] /\
    state h1 = 3 /\ shutdownErr h1 = e /\
    shutdownHook h1 = shutdownHook h.
Proof.
  intros Hh Hl Hs Hc. unfold HInv in Hh. destruct_helper h.
  simpl in *. subst. unfold_states.
  destruct Hh as (Hrange & Hsch & _ & _ & Hadc & Hssc & _).
  assert (Hlt : h_state < 3).
  { destruct (Z.lt_ge_cases h_state 3) as [|Hge]; [done|].
    specialize (Hsch Hge). done. }
  assert (h_ssc = ChanOpen) as ->.
  { destruct h_ssc; [done|]. assert (3 <= h_state) by (apply Hssc; done). lia. }
  unfold StartShutdown, lockedEnterShuttingDownState, shutdownHook;
    unfold_M; unfold_states; cbn.
  destruct (Z.leb_spec 3 h_state); [lia|]. cbn.
  destruct (Z.ltb_spec h_state 2); cbn.
  - assert (h_adc = ChanOpen) as ->.
    { destruct h_adc; [done|]. assert (2 <= h_state) by (apply Hadc; done). lia. }
    cbn. eexists. split; [reflexivity|]. cbn. auto.
  - eexists. split; [reflexivity|]. cbn. auto.
Qed.

Lemma after_StartShutdown_now s e f h1 :
  reachable s -> Lock (helper s) = false ->
  StartShutdown e (helper s) = Ok true h1 [GShutdown SdCallHandler nilError] ->
  state h1 = 3 -> shutdownErr h1 = e -> shutdownHook h1 = Some f ->
  forall acts s2,
    run acts {| helper := h1;
                pool := pool s ++ [GShutdown SdCallHandler nilError] |}
      = Some s2 ->
    SInv s2 /\ Settled e f s2.
Proof.
  intros Hr Hl HS1 Hst He Hf acts s2 Hrun.
  set (s1 := {| helper := h1;
                pool := pool s ++ [GShutdown SdCallHandler nilError] |}) in *.
  assert (Hr1 : reachable s1).
  { apply (reachable_run [Invoke (CallStartShutdown e)] s); [exact Hr|].
    simpl. unfold bind at 1. rewrite HS1. reflexivity. }
  pose proof (reachable_SInv s1 Hr1) as HSI.
  split; [eapply run_SInv; eauto|].
  eapply run_Settled; [exact HSI|by apply reachable_RInv|exact Hrun|].
  left. auto.
Qed.

Lemma wait_script_eval (wait : M error) (c : Helper -> Chan) h :
  (forall h0, wait h0 =
     match c h0 with
     | ChanClosed => Ok (shutdownErr h0) h0 []
     | ChanOpen => Blocked
     end) ->
  stepScript (call wait) h =
    match c h with
    | ChanClosed => Ok (Return (shutdownErr h)) h []
    | ChanOpen => Blocked
    end.
Proof.
  intros H. unfold call, stepScript. rewrite H. destruct (c h); reflexivity.
Qed.

Lemma waits_after_settled e f s2 :
  SInv s2 -> Settled e f s2 ->
  stepScript (call WaitShutdown) (helper s2) =
    (if state (helper s2) <? StateShutDown then Blocked
     else Ok (Return (f e)) (helper s2) []) /\
  stepScript (call WaitLocalShutdown) (helper s2) =
    (if state (helper s2) <? StateLocalShutdown then Blocked
     else Ok (Return (f e)) (helper s2) []).
Proof.
  intros HS2 HQ.
  destruct HS2 as [(_ & _ & _ & _ & _ & _ & L4 & L5 & _) _].
  rewrite (wait_script_eval WaitShutdown shutdownDoneChan)
    by apply WaitShutdown_eval.
  rewrite (wait_script_eval WaitLocalShutdown localShutdownDoneChan)
    by apply WaitLocalShutdown_eval.
  unfold_states. split.
  - destruct (Z.ltb_spec (state (helper s2)) 5) as [Hlt|Hge].
    + destruct (shutdownDoneChan (helper s2)); [done|].
      pose proof (proj1 L5 eq_refl). lia.
    + assert (shutdownDoneChan (helper s2) = ChanClosed) as ->
        by (apply L5; lia).
      destruct HQ as [(X & _)|[_ E]]; [lia|]. by rewrite E.
  - destruct (Z.ltb_spec (state (helper s2)) 4) as [Hlt|Hge].
    + destruct (localShutdownDoneChan (helper s2)); [done|].
      pose proof (proj1 L4 eq_refl). lia.
    + assert (localShutdownDoneChan (helper s2) = ChanClosed) as ->
        by (apply L4; lia).
      destruct HQ as [(X & _)|[_ E]]; [lia|]. by rewrite E.
Qed.

Lemma settled_after s1 e f acts s2 :
  reachable s1 -> state (helper s1) = 3 -> shutdownErr (helper s1) = e ->
  shutdownHook (helper s1) = Some f -> run acts s1 = Some s2 ->
  SInv s2 /\ Settled e f s2.
Proof.
  intros Hr1 Hst He Hf Hrun.
  pose proof (reachable_SInv s1 Hr1) as HSI.
  split; [eapply run_SInv; eauto|].
  eapply run_Settled; [exact HSI|by apply reachable_RInv|exact Hrun|].
  left. auto.
Qed.

(** [Shutdown], [LocalShutdown] and [Close] on a helper of a reachable
    system with the mutex free, no shutdown scheduled and no deferral.
    Their first call enters shutting-down and starts the shutdown
    goroutine.  Whatever the other goroutines do afterwards, the wait of
    [Shutdown] is blocked exactly while the state is below shut-down and
    the wait of [LocalShutdown] exactly while it is below local-shutdown,
    and when they return they return the hook's result on the error
    passed in, leaving the helper alone.  [Close] is [Shutdown] with a
    nil error. *)
Theorem Shutdown_returns_hook_result :
  forall s e f,
    reachable s ->
    let h := helper s in
    Lock h = false -> isScheduledShutdown h = false ->
    shutdownDeferCount h = 0 -> shutdownHook h = Some f ->
    exists h1,
      let s1 := {| helper := h1;
                   pool := pool s ++ [GShutdown SdCallHandler nilError] |} in
      stepScript (Shutdown e) h
        = Ok (call WaitShutdown) h1 [GShutdown SdCallHandler nilError] /\
      stepScript (LocalShutdown e) h
        = Ok (call WaitLocalShutdown) h1 [GShutdown SdCallHandler nilError] /\
      (e = nilError -> stepScript Close h = stepScript (Shutdown e) h) /\
      state h1 = StateShuttingDown /\
      forall acts s2,
        run acts s1 = Some s2 ->
        stepScript (call WaitShutdown) (helper s2) =
          (if state (helper s2) <? StateShutDown then Blocked
           else Ok (Return (f e)) (helper s2) []) /\
        stepScript (call WaitLocalShutdown) (helper s2) =
          (if state (helper s2) <? StateLocalShutdown then Blocked
           else Ok (Return (f e)) (helper s2) []).
Proof.
  intros s e f Hr h Hl Hsch Hc Hf. subst h.
  pose proof (proj1 (reachable_SInv s Hr)) as Hh.
  destruct (StartShutdown_now (helper s) e Hh Hl Hsch Hc)
    as (h1 & HS1 & Hst & He & Hhook).
  exists h1. cbv zeta.
  split; [unfold Shutdown, stepScript; rewrite HS1; reflexivity|].
  split; [unfold LocalShutdown, stepScript; rewrite HS1; reflexivity|].
  split; [intros ->; reflexivity|].
  split; [exact Hst|].
  intros acts s2 Hrun. rewrite <- Hhook in Hf.
  destruct (after_StartShutdown_now s e f h1 Hr Hl HS1 Hst He Hf acts s2 Hrun)
    as [HS2 HQ].
  by apply waits_after_settled.
Qed.

Lemma Shutdown_returns_hook_result_witness :
  exists h1,
    let s1 := {| helper := h1;
                 pool := pool (boot freshHelper) ++
                         [GShutdown SdCallHandler nilError] |} in
    stepScript (Shutdown (errors_New "boom")) freshHelper
      = Ok (call WaitShutdown) h1 [GShutdown SdCallHandler nilError] /\
    stepScript (LocalShutdown (errors_New "boom")) freshHelper
      = Ok (call WaitLocalShutdown) h1 [GShutdown SdCallHandler nilError] /\
    (errors_New "boom" = nilError ->
     stepScript Close freshHelper
       = stepScript (Shutdown (errors_New "boom")) freshHelper) /\
    state h1 = StateShuttingDown /\
    forall acts s2,
      run acts s1 = Some s2 ->
      stepScript (call WaitShutdown) (helper s2) =
        (if state (helper s2) <? StateShutDown then Blocked
         else Ok (Return (echoHandler (errors_New "boom"))) (helper s2) []) /\
      stepScript (call WaitLocalShutdown) (helper s2) =
        (if state (helper s2) <? StateLocalShutdown then Blocked
         else Ok (Return (echoHandler (errors_New "boom"))) (helper s2) []).
Proof.
  apply (Shutdown_returns_hook_result (boot freshHelper)
           (errors_New "boom") echoHandler).
  - exists plainObj, None, (Some echoHandler), freshHelper, [].
    split; reflexivity.
  - reflexivity.
  - reflexivity.
  - reflexivity.
  - reflexivity.
Defined.

Lemma UndeferShutdown_returns h :
  HInv h -> Lock h = false -> 1 <= shutdownDeferCount h <= 2 ^ 63 ->
  exists h' st,
    UndeferShutdown h = Ok tt h' st /\
    shutdownDeferCount h' = shutdownDeferCount h - 1 /\
    shutdownErr h' = shutdownErr h /\
    isScheduledShutdown h' = isScheduledShutdown h /\
    isActivated h' = isActivated h /\
    Lock h' = false /\
    shutdownHook h' = shutdownHook h /\
    if (shutdownDeferCount h =? 1) && isScheduledShutdown h
    then state h' = 3 /\ st = [GShutdown SdCallHandler nilError]
    else state h' = state h /\ st = [].
Proof.
  intros Hh Hl Hc. unfold HInv in Hh. destruct_helper h.
  simpl in *. subst. unfold_states.
  destruct Hh as (Hrange & _ & _ & _ & Hadc & Hssc & _ & _ & Hpos).
  assert (Hlt : h_state < 3) by (apply Hpos; lia).
  assert (W : wrapInt (h_count - 1) = h_count - 1)
    by (apply wrapInt_small; lia).
  assert (h_ssc = ChanOpen) as ->.
  { destruct h_ssc; [done|]. assert (3 <= h_state) by (apply Hssc; done). lia. }
  unfold UndeferShutdown, lockedEnterShuttingDownState, shutdownHook;
    unfold_M; unfold_states; cbn.
  destruct (Z.ltb_spec h_count 1); [lia|]. cbn. rewrite W.
  destruct (Z.eqb_spec (h_count - 1) 0) as [E|E];
    destruct (Z.eqb_spec h_count 1) as [E1|E1]; try lia; cbn.
  - destruct h_scheduled; cbn.
    + destruct (Z.ltb_spec h_state 3); [|lia]. cbn.
      destruct (Z.ltb_spec h_state 2); cbn.
      * assert (h_adc = ChanOpen) as ->.
        { destruct h_adc; [done|].
          assert (2 <= h_state) by (apply Hadc; done). lia. }
        cbn. eexists _, _. split; [reflexivity|]. cbn.
        repeat split; try done; lia.
      * eexists _, _. split; [reflexivity|]. cbn.
        repeat split; try done; lia.
    + eexists _, _. split; [reflexivity|]. cbn. repeat split; done.
  - eexists _, _. split; [reflexivity|]. cbn. repeat split; done.
Qed.

Lemma StartShutdown_deferred h e :
  HInv h -> Lock h = false -> 1 <= shutdownDeferCount h ->
  exists h1,
    StartShutdown e h = Ok (negb (isScheduledShutdown h)) h1 [] /\
    HInv h1 /\ Lock h1 = false /\
    shutdownDeferCount h1 = shutdownDeferCount h /\
    isScheduledShutdown h1 = true /\ state h1 = state h /\
    isActivated h1 = isActivated h /\
    shutdownHook h1 = shutdownHook h /\
    shutdownErr h1 = (if isScheduledShutdown h then shutdownErr h else e).
Proof.
  intros Hh Hl Hc. unfold HInv in *. destruct_helper h.
  simpl in *. subst. unfold_states.
  assert (Hlt : h_state < 3) by (apply Hh; lia).
  unfold StartShutdown, shutdownHook; unfold_M; unfold_states; cbn.
  destruct h_scheduled; cbn.
  - eexists. split; [reflexivity|]. cbn. repeat split; try done; apply Hh.
  - destruct (Z.leb_spec 3 h_state); [lia|]. cbn.
    destruct (Z.eqb_spec h_count 0); [lia|]. cbn.
    eexists. split; [reflexivity|]. cbn.
    repeat split; try done; try apply Hh; try lia.
    all: intros; try lia; apply Hh; auto.
Qed.

(** [UndeferAndStartShutdown] run without interference in a reachable
    system with the mutex free and at least one deferral outstanding.  It
    returns true exactly if shutdown had not been scheduled before,
    leaves shutdown scheduled with the terminal error of the first
    scheduling call (its own argument if it is the first), and takes one
    off the deferral count; if that was the last deferral it enters
    shutting-down and starts the shutdown goroutine, otherwise the state
    stays as it was and nothing is started. *)
Theorem UndeferAndStartShutdown_alone :
  forall s e,
    reachable s ->
    let h := helper s in
    Lock h = false -> 1 <= shutdownDeferCount h <= 2 ^ 63 ->
    exists h' st,
      runScript 2 (UndeferAndStartShutdown e) h
        = Returned (negb (isScheduledShutdown h)) h' st /\
      isScheduledShutdown h' = true /\
      shutdownDeferCount h' = shutdownDeferCount h - 1 /\
      shutdownErr h' =
        (if isScheduledShutdown h then shutdownErr h else e) /\
      if shutdownDeferCount h =? 1
      then state h' = StateShuttingDown /\
           st = [GShutdown SdCallHandler nilError]
      else state h' = state h /\ st = [].
Proof.
  intros s e Hr h Hl Hc. subst h.
  pose proof (proj1 (reachable_SInv s Hr)) as Hh.
  destruct (StartShutdown_deferred (helper s) e Hh Hl ltac:(lia))
    as (h1 & HS1 & Hh1 & Hl1 & Hc1 & Hs1 & Hst1 & _ & _ & He1).
  destruct (UndeferShutdown_returns h1 Hh1 Hl1 ltac:(lia))
    as (h' & st & HU & U1 & U2 & U3 & _ & _ & _ & U4).
  exists h', st. unfold UndeferAndStartShutdown, runScript.
  rewrite HS1. cbn. rewrite HU. cbn. rewrite app_nil_r.
  split; [reflexivity|]. split; [congruence|]. split; [lia|].
  split; [congruence|].
  rewrite Hc1, Hs1, andb_true_r in U4. unfold_states.
  destruct (shutdownDeferCount (helper s) =? 1); [exact U4|].
  destruct U4 as [X Y]. split; [congruence|exact Y].
Qed.

Lemma UndeferAndStartShutdown_alone_witness :
  exists s h' st,
    run [Invoke CallDeferShutdown] (boot freshHelper) = Some s /\
    runScript 2 (UndeferAndStartShutdown (errors_New "boom")) (helper s)
      = Returned (negb (isScheduledShutdown (helper s))) h' st /\
    isScheduledShutdown h' = true /\
    shutdownDeferCount h' = shutdownDeferCount (helper s) - 1 /\
    shutdownErr h' =
      (if isScheduledShutdown (helper s) then shutdownErr (helper s)
       else errors_New "boom") /\
    if shutdownDeferCount (helper s) =? 1
    then state h' = StateShuttingDown /\
         st = [GShutdown SdCallHandler nilError]
    else state h' = state (helper s) /\ st = [].
Proof.
  eexists.
  assert (R : run [Invoke CallDeferShutdown] (boot freshHelper) =
              Some {| helper := set_shutdownDeferCount 1 freshHelper;
                      pool := [] |}) by (vm_compute; reflexivity).
  destruct (UndeferAndStartShutdown_alone _ (errors_New "boom")
              (reachable_from_fresh _ _ R) ltac:(reflexivity)
              ltac:(vm_compute; split; discriminate))
    as (h' & st & H).
  exists h', st. split; [exact R|exact H].
Defined.

Lemma invoke_StartShutdown_exec s e b h1 st :
  StartShutdown e (helper s) = Ok b h1 st ->
  exec (Invoke (CallStartShutdown e)) s
    = Some {| helper := h1; pool := pool s ++ st |}.
Proof.
  intros H. simpl. unfold bind at 1. rewrite H. simpl.
  by rewrite app_nil_r.
Qed.

Lemma invoke_UndeferShutdown_exec s h1 st :
  UndeferShutdown (helper s) = Ok tt h1 st ->
  exec (Invoke CallUndeferShutdown) s
    = Some {| helper := h1; pool := pool s ++ st |}.
Proof. intros H. simpl. by rewrite H. Qed.

(** [UndeferAndShutdown] and [UndeferAndLocalShutdown] called by the
    holder of the only deferral, in a reachable system with the mutex
    free and no shutdown scheduled.  Run without interference they
    schedule shutdown with their argument, release the deferral, enter
    shutting-down, start the shutdown goroutine and then wait.  Whatever
    the other goroutines do afterwards, the wait is blocked exactly while
    the state is below shut-down (for [UndeferAndLocalShutdown]: below
    local-shutdown), and then returns the hook's result on the argument. *)
Theorem UndeferAndShutdown_returns_hook_result :
  forall s e f,
    reachable s ->
    let h := helper s in
    Lock h = false -> isScheduledShutdown h = false ->
    shutdownDeferCount h = 1 -> shutdownHook h = Some f ->
    exists h2,
      let s2 := {| helper := h2;
                   pool := pool s ++ [GShutdown SdCallHandler nilError] |} in
      runScript 3 (UndeferAndShutdown e) h
        = Waiting (call WaitShutdown) h2
            [GShutdown SdCallHandler nilError] /\
      runScript 3 (UndeferAndLocalShutdown e) h
        = Waiting (call WaitLocalShutdown) h2
            [GShutdown SdCallHandler nilError] /\
      state h2 = StateShuttingDown /\
      forall acts s3,
        run acts s2 = Some s3 ->
        stepScript (call WaitShutdown) (helper s3) =
          (if state (helper s3) <? StateShutDown then Blocked
           else Ok (Return (f e)) (helper s3) []) /\
        stepScript (call WaitLocalShutdown) (helper s3) =
          (if state (helper s3) <? StateLocalShutdown then Blocked
           else Ok (Return (f e)) (helper s3) []).
Proof.
  intros s e f Hr h Hl Hsch Hc Hf. subst h.
  pose proof (proj1 (reachable_SInv s Hr)) as Hh.
  destruct (StartShutdown_deferred (helper s) e Hh Hl ltac:(lia))
    as (h1 & HS1 & Hh1 & Hl1 & Hc1 & Hs1 & Hst1 & _ & Hk1 & He1).
  rewrite Hsch in HS1, He1. simpl in HS1.
  destruct (UndeferShutdown_returns h1 Hh1 Hl1 ltac:(lia))
    as (h2 & st & HU & U1 & U2 & U3 & _ & _ & Hk2 & U4).
  rewrite Hc1, Hc, Hs1 in U4. simpl in U4. destruct U4 as [Hst2 ->].
  exists h2. cbv zeta.
  set (s1 := {| helper := h1; pool := pool s ++ [] |}).
  set (s2 := {| helper := h2;
                pool := pool s ++ [GShutdown SdCallHandler nilError] |}).
  assert (Hr2 : reachable s2).
  { apply (reachable_run [Invoke (CallStartShutdown e);
                          Invoke CallUndeferShutdown] s); [exact Hr|].
    cbn [run]. rewrite (invoke_StartShutdown_exec s e _ _ _ HS1).
    rewrite (invoke_UndeferShutdown_exec
               {| helper := h1; pool := pool s ++ [] |} h2 _ HU).
    simpl. by rewrite app_nil_r. }
  assert (Hopen : shutdownDoneChan h2 = ChanOpen /\
                  localShutdownDoneChan h2 = ChanOpen).
  { destruct (reachable_SInv s2 Hr2)
      as [(_ & _ & _ & _ & _ & _ & L4 & L5 & _) _]. simpl in *.
    split.
    - destruct (shutdownDoneChan h2); [done|].
      pose proof (proj1 L5 eq_refl). lia.
    - destruct (localShutdownDoneChan h2); [done|].
      pose proof (proj1 L4 eq_refl). lia. }
  destruct Hopen as [O5 O4].
  split; [|split; [|split; [exact Hst2|]]].
  - unfold UndeferAndShutdown, UndeferAndStartShutdown, runScript. cbn.
    rewrite HS1. cbn. rewrite HU. cbn.
    rewrite WaitShutdown_eval, O5. reflexivity.
  - unfold UndeferAndLocalShutdown, UndeferAndStartShutdown, runScript. cbn.
    rewrite HS1. cbn. rewrite HU. cbn.
    rewrite WaitLocalShutdown_eval, O4. reflexivity.
  - intros acts s3 Hrun.
    destruct (settled_after s2 e f acts s3 Hr2 Hst2
                ltac:(simpl; congruence) ltac:(simpl; congruence) Hrun)
      as [HS3 HQ].
    by apply waits_after_settled.
Qed.

Lemma UndeferAndShutdown_returns_hook_result_witness :
  exists h2,
    let s2 := {| helper := h2;
                 pool := [] ++ [GShutdown SdCallHandler nilError] |} in
    runScript 3 (UndeferAndShutdown (errors_New "boom"))
        (set_shutdownDeferCount 1 freshHelper)
      = Waiting (call WaitShutdown) h2 [GShutdown SdCallHandler nilError] /\
    runScript 3 (UndeferAndLocalShutdown (errors_New "boom"))
        (set_shutdownDeferCount 1 freshHelper)
      = Waiting (call WaitLocalShutdown) h2
          [GShutdown SdCallHandler nilError] /\
    state h2 = StateShuttingDown /\
    forall acts s3,
      run acts s2 = Some s3 ->
      stepScript (call WaitShutdown) (helper s3) =
        (if state (helper s3) <? StateShutDown then Blocked
         else Ok (Return (echoHandler (errors_New "boom"))) (helper s3) []) /\
      stepScript (call WaitLocalShutdown) (helper s3) =
        (if state (helper s3) <? StateLocalShutdown then Blocked
         else Ok (Return (echoHandler (errors_New "boom"))) (helper s3) []).
Proof.
  apply (UndeferAndShutdown_returns_hook_result
           {| helper := set_shutdownDeferCount 1 freshHelper; pool := [] |}
           (errors_New "boom") echoHandler).
  - apply (reachable_from_fresh [Invoke CallDeferShutdown]).
    vm_compute. reflexivity.
  - reflexivity.
  - reflexivity.
  - reflexivity.
  - reflexivity.
Defined.

(** [UndeferAndShutdownIfNotActivated] and
    [UndeferAndLocalShutdownIfNotActivated] run without interference in a
    reachable system with the mutex free and a deferral outstanding.  On
    an activated helper they do exactly what [UndeferShutdown] does and
    return nil, whatever [waitOnFail] is.  On a helper that is not
    activated they schedule shutdown, release the deferral and, with
    [waitOnFail] false, return their argument at once; the activated flag
    stays false. *)
Theorem UndeferAndShutdownIfNotActivated_alone :
  forall s e w,
    reachable s ->
    let h := helper s in
    Lock h = false -> 1 <= shutdownDeferCount h <= 2 ^ 63 ->
    (isActivated h = true ->
     exists h' st,
       UndeferShutdown h = Ok tt h' st /\
       runScript 4 (UndeferAndShutdownIfNotActivated e w) h
         = Returned nilError h' st /\
       runScript 4 (UndeferAndLocalShutdownIfNotActivated e w) h
         = Returned nilError h' st) /\
    (isActivated h = false ->
     exists h' st,
       runScript 4 (UndeferAndShutdownIfNotActivated e false) h
         = Returned e h' st /\
       runScript 4 (UndeferAndLocalShutdownIfNotActivated e false) h
         = Returned e h' st /\
       isScheduledShutdown h' = true /\ isActivated h' = false /\
       shutdownDeferCount h' = shutdownDeferCount h - 1).
Proof.
  intros s e w Hr h Hl Hc. subst h.
  pose proof (proj1 (reachable_SInv s Hr)) as Hh.
  split; intros Ha.
  - destruct (UndeferShutdown_returns (helper s) Hh Hl Hc)
      as (h' & st & HU & _).
    exists h', st. split; [exact HU|].
    unfold UndeferAndShutdownIfNotActivated,
      UndeferAndLocalShutdownIfNotActivated, runScript, IsActivated, get.
    rewrite Ha. cbn. rewrite HU. cbn. rewrite app_nil_r. auto.
  - destruct (StartShutdown_deferred (helper s) e Hh Hl ltac:(lia))
      as (h1 & HS1 & Hh1 & Hl1 & Hc1 & Hs1 & Hst1 & Ha1 & _ & He1).
    destruct (UndeferShutdown_returns h1 Hh1 Hl1 ltac:(lia))
      as (h' & st & HU & U1 & U2 & U3 & U4 & _).
    exists h', st.
    unfold UndeferAndShutdownIfNotActivated,
      UndeferAndLocalShutdownIfNotActivated, runScript, IsActivated, get.
    rewrite Ha. cbn. rewrite HS1. cbn. rewrite HU. cbn. rewrite app_nil_r.
    repeat split; congruence.
Qed.

Lemma UndeferAndShutdownIfNotActivated_alone_witness :
  exists h' st,
    runScript 4
        (UndeferAndShutdownIfNotActivated (errors_New "boom") false)
        (set_shutdownDeferCount 1 freshHelper)
      = Returned (errors_New "boom") h' st /\
    runScript 4
        (UndeferAndLocalShutdownIfNotActivated (errors_New "boom") false)
        (set_shutdownDeferCount 1 freshHelper)
      = Returned (errors_New "boom") h' st /\
    isScheduledShutdown h' = true /\ isActivated h' = false /\
    shutdownDeferCount h' =
      shutdownDeferCount (set_shutdownDeferCount 1 freshHelper) - 1.
Proof.
  apply (proj2 (UndeferAndShutdownIfNotActivated_alone
                  {| helper := set_shutdownDeferCount 1 freshHelper;
                     pool := [] |}
                  (errors_New "boom") false
                  (reachable_from_fresh [Invoke CallDeferShutdown] _
                     ltac:(vm_compute; reflexivity))
                  ltac:(reflexivity)
                  ltac:(vm_compute; split; discriminate))).
  reflexivity.
Defined.

(** ** Shutdown on context cancellation *)

(** The monitor started by [ShutdownOnContext], in a reachable system
    with the mutex free.  While shutdown has not started the monitor
    waits; once shutdown-started is closed it ends without touching the
    helper.  If the context is cancelled with error [c] while no shutdown
    is scheduled and nothing is deferred, the monitor enters
    shutting-down with [c] as advisory error and starts the shutdown
    goroutine, and under every further interleaving the terminal error,
    once the state is at least local-shutdown, is the hook's result on
    [c]. *)
Theorem ShutdownOnContext_monitor :
  forall s i c f,
    reachable s ->
    let h := helper s in
    pool s !! i = Some (GContext c) ->
    (resume (GContext c) h =
       if state h <? StateShuttingDown then Blocked else Ok GDone h []) /\
    (Lock h = false -> isScheduledShutdown h = false ->
     shutdownDeferCount h = 0 -> shutdownHook h = Some f ->
     exists s1,
       exec (External i) s = Some s1 /\
       state (helper s1) = StateShuttingDown /\
       pool s1 = <[i := GDone]> (pool s) ++
                 [GShutdown SdCallHandler nilError] /\
       forall acts s2,
         run acts s1 = Some s2 ->
         StateLocalShutdown <= state (helper s2) ->
         shutdownErr (helper s2) = f c).
Proof.
  intros s i c f Hr h Hi. subst h.
  pose proof (proj1 (reachable_SInv s Hr)) as Hh. split.
  - destruct Hh as (_ & _ & _ & _ & _ & L3 & _).
    unfold resume, recv, get, bind, ret, block. unfold_states.
    destruct (Z.ltb_spec (state (helper s)) 3) as [Hlt|Hge].
    + destruct (shutdownStartedChan (helper s)); [done|].
      pose proof (proj1 L3 eq_refl). lia.
    + assert (shutdownStartedChan (helper s) = ChanClosed) as ->
        by (apply L3; lia).
      reflexivity.
  - intros Hl Hsch Hc Hf.
    destruct (StartShutdown_now (helper s) c Hh Hl Hsch Hc)
      as (h1 & HS1 & Hst & He & Hhook).
    assert (Hex : exec (External i) s =
              Some {| helper := h1;
                      pool := <[i := GDone]> (pool s) ++
                              [GShutdown SdCallHandler nilError] |}).
    { simpl. unfold stepGoroutine. rewrite Hi. simpl.
      unfold bind at 1. rewrite HS1. reflexivity. }
    eexists. split; [exact Hex|]. split; [exact Hst|].
    split; [reflexivity|].
    intros acts s2 Hrun Hge.
    assert (Hr1 : reachable
              {| helper := h1;
                 pool := <[i := GDone]> (pool s) ++
                         [GShutdown SdCallHandler nilError] |}).
    { apply (reachable_run [External i] s); [exact Hr|].
      cbn [run]. by rewrite Hex. }
    destruct (settled_after _ c f acts s2 Hr1 Hst He
                ltac:(simpl; congruence) Hrun) as [_ HQ].
    unfold_states.
    destruct HQ as [(X & _)|[_ E]]; [lia|exact E].
Qed.

Lemma ShutdownOnContext_monitor_witness :
  exists s1,
    exec (External 0%nat)
      {| helper := freshHelper; pool := [GContext (errors_New "cancelled")] |}
      = Some s1 /\
    state (helper s1) = StateShuttingDown /\
    pool s1 = <[0%nat := GDone]> [GContext (errors_New "cancelled")] ++
              [GShutdown SdCallHandler nilError] /\
    forall acts s2,
      run acts s1 = Some s2 ->
      StateLocalShutdown <= state (helper s2) ->
      shutdownErr (helper s2) = echoHandler (errors_New "cancelled").
Proof.
  apply (proj2 (ShutdownOnContext_monitor
                  {| helper := freshHelper;
                     pool := [GContext (errors_New "cancelled")] |}
                  0%nat (errors_New "cancelled") echoHandler
                  (reachable_from_fresh
                     [Invoke (CallShutdownOnContext (errors_New "cancelled"))]
                     _ ltac:(vm_compute; reflexivity))
                  ltac:(reflexivity))); reflexivity.
Defined.

(** ** The shutdown hook of a helper *)

Ltac keeps_M :=
  unfold_M; simpl in *; split_ifs; simpl; try exact I; split; reflexivity.

Lemma invoke_keeps c h :
  keepsHandler (Invoke c) -> KeepsHook h (invoke c h).
Proof.
  intros Hk. destruct_helper h. unfold KeepsHook.
  destruct c; try contradiction; keeps_M.
Qed.

Lemma resume_keeps g h : KeepsHook h (resume g h).
Proof.
  destruct_helper h. unfold KeepsHook.
  destruct g as [pc cb w err|pc e|kind|ctxErr|].
  - destruct pc; unfold resume, resumeActivate, activateLocked; keeps_M.
  - destruct pc; unfold resume, resumeShutdown; keeps_M.
  - destruct kind; unfold resume; keeps_M.
  - unfold resume; keeps_M.
  - exact I.
Qed.

Lemma resumeExternal_keeps g h : KeepsHook h (resumeExternal g h).
Proof.
  destruct_helper h. unfold KeepsHook.
  destruct g as [pc cb w err|pc e|kind|ctxErr|]; try exact I.
  - destruct kind; unfold resumeExternal; keeps_M.
  - unfold resumeExternal; keeps_M.
Qed.

Lemma exec_keeps a s s' :
  keepsHandler a -> exec a s = Some s' ->
  obj (helper s') = obj (helper s) /\
  shutdownHandler (helper s') = shutdownHandler (helper s).
Proof.
  intros Hk He. destruct a as [c|cb w|i|i]; simpl in He.
  - pose proof (invoke_keeps c (helper s) Hk) as H.
    destruct (invoke c (helper s)); simplify_eq; exact H.
  - simplify_eq. auto.
  - unfold stepGoroutine in He. destruct (pool s !! i) as [g|]; [|done].
    pose proof (resume_keeps g (helper s)) as H.
    destruct (resume g (helper s)); simplify_eq; exact H.
  - unfold stepGoroutine in He. destruct (pool s !! i) as [g|]; [|done].
    pose proof (resumeExternal_keeps g (helper s)) as H.
    destruct (resumeExternal g (helper s)); simplify_eq; exact H.
Qed.

Lemma run_keeps acts : forall s s',
  Forall keepsHandler acts -> run acts s = Some s' ->
  obj (helper s') = obj (helper s) /\
  shutdownHandler (helper s') = shutdownHandler (helper s).
Proof.
  induction acts as [|a acts IH]; simpl; intros s s' Hk Hr.
  - by simplify_eq.
  - destruct (exec a s) as [s1|] eqn:E; [|done].
    apply Forall_cons in Hk as [Ha Hk].
    destruct (exec_keeps a s s1 Ha E) as [E1 E2].
    destruct (IH s1 s' Hk Hr) as [E3 E4]. split; congruence.
Qed.

(** The shutdown hook stays resolvable.  A constructed helper has a
    shutdown hook (the handler given to the constructor, else the
    object's [HandleOnceShutdown]), and no action other than a call of
    [SetOnceShutdownHandler] changes it; so in such runs the hook call
    of the shutdown goroutine (lines 857-862) never panics and applies
    that hook to the terminal error. *)
Theorem shutdown_hook_stays_resolvable :
  forall o logger sh h0 acts s,
    NewHelperWithShutdownHandler o logger sh = Constructed h0 ->
    Forall keepsHandler acts ->
    run acts (boot h0) = Some s ->
    exists f,
      match sh with Some g => Some g | None => HandleOnceShutdown o end
        = Some f /\
      shutdownHook (helper s) = Some f /\
      forall e,
        resume (GShutdown SdCallHandler e) (helper s) =
          Ok (GShutdown SdLocalShutdown (f (shutdownErr (helper s))))
             (helper s) [].
Proof.
  intros o logger sh h0 acts s Hc Hk Hr.
  destruct (run_keeps acts _ _ Hk Hr) as [E1 E2]. simpl in E1, E2.
  assert (H0 : obj h0 = o /\ shutdownHandler h0 = sh /\
               match sh with Some g => Some g | None => HandleOnceShutdown o end
               <> None).
  { unfold NewHelperWithShutdownHandler in Hc.
    destruct sh, (HandleOnceShutdown o); simplify_eq; simpl; auto. }
  destruct H0 as (O1 & O2 & O3).
  destruct (match sh with Some g => Some g | None => HandleOnceShutdown o end)
    as [f|] eqn:Ef; [|done].
  exists f. split; [reflexivity|].
  assert (Hhook : shutdownHook (helper s) = Some f).
  { unfold shutdownHook. rewrite E1, E2, O1, O2. exact Ef. }
  split; [exact Hhook|].
  intros e. unfold shutdownHook in Hhook.
  destruct (helper s) as
    [h_lg h_obj h_Lock h_state h_handler h_count h_activated
     h_scheduled h_err h_adc h_ssc h_lsc h_sdc h_wg].
  simpl in *. unfold resumeShutdown; unfold_M; cbn.
  destruct h_handler; simplify_eq; cbn; [reflexivity|].
  rewrite Hhook. reflexivity.
Qed.

Lemma shutdown_hook_stays_resolvable_witness :
  exists s f,
    run [Activate None false; Run 0%nat; Invoke CallDeferShutdown;
         Invoke (CallStartShutdown (errors_New "boom"))]
        (boot freshHelper) = Some s /\
    Some echoHandler = Some f /\
    shutdownHook (helper s) = Some f /\
    forall e,
      resume (GShutdown SdCallHandler e) (helper s) =
        Ok (GShutdown SdLocalShutdown (f (shutdownErr (helper s))))
           (helper s) [].
Proof.
  destruct (run [Activate None false; Run 0%nat; Invoke CallDeferShutdown;
                 Invoke (CallStartShutdown (errors_New "boom"))]
              (boot freshHelper)) as [s|] eqn:R;
    [|vm_compute in R; discriminate].
  destruct (shutdown_hook_stays_resolvable plainObj None (Some echoHandler)
              freshHelper
              [Activate None false; Run 0%nat; Invoke CallDeferShutdown;
               Invoke (CallStartShutdown (errors_New "boom"))]
              s ltac:(reflexivity)
              ltac:(repeat constructor) R) as (f & H).
  exists s, f. split; [reflexivity|exact H].
Defined.

(** ** Releasing a deferral and waiting *)

(** [UndeferAndWaitShutdown] and [UndeferAndWaitLocalShutdown] run
    without interference in a reachable system with the mutex free and a
    deferral outstanding: they do exactly what [UndeferShutdown] does and
    then wait; they do not schedule shutdown, and their argument is not
    used. *)
Theorem UndeferAndWaitShutdown_alone :
  forall s e,
    reachable s ->
    let h := helper s in
    Lock h = false -> 1 <= shutdownDeferCount h <= 2 ^ 63 ->
    exists h' st,
      UndeferShutdown h = Ok tt h' st /\
      isScheduledShutdown h' = isScheduledShutdown h /\
      shutdownErr h' = shutdownErr h /\
      runScript 2 (UndeferAndWaitShutdown e) h
        = Waiting (call WaitShutdown) h' st /\
      runScript 2 (UndeferAndWaitLocalShutdown e) h
        = Waiting (call WaitLocalShutdown) h' st.
Proof.
  intros s e Hr h Hl Hc. subst h.
  pose proof (proj1 (reachable_SInv s Hr)) as Hh.
  destruct (UndeferShutdown_returns (helper s) Hh Hl Hc)
    as (h' & st & HU & U1 & U2 & U3 & _ & _ & _ & U4).
  exists h', st. split; [exact HU|]. split; [exact U3|]. split; [exact U2|].
  assert (Hr' : reachable {| helper := h'; pool := pool s ++ st |}).
  { apply (reachable_run [Invoke CallUndeferShutdown] s); [exact Hr|].
    cbn [run]. by rewrite (invoke_UndeferShutdown_exec s h' st HU). }
  assert (Hle : state h' <= 3).
  { destruct ((shutdownDeferCount (helper s) =? 1) &&
              isScheduledShutdown (helper s)); destruct U4 as [X _].
    - lia.
    - rewrite X. destruct Hh as (_ & _ & _ & _ & _ & _ & _ & _ & Hpos).
      specialize (Hpos ltac:(lia)). lia. }
  destruct (reachable_SInv _ Hr')
    as [(_ & _ & _ & _ & _ & _ & L4 & L5 & _) _]. simpl in L4, L5.
  assert (O5 : shutdownDoneChan h' = ChanOpen).
  { destruct (shutdownDoneChan h'); [done|].
    pose proof (proj1 L5 eq_refl). lia. }
  assert (O4 : localShutdownDoneChan h' = ChanOpen).
  { destruct (localShutdownDoneChan h'); [done|].
    pose proof (proj1 L4 eq_refl). lia. }
  unfold UndeferAndWaitShutdown, UndeferAndWaitLocalShutdown, runScript, call.
  rewrite HU. rewrite WaitShutdown_eval, WaitLocalShutdown_eval, O5, O4.
  simpl. rewrite app_nil_r. auto.
Qed.

Lemma UndeferAndWaitShutdown_alone_witness :
  exists h' st,
    UndeferShutdown (set_shutdownDeferCount 1 freshHelper) = Ok tt h' st /\
    isScheduledShutdown h' =
      isScheduledShutdown (set_shutdownDeferCount 1 freshHelper) /\
    shutdownErr h' = shutdownErr (set_shutdownDeferCount 1 freshHelper) /\
    runScript 2 (UndeferAndWaitShutdown nilError)
        (set_shutdownDeferCount 1 freshHelper)
      = Waiting (call WaitShutdown) h' st /\
    runScript 2 (UndeferAndWaitLocalShutdown nilError)
        (set_shutdownDeferCount 1 freshHelper)
      = Waiting (call WaitLocalShutdown) h' st.
Proof.
  apply (UndeferAndWaitShutdown_alone
           {| helper := set_shutdownDeferCount 1 freshHelper; pool := [] |}
           nilError).
  - apply (reachable_from_fresh [Invoke CallDeferShutdown]).
    vm_compute. reflexivity.
  - reflexivity.
  - vm_compute. split; discriminate.
Defined.

(** ** A helper whose shutdown hook cannot be resolved *)

Lemma fresh_noHookOk st : Forall freshG st -> Forall noHookOk st.
Proof.
  intros H. eapply Forall_impl; [exact H|].
  intros [pc cb w e|[] e|k|c|]; simpl; tauto.
Qed.

Lemma noHookOk_other g : driverPC g = None -> noHookOk g.
Proof. destruct g; simpl; [done|discriminate|done..]. Qed.

Lemma noHook_drivers l :
  Forall noHookOk l ->
  Forall (fun pc => pc = SdCallHandler \/ pc = SdPanicked) (drivers l).
Proof.
  induction 1 as [|g l Hg _ IH]; [constructor|].
  unfold drivers in *. simpl. destruct g; simpl in *; auto.
Qed.

Lemma resumeShutdown_noHook e h :
  shutdownHook h = None ->
  resumeShutdown SdCallHandler e h =
    Panicked "interface conversion: not a HandleOnceShutdowner" h [].
Proof.
  unfold shutdownHook. destruct_helper h. simpl.
  intros Hhook. unfold resumeShutdown; unfold_M; cbn.
  destruct h_handler; [discriminate|]. cbn. rewrite Hhook. reflexivity.
Qed.

Lemma exec_NoHook a s s' :
  SInv s -> keepsHandler a -> NoHook s -> exec a s = Some s' -> NoHook s'.
Proof.
  intros HS Hk [Hhook Hpool] He.
  destruct (exec_keeps a s s' Hk He) as [Ko Kh].
  split; [unfold shutdownHook in *; rewrite Ko, Kh; exact Hhook|].
  destruct (exec_Transition a s s' HS He)
    as [c h' st Hf ->|cb w ->|code i0 g g' h' st Hc Hi Hg Hg' Hc' ->
        |i0 pc e g' h' Hi Hp Hc' ->]; simpl in *.
  - apply Forall_app_2; [exact Hpool|]. apply fresh_noHookOk.
    exact (Finishes_fresh _ _ _ (invoke_fresh c (helper s)) Hf).
  - apply Forall_app_2; [exact Hpool|]. repeat constructor.
  - apply Forall_app_2.
    + apply Forall_insert; [exact Hpool|]. by apply noHookOk_other.
    + apply fresh_noHookOk. destruct Hc as [-> | ->].
      * eapply Continues_fresh; [|exact Hc']. by apply resume_other_fresh.
      * eapply Continues_fresh; [|exact Hc']. apply resumeExternal_fresh.
  - apply Forall_insert; [exact Hpool|].
    pose proof (Forall_lookup_1 _ _ _ _ Hpool Hi) as Hg. simpl in Hg.
    destruct Hg as [-> | ->].
    + rewrite (resumeShutdown_noHook e (helper s) Hhook) in Hc'.
      destruct Hc' as [E|(msg & E & ->)]; [discriminate|]. simpl. auto.
    + destruct Hc' as [E|(msg & E & _)]; discriminate.
Qed.

Lemma run_NoHook acts : forall s s',
  SInv s -> Forall keepsHandler acts -> NoHook s ->
  run acts s = Some s' -> SInv s' /\ NoHook s'.
Proof.
  induction acts as [|a acts IH]; simpl; intros s s' HS Hk HN Hr.
  - by simplify_eq.
  - destruct (exec a s) as [s1|] eqn:E; [|done].
    apply Forall_cons in Hk as [Ha Hk].
    destruct (exec_SInv a s s1 HS E) as [HS1 _].
    apply (IH s1 s' HS1 Hk); [|exact Hr].
    exact (exec_NoHook a s s1 HS Ha HN E).
Qed.

(** [SetOnceShutdownHandler] does not repeat the check that the
    constructor makes: before activation it accepts a nil handler also
    for an object without [HandleOnceShutdown].  From then on, as long as
    no handler is installed again, shutdown cannot complete: in every run
    the state stays at or below shutting-down and neither
    local-shutdown-done nor shutdown-done is closed, so
    [WaitLocalShutdown] and [WaitShutdown] do not return; and the
    shutdown goroutine, whenever it is started, panics at its first
    statement (the type assertion of line 859, in a goroutine without
    recover) and has not touched the helper. *)
Theorem nil_handler_makes_shutdown_panic :
  forall s acts s',
    reachable s ->
    Lock (helper s) = false ->
    state (helper s) < StateActivated ->
    HandleOnceShutdown (obj (helper s)) = None ->
    Forall keepsHandler acts ->
    run (Invoke (CallSetOnceShutdownHandler None) :: acts) s = Some s' ->
    SetOnceShutdownHandler None (helper s)
      = Ok nilError (set_shutdownHandler None (helper s)) [] /\
    shutdownHook (helper s') = None /\
    state (helper s') <= StateShuttingDown /\
    WaitLocalShutdown (helper s') = Blocked /\
    WaitShutdown (helper s') = Blocked /\
    forall i e,
      pool s' !! i = Some (GShutdown SdCallHandler e) ->
      state (helper s') = StateShuttingDown /\
      resume (GShutdown SdCallHandler e) (helper s') =
        Panicked "interface conversion: not a HandleOnceShutdowner"
          (helper s') [].
Proof.
  intros s acts s' Hr Hl Hst Hobj Hk Hrun.
  pose proof (reachable_SInv s Hr) as HS.
  assert (E0 : SetOnceShutdownHandler None (helper s)
                 = Ok nilError (set_shutdownHandler None (helper s)) []).
  { clear Hrun Hr HS. destruct (helper s) as
      [h_lg h_obj h_Lock h_state h_handler h_count h_activated
       h_scheduled h_err h_adc h_ssc h_lsc h_sdc h_wg].
    simpl in *; subst. unfold_states.
    unfold SetOnceShutdownHandler; unfold_M; unfold_states; cbn.
    destruct (Z.leb_spec 2 h_state); [lia|reflexivity]. }
  split; [exact E0|].
  set (s1 := {| helper := set_shutdownHandler None (helper s);
                pool := pool s |}).
  assert (E1 : exec (Invoke (CallSetOnceShutdownHandler None)) s = Some s1).
  { simpl. unfold bind at 1. rewrite E0. simpl. by rewrite app_nil_r. }
  cbn [run] in Hrun. rewrite E1 in Hrun.
  assert (Hr1 : reachable s1).
  { apply (reachable_run [Invoke (CallSetOnceShutdownHandler None)] s);
      [exact Hr|].
    cbn [run]. by rewrite E1. }
  pose proof (reachable_SInv s1 Hr1) as HS1.
  assert (HN1 : NoHook s1).
  { split.
    - subst s1. unfold shutdownHook. clear -Hobj.
      destruct (helper s); simpl in *. exact Hobj.
    - assert (Hd : drivers (pool s) = []).
      { destruct HS as [_ Hd].
        destruct (drivers (pool s)) as [|pc [|]]; [done| |done].
        apply phaseOk_ge in Hd. unfold_states. lia. }
      subst s1. simpl. clear -Hd.
      induction (pool s) as [|g l IH]; [constructor|].
      unfold drivers in Hd. simpl in Hd.
      destruct g; simpl in Hd; try discriminate;
        (constructor; [exact I|apply IH; exact Hd]). }
  destruct (run_NoHook acts s1 s' HS1 Hk HN1 Hrun) as [HS' [Hh' Hp']].
  split; [exact Hh'|].
  assert (Hle : state (helper s') <= 3).
  { pose proof (noHook_drivers _ Hp') as Hd.
    destruct HS' as [_ Hph].
    destruct (drivers (pool s')) as [|pc [|]]; [lia| |done].
    apply Forall_cons in Hd as [[-> | ->] _]; simpl in Hph; lia. }
  destruct HS' as [(_ & _ & _ & _ & _ & _ & L4 & L5 & _) Hph].
  unfold_states. split; [exact Hle|].
  rewrite WaitLocalShutdown_eval, WaitShutdown_eval.
  split; [|split].
  - destruct (localShutdownDoneChan (helper s')); [done|].
    pose proof (proj1 L4 eq_refl). lia.
  - destruct (shutdownDoneChan (helper s')); [done|].
    pose proof (proj1 L5 eq_refl). lia.
  - intros i e Hi. split.
    + destruct (drivers_insert (pool s') i _ GDone Hi) as [Ed _].
      rewrite Ed in Hph. simpl in Hph.
      destruct (drivers (take i (pool s'))) as [|p1 [|p2 l1]];
        destruct (drivers (drop (S i) (pool s'))); simpl in Hph;
        try contradiction; exact Hph.
    + unfold resume. apply resumeShutdown_noHook, Hh'.
Qed.

Lemma nil_handler_makes_shutdown_panic_witness :
  exists s',
    run [Invoke (CallSetOnceShutdownHandler None);
         Invoke CallDeferShutdown;
         Invoke (CallStartShutdown (errors_New "boom"));
         Invoke CallUndeferShutdown] (boot freshHelper) = Some s' /\
    pool s' !! 0%nat = Some (GShutdown SdCallHandler nilError) /\
    shutdownHook (helper s') = None /\
    state (helper s') = StateShuttingDown /\
    WaitLocalShutdown (helper s') = Blocked /\
    WaitShutdown (helper s') = Blocked /\
    resume (GShutdown SdCallHandler nilError) (helper s') =
      Panicked "interface conversion: not a HandleOnceShutdowner"
        (helper s') [].
Proof.
  destruct (run [Invoke (CallSetOnceShutdownHandler None);
                 Invoke CallDeferShutdown;
                 Invoke (CallStartShutdown (errors_New "boom"));
                 Invoke CallUndeferShutdown] (boot freshHelper))
    as [s'|] eqn:R; [|vm_compute in R; discriminate].
  exists s'. split; [reflexivity|].
  assert (Hi : pool s' !! 0%nat = Some (GShutdown SdCallHandler nilError))
    by (vm_compute in R; simplify_eq; reflexivity).
  split; [exact Hi|].
  destruct (nil_handler_makes_shutdown_panic (boot freshHelper)
              [Invoke CallDeferShutdown;
               Invoke (CallStartShutdown (errors_New "boom"));
               Invoke CallUndeferShutdown] s')
    as (_ & H1 & _ & H3 & H4 & H5).
  - apply (reachable_from_fresh []). reflexivity.
  - reflexivity.
  - vm_compute. reflexivity.
  - reflexivity.
  - repeat constructor.
  - exact R.
  - destruct (H5 0%nat nilError Hi) as [H6 H7].
    split; [exact H1|]. split; [exact H6|]. split; [exact H3|].
    split; [exact H4|exact H7].
Defined.
